(** * Source/Scene/ClippingPlaneCollection.js

    A shallow embedding of Cesium's [ClippingPlaneCollection] and the
    properties of its plane set, dirty tracker, texture update and
    bounding-volume classifier.

    JavaScript objects that are shared between the collection and its callers
    (the planes) live in an explicit heap of plane objects; the collection
    holds references.  JavaScript numbers are idealised as exact rationals
    extended with the two infinities and NaN (rounding and the sign of zero
    are not modelled). *)

From Stdlib Require Import ZArith QArith Qround Lia Lqa Bool.
From stdpp Require Import base list functions.

Local Open Scope Z_scope.

(** ** JavaScript numbers *)

Module Number.

Inductive t : Type :=
| Fin (q : Q)
| PInf
| NInf
| NaN.

Definition ofZ (z : Z) : t := Fin (inject_Z z).

Definition Qltb (a b : Q) : bool := negb (Qle_bool b a).

(** [a < b] *)
Definition lt (a b : t) : bool :=
  match a, b with
  | NaN, _ | _, NaN => false
  | Fin x, Fin y => Qltb x y
  | NInf, NInf => false
  | NInf, _ => true
  | _, NInf => false
  | PInf, _ => false
  | Fin _, PInf => true
  end.

(** [a === b] *)
Definition strict_eq (a b : t) : bool :=
  match a, b with
  | Fin x, Fin y => Qeq_bool x y
  | PInf, PInf | NInf, NInf => true
  | _, _ => false
  end.

(** the infinity with the sign of [x * s], NaN when [x] is zero *)
Definition scaled_inf (x : Q) (positive : bool) : t :=
  if Qeq_bool x 0 then NaN
  else if Bool.eqb (Qltb 0 x) positive then PInf else NInf.

(** [a * b] *)
Definition mul (a b : t) : t :=
  match a, b with
  | NaN, _ | _, NaN => NaN
  | Fin x, Fin y => Fin (x * y)
  | Fin x, PInf | PInf, Fin x => scaled_inf x true
  | Fin x, NInf | NInf, Fin x => scaled_inf x false
  | PInf, PInf | NInf, NInf => PInf
  | PInf, NInf | NInf, PInf => NInf
  end.

(** [a / b] *)
Definition div (a b : t) : t :=
  match a, b with
  | NaN, _ | _, NaN => NaN
  | Fin x, Fin y =>
      if Qeq_bool y 0 then scaled_inf x true else Fin (x / y)
  | Fin _, (PInf | NInf) => Fin 0
  | (PInf | NInf), (PInf | NInf) => NaN
  | PInf, Fin y => if Qltb y 0 then NInf else PInf
  | NInf, Fin y => if Qltb y 0 then PInf else NInf
  end.

(** [a - b] *)
Definition sub (a b : t) : t :=
  match a, b with
  | NaN, _ | _, NaN => NaN
  | Fin x, Fin y => Fin (x - y)
  | PInf, PInf | NInf, NInf => NaN
  | PInf, _ | _, NInf => PInf
  | NInf, _ | _, PInf => NInf
  end.

(** [Math.min(a, b)] *)
Definition min (a b : t) : t :=
  match a, b with
  | NaN, _ | _, NaN => NaN
  | _, _ => if lt b a then b else a
  end.

(** [Math.max(a, b)] *)
Definition max (a b : t) : t :=
  match a, b with
  | NaN, _ | _, NaN => NaN
  | _, _ => if lt a b then b else a
  end.

(** [Math.ceil(a)] *)
Definition ceil (a : t) : t :=
  match a with
  | Fin x => ofZ (Qceiling x)
  | _ => a
  end.

(** [Math.floor(a)] *)
Definition floor (a : t) : t :=
  match a with
  | Fin x => ofZ (Qfloor x)
  | _ => a
  end.

(** The array index a number denotes, if it is a non-negative integer. *)
Definition to_index (a : t) : option nat :=
  match a with
  | Fin x =>
      if Qeq_bool x (inject_Z (Qfloor x)) && (0 <=? Qfloor x)
      then Some (Z.to_nat (Qfloor x)) else None
  | _ => None
  end.

End Number.

Abbreviation Number := Number.t.

(** ** Core value types *)

Module Cartesian2.
Record t : Type := mk { x : Number; y : Number }.
End Cartesian2.

Module Cartesian3.
Record t : Type := mk { x : Number; y : Number; z : Number }.

(** Modelled from the spec: Core/Cartesian3.equals is not part of the
    sources; "value-equality" is component-wise strict equality. *)
Definition equals (left right : t) : bool :=
  Number.strict_eq (x left) (x right)
  && Number.strict_eq (y left) (y right)
  && Number.strict_eq (z left) (z right).
End Cartesian3.

Module Cartesian4.
Record t : Type := mk { x : Number; y : Number; z : Number; w : Number }.
Definition ZERO : t := mk (Number.ofZ 0) (Number.ofZ 0) (Number.ofZ 0) (Number.ofZ 0).
End Cartesian4.

(** Core/Matrix4: sixteen numbers, column-major. *)
Definition Matrix4 : Type := list Number.

Module Matrix4.
Definition IDENTITY : Matrix4 :=
  let o := Number.ofZ 0 in let i := Number.ofZ 1 in
  [i; o; o; o;  o; i; o; o;  o; o; i; o;  o; o; o; i].
Definition clone (m : Matrix4) : Matrix4 := m.
End Matrix4.

(** Core/Intersect *)
Inductive Intersect : Type := OUTSIDE | INTERSECTING | INSIDE.

Definition Intersect_eqb (a b : Intersect) : bool :=
  match a, b with
  | OUTSIDE, OUTSIDE | INTERSECTING, INTERSECTING | INSIDE, INSIDE => true
  | _, _ => false
  end.

Inductive PixelDatatype : Type := FLOAT | UNSIGNED_BYTE.

Inductive Error : Type := DeveloperError | TypeError | RangeError.

(** How a call ends: it returns, or it throws. *)
Inductive Completion : Type := Normal | Abrupt (e : Error).

(** A JavaScript argument, as far as [typeof] tells them apart. *)
Inductive Value : Type :=
| VNumber (n : Number)
| VBoolean (b : bool)
| VUndefined.

(** ** Plane objects and the heap they live in *)

Abbreviation PlaneRef := nat.

(** The closure [function(index) { setIndexDirty(that, index); }] that [add]
    installs on a ClippingPlane. *)
Inductive Callback : Type := SetIndexDirtyCallback.

(** A plane is either a ClippingPlane (it carries [index] and
    [onChangeCallback]) or a bare Core/Plane ([instanceof ClippingPlane] is
    false for it). *)
Inductive PlaneObject : Type :=
| ClippingPlane (normal : Cartesian3.t) (distance : Number)
                (index : Z) (onChangeCallback : option Callback)
| Plane (normal : Cartesian3.t) (distance : Number).

Definition normal (p : PlaneObject) : Cartesian3.t :=
  match p with ClippingPlane n _ _ _ | Plane n _ => n end.

Definition distance (p : PlaneObject) : Number :=
  match p with ClippingPlane _ d _ _ | Plane _ d => d end.

Definition instanceofClippingPlane (p : PlaneObject) : bool :=
  match p with ClippingPlane _ _ _ _ => true | Plane _ _ => false end.

(** [plane.index], when the object has that property *)
Definition index (p : PlaneObject) : option Z :=
  match p with ClippingPlane _ _ i _ => Some i | Plane _ _ => None end.

(** [plane.onChangeCallback], when defined *)
Definition onChangeCallback (p : PlaneObject) : option Callback :=
  match p with ClippingPlane _ _ _ cb => cb | Plane _ _ => None end.

(** [plane.index = i] on a ClippingPlane *)
Definition set_index (p : PlaneObject) (i : Z) : PlaneObject :=
  match p with
  | ClippingPlane n d _ cb => ClippingPlane n d i cb
  | Plane n d => Plane n d
  end.

(** [plane.onChangeCallback = cb] on a ClippingPlane *)
Definition set_onChangeCallback (p : PlaneObject) (cb : option Callback) : PlaneObject :=
  match p with
  | ClippingPlane n d i _ => ClippingPlane n d i cb
  | Plane n d => Plane n d
  end.

(** Modelled from the spec: Core/Plane.equals is not part of the sources;
    the spec calls it value-equality of the geometric plane data (normal and
    distance), independent of tracking status. *)
Definition Plane_equals (left right : PlaneObject) : bool :=
  Number.strict_eq (distance left) (distance right)
  && Cartesian3.equals (normal left) (normal right).

Abbreviation Heap := (PlaneRef -> PlaneObject).

(** ** The texture behind the collection *)

(** Modelled from the spec: Renderer/Texture is not part of the sources.  The
    spec's GPU resource collaborator supports allocate(width, height, format,
    datatype), uploadRegion(data, xOffset, yOffset, width, height),
    uploadFull(data) and destroy().  A texture is its dimensions, its
    datatype and one RGBA texel per pixel, row by row. *)
Record Texture : Type := mkTexture {
  width : Number;
  height : Number;
  pixelDatatype : PixelDatatype;
  texels : list Cartesian4.t
}.

(** The calls a collection makes on its texture collaborator. *)
Inductive GpuCall : Type :=
| TextureNew (width height : Number) (datatype : PixelDatatype)
| TextureDestroy
| TextureCopyFrom (width height : Number) (offset : option (Number * Number)).

(** The number of texels of a texture; none unless both dimensions are
    non-negative integers. *)
Definition texel_count (width height : Number) : nat :=
  match Number.to_index width, Number.to_index height with
  | Some w, Some h => (w * h)%nat
  | _, _ => 0%nat
  end.

(** Modelled from the spec: allocate(width, height, format, datatype); the
    new texture holds zeros. *)
Definition Texture_new (width height : Number) (datatype : PixelDatatype) : Texture :=
  mkTexture width height datatype (replicate (texel_count width height) Cartesian4.ZERO).

(** A typed array, read back as numbers. *)
Abbreviation TypedArray := (list Number).

(** [new Float32Array(length)] / [new Uint8Array(length)]: zero-filled; NaN
    counts as 0, a fraction is truncated, a negative or infinite length is a
    RangeError. *)
Definition TypedArray_new (length : Number) : Error + TypedArray :=
  match length with
  | Number.NaN => inr []
  | Number.Fin q =>
      let n := if Number.Qltb q 0 then Qceiling q else Qfloor q in
      if n <? 0 then inl RangeError
      else inr (replicate (Z.to_nat n) (Number.ofZ 0))
  | _ => inl RangeError
  end.

(** The [k]-th RGBA pixel of a typed array. *)
Definition pixelAt (view : TypedArray) (k : nat) : Cartesian4.t :=
  let at_ i := default (Number.ofZ 0) (view !! i) in
  Cartesian4.mk (at_ (4 * k)%nat) (at_ (4 * k + 1)%nat)
                (at_ (4 * k + 2)%nat) (at_ (4 * k + 3)%nat).

(** Copy a [srcWidth] x [srcHeight] block of pixels, taken from the start of
    [view], to the texels at column [xOffset], row [yOffset] of a texture
    [texWidth] pixels wide. *)
Definition blit (texWidth : nat) (texels : list Cartesian4.t)
    (srcWidth srcHeight xOffset yOffset : nat) (view : TypedArray) : list Cartesian4.t :=
  foldl (fun tx row =>
    foldl (fun tx col =>
      <[((yOffset + row) * texWidth + xOffset + col)%nat := pixelAt view (row * srcWidth + col)]> tx)
      tx (seq 0 srcWidth))
    texels (seq 0 srcHeight).

(** Modelled from the spec: uploadRegion(data, xOffset, yOffset, width,
    height).  The region is copied when it lies inside the texture and the
    data holds that many pixels; any other request is rejected by the
    graphics library and leaves the texels as they are. *)
Definition Texture_copyFrom (t : Texture) (srcWidth srcHeight : Number)
    (arrayBufferView : TypedArray) (xOffset yOffset : Number) : Texture :=
  match Number.to_index (width t), Number.to_index (height t),
        Number.to_index srcWidth, Number.to_index srcHeight,
        Number.to_index xOffset, Number.to_index yOffset with
  | Some tw, Some th, Some sw, Some sh, Some xo, Some yo =>
      if (xo + sw <=? tw)%nat && (yo + sh <=? th)%nat
         && (4 * sw * sh <=? length arrayBufferView)%nat
      then mkTexture (width t) (height t) (pixelDatatype t)
                     (blit tw (texels t) sw sh xo yo arrayBufferView)
      else t
  | _, _, _, _, _, _ => t
  end.

(** ** Collaborators whose code is outside the collection

    The encoders, the element conversions of the typed arrays and the
    matrix and plane arithmetic of Core are used by the collection but are
    not part of its source; the development is parametric in them. *)
Class Collaborators : Type := {
  (** AttributeCompression.octEncodeToCartesian4(normal, result) *)
  octEncodeToCartesian4 : Cartesian3.t -> Cartesian4.t;
  (** Cartesian4.packFloat(value, result) *)
  packFloat : Number -> Cartesian4.t;
  (** the number a Float32Array element holds after [view[i] = v] *)
  toFloat32 : Number -> Number;
  (** the number a Uint8Array element holds after [view[i] = v] *)
  toUint8 : Number -> Number;
  (** Matrix4.multiply(left, right, result) *)
  Matrix4_multiply : Matrix4 -> Matrix4 -> Matrix4;
  (** Plane.transform(plane, transform, result): the result is a Core/Plane *)
  Plane_transform : PlaneObject -> Matrix4 -> PlaneObject
}.

(** A bounding volume: [tileBoundingVolume.intersectPlane(plane)]. *)
Record BoundingVolume : Type := { intersectPlane : PlaneObject -> Intersect }.

(** ContextLimits.maximumTextureSize, module state of the renderer. *)
Record ContextLimits : Type := { maximumTextureSize : Z }.

Record Context : Type := { floatingPointTexture : bool }.
Record FrameState : Type := { context : Context }.

(** ** The collection *)

Definition unionIntersectFunction (value : Intersect) : bool :=
  Intersect_eqb value OUTSIDE.

Definition defaultIntersectFunction (value : Intersect) : bool :=
  Intersect_eqb value INSIDE.

(** The fields of a ClippingPlaneCollection, without the cosmetic
    [edgeColor] and [edgeWidth] and without [_owner]. *)
Record ClippingPlaneCollection : Type := mkCollection {
  _planes : list PlaneRef;
  _containsUntrackablePlanes : bool;
  _dirtyIndex : Z;
  _multipleDirtyPlanes : bool;
  _enabled : bool;
  modelMatrix : Matrix4;
  _unionClippingRegions : bool;
  _testIntersection : Intersect -> bool;
  _uint8View : option TypedArray;
  _float32View : option TypedArray;
  _clippingPlanesTexture : option Texture
}.

Definition with_planes (this : ClippingPlaneCollection) v :=
  mkCollection v (_containsUntrackablePlanes this) (_dirtyIndex this)
    (_multipleDirtyPlanes this) (_enabled this) (modelMatrix this)
    (_unionClippingRegions this) (_testIntersection this) (_uint8View this)
    (_float32View this) (_clippingPlanesTexture this).

Definition with_containsUntrackablePlanes (this : ClippingPlaneCollection) v :=
  mkCollection (_planes this) v (_dirtyIndex this)
    (_multipleDirtyPlanes this) (_enabled this) (modelMatrix this)
    (_unionClippingRegions this) (_testIntersection this) (_uint8View this)
    (_float32View this) (_clippingPlanesTexture this).

Definition with_dirtyIndex (this : ClippingPlaneCollection) v :=
  mkCollection (_planes this) (_containsUntrackablePlanes this) v
    (_multipleDirtyPlanes this) (_enabled this) (modelMatrix this)
    (_unionClippingRegions this) (_testIntersection this) (_uint8View this)
    (_float32View this) (_clippingPlanesTexture this).

Definition with_multipleDirtyPlanes (this : ClippingPlaneCollection) v :=
  mkCollection (_planes this) (_containsUntrackablePlanes this) (_dirtyIndex this)
    v (_enabled this) (modelMatrix this)
    (_unionClippingRegions this) (_testIntersection this) (_uint8View this)
    (_float32View this) (_clippingPlanesTexture this).

Definition with_enabled (this : ClippingPlaneCollection) v :=
  mkCollection (_planes this) (_containsUntrackablePlanes this) (_dirtyIndex this)
    (_multipleDirtyPlanes this) v (modelMatrix this)
    (_unionClippingRegions this) (_testIntersection this) (_uint8View this)
    (_float32View this) (_clippingPlanesTexture this).

Definition with_modelMatrix (this : ClippingPlaneCollection) v :=
  mkCollection (_planes this) (_containsUntrackablePlanes this) (_dirtyIndex this)
    (_multipleDirtyPlanes this) (_enabled this) v
    (_unionClippingRegions this) (_testIntersection this) (_uint8View this)
    (_float32View this) (_clippingPlanesTexture this).

Definition with_unionClippingRegions (this : ClippingPlaneCollection) v :=
  mkCollection (_planes this) (_containsUntrackablePlanes this) (_dirtyIndex this)
    (_multipleDirtyPlanes this) (_enabled this) (modelMatrix this)
    v (_testIntersection this) (_uint8View this)
    (_float32View this) (_clippingPlanesTexture this).

Definition with_testIntersection (this : ClippingPlaneCollection) v :=
  mkCollection (_planes this) (_containsUntrackablePlanes this) (_dirtyIndex this)
    (_multipleDirtyPlanes this) (_enabled this) (modelMatrix this)
    (_unionClippingRegions this) v (_uint8View this)
    (_float32View this) (_clippingPlanesTexture this).

Definition with_uint8View (this : ClippingPlaneCollection) v :=
  mkCollection (_planes this) (_containsUntrackablePlanes this) (_dirtyIndex this)
    (_multipleDirtyPlanes this) (_enabled this) (modelMatrix this)
    (_unionClippingRegions this) (_testIntersection this) v
    (_float32View this) (_clippingPlanesTexture this).

Definition with_float32View (this : ClippingPlaneCollection) v :=
  mkCollection (_planes this) (_containsUntrackablePlanes this) (_dirtyIndex this)
    (_multipleDirtyPlanes this) (_enabled this) (modelMatrix this)
    (_unionClippingRegions this) (_testIntersection this) (_uint8View this)
    v (_clippingPlanesTexture this).

Definition with_clippingPlanesTexture (this : ClippingPlaneCollection) v :=
  mkCollection (_planes this) (_containsUntrackablePlanes this) (_dirtyIndex this)
    (_multipleDirtyPlanes this) (_enabled this) (modelMatrix this)
    (_unionClippingRegions this) (_testIntersection this) (_uint8View this)
    (_float32View this) v.

(** The plane objects and the collection that refers to them. *)
Record World : Type := mkWorld {
  heap : Heap;
  collection : ClippingPlaneCollection
}.

(** [planes[i]] for an integer [i]; [None] is JavaScript's undefined. *)
Definition element (planes : list PlaneRef) (i : Z) : option PlaneRef :=
  if i <? 0 then None else planes !! Z.to_nat i.

(** the [length] property *)
Definition length_ (this : ClippingPlaneCollection) : Z :=
  Z.of_nat (length (_planes this)).

(** the [unionClippingRegions] setter *)
Definition set_unionClippingRegions (this : ClippingPlaneCollection) (value : bool) :=
  if Bool.eqb (_unionClippingRegions this) value then this
  else
    let this := with_unionClippingRegions this value in
    with_testIntersection this
      (if value then unionIntersectFunction else defaultIntersectFunction).

(** the [enabled] setter *)
Definition set_enabled (this : ClippingPlaneCollection) (value : bool) :=
  if Bool.eqb (_enabled this) value then this
  else with_enabled this value.

(** the [clippingPlanesState] getter *)
Definition clippingPlanesState (this : ClippingPlaneCollection) : Z :=
  if _unionClippingRegions this then length_ this else - length_ this.

Definition setIndexDirty (collection : ClippingPlaneCollection) (index : Z) :=
  let collection :=
    with_multipleDirtyPlanes collection
      (_multipleDirtyPlanes collection
       || (negb (_dirtyIndex collection =? -1)
           && negb (_dirtyIndex collection =? index))) in
  with_dirtyIndex collection index.

Definition add (w : World) (plane : PlaneRef) : World :=
  let this := collection w in
  let newPlaneIndex := length_ this in
  let '(heap, this) :=
    if instanceofClippingPlane (heap w plane) then
      let o := set_onChangeCallback (heap w plane) (Some SetIndexDirtyCallback) in
      let o := set_index o newPlaneIndex in
      (<[plane := o]> (heap w), this)
    else
      (heap w, with_containsUntrackablePlanes this true) in
  let this := setIndexDirty this newPlaneIndex in
  mkWorld heap (with_planes this (_planes this ++ [plane])).

(** [index] has passed [Check.typeOf.number] or the call has thrown; out of
    range the array read yields undefined ([None]). *)
Definition get (w : World) (index : Value) : Error + option PlaneRef :=
  match index with
  | VNumber n =>
      inr (match Number.to_index n with
           | Some i => _planes (collection w) !! i
           | None => None
           end)
  | _ => inl DeveloperError
  end.

Fixpoint indexOf_from (heap : Heap) (rest : list PlaneRef) (plane : PlaneRef) (i : Z) : Z :=
  match rest with
  | [] => -1
  | p :: rest =>
      if Plane_equals (heap p) (heap plane) then i
      else indexOf_from heap rest plane (i + 1)
  end.

Definition indexOf (heap : Heap) (planes : list PlaneRef) (plane : PlaneRef) : Z :=
  indexOf_from heap planes plane 0.

Definition contains (w : World) (clippingPlane : PlaneRef) : bool :=
  negb (indexOf (heap w) (_planes (collection w)) clippingPlane =? -1).

(** The loop of [remove] that shifts the planes after [index] down and
    renumbers them: [count] iterations from [i]. *)
Fixpoint remove_shift (count : nat) (i : nat) (heap : Heap) (planes : list PlaneRef)
    : Heap * list PlaneRef :=
  match count with
  | O => (heap, planes)
  | S count =>
      match planes !! S i with
      | Some planeToKeep =>
          let planes := <[i := planeToKeep]> planes in
          let heap :=
            if instanceofClippingPlane (heap planeToKeep)
            then <[planeToKeep := set_index (heap planeToKeep) (Z.of_nat i)]> heap
            else heap in
          remove_shift count (S i) heap planes
      | None => (heap, planes)
      end
  end.

Definition remove (w : World) (clippingPlane : PlaneRef) : World * bool :=
  let this := collection w in
  let planes := _planes this in
  let index := indexOf (heap w) planes clippingPlane in
  if index =? -1 then (w, false)
  else
    let heap :=
      if instanceofClippingPlane (heap w clippingPlane) then
        let o := set_onChangeCallback (heap w clippingPlane) None in
        <[clippingPlane := set_index o (-1)]> (heap w)
      else heap w in
    let length := (length planes - 1)%nat in
    let '(heap, planes) :=
      remove_shift (length - Z.to_nat index) (Z.to_nat index) heap planes in
    let this := with_multipleDirtyPlanes this true in
    (mkWorld heap (with_planes this (take length planes)), true).

Definition removeAll (w : World) : World :=
  let this := collection w in
  let heap :=
    foldl (fun (heap : Heap) plane =>
             if instanceofClippingPlane (heap plane) then
               let o := set_onChangeCallback (heap plane) None in
               <[plane := set_index o (-1)]> heap
             else heap)
          (heap w) (_planes this) in
  let this := with_multipleDirtyPlanes this true in
  mkWorld heap (with_planes this []).

(** ** Encoding and the per-frame update *)

Record Outcome : Type := mkOutcome {
  state : ClippingPlaneCollection;
  gpuCalls : list GpuCall;
  completion : Completion
}.

Section Encoding.
Context `{Collaborators}.

(** One iteration per plane of [startIndex, endIndex); the bytes go to the
    start of the view.  Reading a property of an undefined plane, or
    writing to an undefined view, throws a TypeError. *)
Fixpoint packPlanesAsUint8_loop (heap : Heap) (planes : list PlaneRef)
    (count : nat) (i : Z) (byteIndex : nat) (uint8View : option TypedArray)
    : Error + option TypedArray :=
  match count with
  | O => inr uint8View
  | S count =>
      match element planes i, uint8View with
      | Some plane, Some view =>
          let oct32Normal := octEncodeToCartesian4 (normal (heap plane)) in
          let view := <[byteIndex := toUint8 (Cartesian4.x oct32Normal)]> view in
          let view := <[(byteIndex + 1)%nat := toUint8 (Cartesian4.y oct32Normal)]> view in
          let view := <[(byteIndex + 2)%nat := toUint8 (Cartesian4.z oct32Normal)]> view in
          let view := <[(byteIndex + 3)%nat := toUint8 (Cartesian4.w oct32Normal)]> view in
          let encodedDistance := packFloat (distance (heap plane)) in
          let view := <[(byteIndex + 4)%nat := toUint8 (Cartesian4.x encodedDistance)]> view in
          let view := <[(byteIndex + 5)%nat := toUint8 (Cartesian4.y encodedDistance)]> view in
          let view := <[(byteIndex + 6)%nat := toUint8 (Cartesian4.z encodedDistance)]> view in
          let view := <[(byteIndex + 7)%nat := toUint8 (Cartesian4.w encodedDistance)]> view in
          packPlanesAsUint8_loop heap planes count (i + 1) (byteIndex + 8)%nat (Some view)
      | _, _ => inl TypeError
      end
  end.

Definition packPlanesAsUint8 (heap : Heap) (clippingPlaneCollection : ClippingPlaneCollection)
    (startIndex endIndex : Z) : Error + ClippingPlaneCollection :=
  match packPlanesAsUint8_loop heap (_planes clippingPlaneCollection)
          (Z.to_nat (endIndex - startIndex)) startIndex 0%nat
          (_uint8View clippingPlaneCollection) with
  | inr view => inr (with_uint8View clippingPlaneCollection view)
  | inl e => inl e
  end.

Fixpoint packPlanesAsFloats_loop (heap : Heap) (planes : list PlaneRef)
    (count : nat) (i : Z) (floatIndex : nat) (float32View : option TypedArray)
    : Error + option TypedArray :=
  match count with
  | O => inr float32View
  | S count =>
      match element planes i, float32View with
      | Some plane, Some view =>
          let normal := normal (heap plane) in
          let view := <[floatIndex := toFloat32 (Cartesian3.x normal)]> view in
          let view := <[(floatIndex + 1)%nat := toFloat32 (Cartesian3.y normal)]> view in
          let view := <[(floatIndex + 2)%nat := toFloat32 (Cartesian3.z normal)]> view in
          let view := <[(floatIndex + 3)%nat := toFloat32 (distance (heap plane))]> view in
          packPlanesAsFloats_loop heap planes count (i + 1) (floatIndex + 4)%nat (Some view)
      | _, _ => inl TypeError
      end
  end.

Definition packPlanesAsFloats (heap : Heap) (clippingPlaneCollection : ClippingPlaneCollection)
    (startIndex endIndex : Z) : Error + ClippingPlaneCollection :=
  match packPlanesAsFloats_loop heap (_planes clippingPlaneCollection)
          (Z.to_nat (endIndex - startIndex)) startIndex 0%nat
          (_float32View clippingPlaneCollection) with
  | inr view => inr (with_float32View clippingPlaneCollection view)
  | inl e => inl e
  end.

Definition computeTextureResolution (limits : ContextLimits) (pixelsNeeded : Number)
    : Cartesian2.t :=
  let maxSize := Number.ofZ (maximumTextureSize limits) in
  let width := Number.min pixelsNeeded maxSize in
  let height := Number.ceil (Number.div pixelsNeeded width) in
  Cartesian2.mk (Number.max width (Number.ofZ 1)) (Number.max height (Number.ofZ 1)).

Definition useFloatTexture (context : Context) : bool :=
  floatingPointTexture context.

(** [texture.copyFrom({ width, height, arrayBufferView }, xOffset, yOffset)];
    without offsets the copy starts at the origin, and without a view there
    is nothing the graphics library can copy. *)
Definition copyFrom (texture : Texture) (width height : Number)
    (arrayBufferView : option TypedArray) (offset : option (Number * Number)) : Texture :=
  let '(xOffset, yOffset) := default (Number.ofZ 0, Number.ofZ 0) offset in
  match arrayBufferView with
  | Some view => Texture_copyFrom texture width height view xOffset yOffset
  | None => texture
  end.

(** Lines 455-467 of [update]: the texture that is kept, if any, and the
    calls made so far. *)
Definition update_keep (this : ClippingPlaneCollection) (pixelsNeeded : Number)
    : option Texture * list GpuCall :=
  match _clippingPlanesTexture this with
  | Some clippingPlanesTexture =>
      let currentPixelCount :=
        Number.mul (width clippingPlanesTexture) (height clippingPlanesTexture) in
      if Number.lt currentPixelCount pixelsNeeded
         || Number.lt pixelsNeeded (Number.mul (Number.Fin 0.25) currentPixelCount)
      then (None, [TextureDestroy])
      else (Some clippingPlanesTexture, [])
  | None => (None, [])
  end.

(** Lines 508-553 of [update]: choose between no work, a partial and a full
    refresh, encode, upload and clear the dirty state. *)
Definition update_refresh (useFloatTexture : bool) (heap : Heap)
    (this : ClippingPlaneCollection) (clippingPlanesTexture : Texture)
    (calls : list GpuCall) : Outcome :=
  let refreshFullTexture := _multipleDirtyPlanes this || _containsUntrackablePlanes this in
  let dirtyIndex := _dirtyIndex this in
  if negb refreshFullTexture && (dirtyIndex =? -1) then mkOutcome this calls Normal
  else
    let '(packed, copyWidth, copyHeight, view, offset) :=
      if negb refreshFullTexture then
        let offsetY :=
          Number.floor (Number.div (Number.ofZ dirtyIndex) (width clippingPlanesTexture)) in
        let offsetX :=
          Number.floor (Number.sub (Number.ofZ dirtyIndex)
                          (Number.mul offsetY (width clippingPlanesTexture))) in
        if useFloatTexture then
          (packPlanesAsFloats heap this dirtyIndex (dirtyIndex + 1),
           Number.ofZ 1, Number.ofZ 1, _float32View, Some (offsetX, offsetY))
        else
          (packPlanesAsUint8 heap this dirtyIndex (dirtyIndex + 1),
           Number.ofZ 2, Number.ofZ 1, _uint8View, Some (offsetX, offsetY))
      else if useFloatTexture then
        (packPlanesAsFloats heap this 0 (length_ this),
         width clippingPlanesTexture, height clippingPlanesTexture,
         _float32View, None)
      else
        (packPlanesAsUint8 heap this 0 (length_ this),
         width clippingPlanesTexture, height clippingPlanesTexture,
         _uint8View, None) in
    match packed with
    | inl e => mkOutcome this calls (Abrupt e)
    | inr this =>
        let texture :=
          copyFrom clippingPlanesTexture copyWidth copyHeight (view this) offset in
        let this := with_clippingPlanesTexture this (Some texture) in
        let this := with_multipleDirtyPlanes this false in
        let this := with_dirtyIndex this (-1) in
        mkOutcome this (calls ++ [TextureCopyFrom copyWidth copyHeight offset]) Normal
    end.

Definition update (limits : ContextLimits) (frameState : FrameState) (heap : Heap)
    (this : ClippingPlaneCollection) : Outcome :=
  let context := context frameState in
  let useFloatTexture := useFloatTexture context in
  let pixelsNeeded :=
    if useFloatTexture then Number.ofZ (length_ this)
    else Number.mul (Number.ofZ (length_ this)) (Number.ofZ 2) in
  let requiredResolution := computeTextureResolution limits pixelsNeeded in
  let '(clippingPlanesTexture, calls) := update_keep this pixelsNeeded in
  match clippingPlanesTexture with
  | Some clippingPlanesTexture =>
      update_refresh useFloatTexture heap this clippingPlanesTexture calls
  | None =>
      let requiredResolution :=
        Cartesian2.mk (Number.mul (Cartesian2.x requiredResolution) (Number.ofZ 2))
                      (Cartesian2.y requiredResolution) in
      let datatype := if useFloatTexture then FLOAT else UNSIGNED_BYTE in
      let clippingPlanesTexture :=
        Texture_new (Cartesian2.x requiredResolution) (Cartesian2.y requiredResolution)
                    datatype in
      let calls :=
        calls ++ [TextureNew (Cartesian2.x requiredResolution)
                             (Cartesian2.y requiredResolution) datatype] in
      match TypedArray_new
              (Number.mul (Number.mul (Cartesian2.x requiredResolution)
                                      (Cartesian2.y requiredResolution))
                          (Number.ofZ 4)) with
      | inl e => mkOutcome this calls (Abrupt e)
      | inr view =>
          let this :=
            if useFloatTexture then with_float32View this (Some view)
            else with_uint8View this (Some view) in
          let this := with_clippingPlanesTexture this (Some clippingPlanesTexture) in
          let this := with_multipleDirtyPlanes this true in
          update_refresh useFloatTexture heap this clippingPlanesTexture calls
      end
  end.

(** ** Classification of a bounding volume *)

Fixpoint computeIntersection_loop (this : ClippingPlaneCollection) (heap : Heap)
    (tileBoundingVolume : BoundingVolume) (modelMatrix : Matrix4)
    (count : nat) (i : nat) (intersection : Intersect) : Intersect :=
  match count with
  | O => intersection
  | S count =>
      match _planes this !! i with
      | Some plane =>
          let scratchPlane := Plane_transform (heap plane) modelMatrix in
          let value := intersectPlane tileBoundingVolume scratchPlane in
          if Intersect_eqb value INTERSECTING then
            computeIntersection_loop this heap tileBoundingVolume modelMatrix
              count (S i) value
          else if _testIntersection this value then value
          else
            computeIntersection_loop this heap tileBoundingVolume modelMatrix
              count (S i) intersection
      | None => intersection
      end
  end.

Definition computeIntersectionWithBoundingVolume (w : World)
    (tileBoundingVolume : BoundingVolume) (transform : option Matrix4) : Intersect :=
  let this := collection w in
  let planes := _planes this in
  let length := length planes in
  let modelMatrix :=
    match transform with
    | Some transform => Matrix4_multiply (modelMatrix this) transform
    | None => modelMatrix this
    end in
  let intersection :=
    if negb (_unionClippingRegions this) && (0 <? length)%nat then OUTSIDE else INSIDE in
  computeIntersection_loop this (heap w) tileBoundingVolume modelMatrix length 0%nat intersection.

End Encoding.

(** ** Construction and the operations callers perform *)

Record Options : Type := {
  planes : option (list PlaneRef);
  enabled : option bool;
  options_modelMatrix : option Matrix4;
  unionClippingRegions : option bool
}.

Definition defaultOptions : Options := Build_Options None None None None.

(** The constructor: the planes are added first, then the remaining fields
    are set from the options. *)
Definition ClippingPlaneCollection_new (objects : Heap) (options : Options) : World :=
  let this :=
    mkCollection [] false (-1) false true Matrix4.IDENTITY false
                 defaultIntersectFunction None None None in
  let w := foldl add (mkWorld objects this) (default [] (planes options)) in
  let this := collection w in
  let this := with_enabled this (default true (enabled options)) in
  let this :=
    with_modelMatrix this
      (Matrix4.clone (default Matrix4.IDENTITY (options_modelMatrix options))) in
  let unionClippingRegions := default false (unionClippingRegions options) in
  let this := with_unionClippingRegions this unionClippingRegions in
  let this :=
    with_testIntersection this
      (if unionClippingRegions then unionIntersectFunction else defaultIntersectFunction) in
  mkWorld (heap w) this.

(** Modelled from the spec: Scene/ClippingPlane is not part of the sources.
    Its [normal] and [distance] setters invoke [onChangeCallback], when one
    is installed, with the plane's current index; a bare Core/Plane is
    mutated without any notification. *)
Definition setPlane (w : World) (plane : PlaneRef)
    (normal : Cartesian3.t) (distance : Number) : World :=
  match heap w plane with
  | ClippingPlane _ _ index onChangeCallback =>
      let heap := <[plane := ClippingPlane normal distance index onChangeCallback]> (heap w) in
      match onChangeCallback with
      | Some SetIndexDirtyCallback => mkWorld heap (setIndexDirty (collection w) index)
      | None => mkWorld heap (collection w)
      end
  | Plane _ _ => mkWorld (<[plane := Plane normal distance]> (heap w)) (collection w)
  end.

(** What a caller can do to a collection between two queries. *)
Inductive Op : Type :=
| OpAdd (plane : PlaneRef)
| OpRemove (clippingPlane : PlaneRef)
| OpRemoveAll
| OpUpdate (limits : ContextLimits) (frameState : FrameState)
| OpSetPlane (plane : PlaneRef) (normal : Cartesian3.t) (distance : Number)
| OpSetUnionClippingRegions (value : bool)
| OpSetEnabled (value : bool)
| OpSetModelMatrix (value : Matrix4).

Section Operations.
Context `{Collaborators}.

Definition step (w : World) (op : Op) : World :=
  match op with
  | OpAdd plane => add w plane
  | OpRemove clippingPlane => fst (remove w clippingPlane)
  | OpRemoveAll => removeAll w
  | OpUpdate limits frameState =>
      mkWorld (heap w) (state (update limits frameState (heap w) (collection w)))
  | OpSetPlane plane normal distance => setPlane w plane normal distance
  | OpSetUnionClippingRegions value =>
      mkWorld (heap w) (set_unionClippingRegions (collection w) value)
  | OpSetEnabled value => mkWorld (heap w) (set_enabled (collection w) value)
  | OpSetModelMatrix value => mkWorld (heap w) (with_modelMatrix (collection w) value)
  end.

Definition run (w : World) (ops : list Op) : World := foldl step w ops.

(** The classification of each plane, in index order, that the volume
    reports for the transformed plane. *)
Definition classifications (w : World) (tileBoundingVolume : BoundingVolume)
    (transform : option Matrix4) : list Intersect :=
  let modelMatrix :=
    match transform with
    | Some transform => Matrix4_multiply (modelMatrix (collection w)) transform
    | None => modelMatrix (collection w)
    end in
  map (fun plane => intersectPlane tileBoundingVolume
                      (Plane_transform (heap w plane) modelMatrix))
      (_planes (collection w)).

End Operations.

(** ** The vocabulary of the specification *)

(** The dirty tracker's state: nothing pending, one plane pending, or a full
    refresh pending. *)
Inductive DirtyState : Type := Clean | Single (i : Z) | Multiple.

Definition dirtyState (this : ClippingPlaneCollection) : DirtyState :=
  if _multipleDirtyPlanes this then Multiple
  else if _dirtyIndex this =? -1 then Clean
  else Single (_dirtyIndex this).


(** The classifier as the specification words it: the early-exit predicate
    of a mode, the scan over the per-plane classifications, and the initial
    result. *)
Definition earlyExit (union : bool) (value : Intersect) : bool :=
  match union, value with
  | true, OUTSIDE | false, INSIDE => true
  | _, _ => false
  end.

Fixpoint scan (union : bool) (result : Intersect) (values : list Intersect) : Intersect :=
  match values with
  | [] => result
  | INTERSECTING :: values => scan union INTERSECTING values
  | value :: values =>
      if earlyExit union value then value else scan union result values
  end.

Definition classify (union : bool) (values : list Intersect) : Intersect :=
  let result :=
    match union, values with
    | true, _ | _, [] => INSIDE
    | false, _ :: _ => OUTSIDE
    end in
  scan union result values.

(** The mode flag and the early-exit function agree, as the constructor and
    the setter leave them. *)
Definition mode_consistent (this : ClippingPlaneCollection) : Prop :=
  _testIntersection this
  = if _unionClippingRegions this then unionIntersectFunction else defaultIntersectFunction.

(** The region of the texture that holds plane [i]: the indices of its
    texels, as the full refresh lays the planes out. *)
Definition planeTexels (useFloatTexture : bool) (i : nat) : list nat :=
  if useFloatTexture then [i] else [(2 * i)%nat; (2 * i + 1)%nat].

(** The view of the layout in use is allocated whenever a texture is. *)
Definition view_ready (useFloatTexture : bool) (this : ClippingPlaneCollection) : Prop :=
  is_Some (_clippingPlanesTexture this) ->
  is_Some (if useFloatTexture then _float32View this else _uint8View this).

Section UpdateVocabulary.
Context `{Collaborators}.

(** The typed array of the layout in use. *)
Definition viewOf (useFloatTexture : bool) (this : ClippingPlaneCollection)
    : option TypedArray :=
  if useFloatTexture then _float32View this else _uint8View this.

(** Encoding the planes of [startIndex, endIndex) in the layout in use. *)
Definition encode (useFloatTexture : bool) (heap : Heap) (planes : list PlaneRef)
    (startIndex endIndex : Z) (view : option TypedArray) : Error + option TypedArray :=
  if useFloatTexture
  then packPlanesAsFloats_loop heap planes (Z.to_nat (endIndex - startIndex))
         startIndex 0%nat view
  else packPlanesAsUint8_loop heap planes (Z.to_nat (endIndex - startIndex))
         startIndex 0%nat view.

(** The pixels needed for the planes of a collection. *)
Definition pixelsNeededFor (useFloatTexture : bool) (this : ClippingPlaneCollection) : Z :=
  if useFloatTexture then length_ this else length_ this * 2.

(** An [update] that returned after a full refresh: every plane was encoded
    into the view of the layout, and the one upload, the last call, was of
    the whole texture. *)
Definition fullRefresh (useFloatTexture : bool) (heap : Heap) (o : Outcome) : Prop :=
  completion o = Normal
  /\ (exists before,
        encode useFloatTexture heap (_planes (state o)) 0 (length_ (state o)) (Some before)
        = inr (viewOf useFloatTexture (state o)))
  /\ (exists texture earlier,
        _clippingPlanesTexture (state o) = Some texture
        /\ gpuCalls o = earlier ++ [TextureCopyFrom (width texture) (height texture) None]
        /\ forall copyWidth copyHeight offset,
             TextureCopyFrom copyWidth copyHeight offset ∉ earlier).

(** The texel a plane occupies in the float layout, and the two it
    occupies in the quantized layout. *)
Definition floatTexel (plane : PlaneObject) : Cartesian4.t :=
  Cartesian4.mk (toFloat32 (Cartesian3.x (normal plane)))
                (toFloat32 (Cartesian3.y (normal plane)))
                (toFloat32 (Cartesian3.z (normal plane)))
                (toFloat32 (distance plane)).

Definition normalTexel (plane : PlaneObject) : Cartesian4.t :=
  let oct32Normal := octEncodeToCartesian4 (normal plane) in
  Cartesian4.mk (toUint8 (Cartesian4.x oct32Normal)) (toUint8 (Cartesian4.y oct32Normal))
                (toUint8 (Cartesian4.z oct32Normal)) (toUint8 (Cartesian4.w oct32Normal)).

Definition distanceTexel (plane : PlaneObject) : Cartesian4.t :=
  let encodedDistance := packFloat (distance plane) in
  Cartesian4.mk (toUint8 (Cartesian4.x encodedDistance)) (toUint8 (Cartesian4.y encodedDistance))
                (toUint8 (Cartesian4.z encodedDistance)) (toUint8 (Cartesian4.w encodedDistance)).

(** The updates among the operations all run on a host of one capability. *)
Definition sameHost (useFloatTexture : bool) (op : Op) : Prop :=
  match op with
  | OpUpdate _ frameState => floatingPointTexture (context frameState) = useFloatTexture
  | _ => True
  end.

End UpdateVocabulary.

(** [this._float32View = view] or [this._uint8View = view], by layout. *)
Definition with_viewOf (useFloatTexture : bool) (this : ClippingPlaneCollection)
    (view : option TypedArray) : ClippingPlaneCollection :=
  if useFloatTexture then with_float32View this view else with_uint8View this view.

(** The state an [update] leaves after a refresh that encoded into [view]
    and uploaded to [texture]. *)
Definition refreshed (useFloatTexture : bool) (this : ClippingPlaneCollection)
    (view : option TypedArray) (texture : Texture) : ClippingPlaneCollection :=
  with_dirtyIndex
    (with_multipleDirtyPlanes
       (with_clippingPlanesTexture (with_viewOf useFloatTexture this view) (Some texture))
       false)
    (-1).

(** The texture [update] allocates for [pixelsNeeded] pixels: twice the
    planned width, the planned height. *)
Definition plannedWidth (limits : ContextLimits) (pixelsNeeded : Number) : Number :=
  Number.mul (Cartesian2.x (computeTextureResolution limits pixelsNeeded)) (Number.ofZ 2).

Definition plannedHeight (limits : ContextLimits) (pixelsNeeded : Number) : Number :=
  Cartesian2.y (computeTextureResolution limits pixelsNeeded).

Definition datatypeFor (useFloatTexture : bool) : PixelDatatype :=
  if useFloatTexture then FLOAT else UNSIGNED_BYTE.

(** The collection as [update] leaves it right after allocating [texture]
    and a zero-filled [view]: a full refresh is pending. *)
Definition allocated (useFloatTexture : bool) (this : ClippingPlaneCollection)
    (view : TypedArray) (texture : Texture) : ClippingPlaneCollection :=
  with_multipleDirtyPlanes
    (with_clippingPlanesTexture (with_viewOf useFloatTexture this (Some view)) (Some texture))
    true.

(** The test of lines 462-463: the texture is too small for the pixels
    needed, or more than four times too large. *)
Definition reallocationNeeded (texture : Texture) (pixelsNeeded : Number) : bool :=
  let currentPixelCount := Number.mul (width texture) (height texture) in
  Number.lt currentPixelCount pixelsNeeded
  || Number.lt pixelsNeeded (Number.mul (Number.Fin 0.25) currentPixelCount).

(** ** Sample data *)

#[local] Instance sample_collaborators : Collaborators := {
  octEncodeToCartesian4 n :=
    Cartesian4.mk (Cartesian3.x n) (Cartesian3.y n) (Cartesian3.z n) (Number.ofZ 255);
  packFloat d := Cartesian4.mk d d d d;
  toFloat32 v := v;
  toUint8 v := v;
  Matrix4_multiply left right := left;
  Plane_transform plane transform := Plane (normal plane) (distance plane)
}.

Definition UNIT_X : Cartesian3.t := Cartesian3.mk (Number.ofZ 1) (Number.ofZ 0) (Number.ofZ 0).
Definition UNIT_Y : Cartesian3.t := Cartesian3.mk (Number.ofZ 0) (Number.ofZ 1) (Number.ofZ 0).

(** Four plane objects: two distinct ClippingPlanes, a bare Plane, and a
    ClippingPlane with the geometry of the first. *)
Definition sample_heap : Heap := fun r =>
  match r with
  | 0%nat => ClippingPlane UNIT_X (Number.ofZ 5) (-1) None
  | 1%nat => ClippingPlane UNIT_Y (Number.ofZ 7) (-1) None
  | 2%nat => Plane UNIT_Y (Number.ofZ 9)
  | _ => ClippingPlane UNIT_X (Number.ofZ 5) (-1) None
  end.

Definition sample_limits : ContextLimits := {| maximumTextureSize := 16384 |}.
Definition floatFrame : FrameState := {| context := {| floatingPointTexture := true |} |}.
Definition byteFrame : FrameState := {| context := {| floatingPointTexture := false |} |}.

Definition sample_volume : BoundingVolume :=
  {| intersectPlane plane :=
       if Number.lt (distance plane) (Number.ofZ 6) then INSIDE
       else if Number.lt (distance plane) (Number.ofZ 8) then INTERSECTING
       else OUTSIDE |}.


(** ** Planes linked to their collection *)

(** No plane is a member twice, every tracked member carries its position
    and the collection's callback, and no plane outside the collection
    still notifies it. *)
Definition linked (w : World) : Prop :=
  NoDup (_planes (collection w))
  /\ (forall k r, _planes (collection w) !! k = Some r ->
        instanceofClippingPlane (heap w r) = true ->
        index (heap w r) = Some (Z.of_nat k)
        /\ onChangeCallback (heap w r) = Some SetIndexDirtyCallback)
  /\ (forall r, onChangeCallback (heap w r) <> None -> r ∈ _planes (collection w)).

(** The dirty index, when it is the one that counts, is a position of the
    sequence. *)
Definition dirtyIndex_valid (this : ClippingPlaneCollection) : Prop :=
  _multipleDirtyPlanes this = true
  \/ _dirtyIndex this = -1
  \/ 0 <= _dirtyIndex this < length_ this.

(** A caller that adds no plane twice and removes only a plane object it
    has added (or one that [indexOf] does not find). *)
Definition careful (w : World) (op : Op) : Prop :=
  match op with
  | OpAdd plane => plane ∉ _planes (collection w)
  | OpRemove clippingPlane =>
      let index := indexOf (heap w) (_planes (collection w)) clippingPlane in
      index = -1 \/ element (_planes (collection w)) index = Some clippingPlane
  | _ => True
  end.

Section CarefulCallers.
Context `{Collaborators}.

Fixpoint carefulRun (w : World) (ops : list Op) : Prop :=
  match ops with
  | [] => True
  | op :: ops => careful w op /\ carefulRun (step w op) ops
  end.

End CarefulCallers.
(** Three distinct sample planes given to the constructor, and a careful
    caller's operations on them. *)
Definition sample_options : Options :=
  Build_Options (Some [0%nat; 1%nat; 2%nat]) None None None.

Definition sample_careful_ops : list Op :=
  [OpUpdate sample_limits floatFrame; OpSetPlane 1%nat UNIT_X (Number.ofZ 3);
   OpRemove 0%nat; OpAdd 0%nat; OpUpdate sample_limits floatFrame].
(** ** The verdict of the classifier, by what the planes report *)

(** Some plane reports [value]. *)
Definition occurs (value : Intersect) (values : list Intersect) : bool :=
  existsb (fun reported => Intersect_eqb reported value) values.

(** The mode's decisive classification wins wherever it occurs; failing
    that, any INTERSECTING does; failing that, the volume is OUTSIDE only
    for a non-empty set in intersection mode. *)
Definition verdict (union : bool) (values : list Intersect) : Intersect :=
  let decisive := if union then OUTSIDE else INSIDE in
  if occurs decisive values then decisive
  else if occurs INTERSECTING values then INTERSECTING
  else match union, values with
       | false, _ :: _ => OUTSIDE
       | _, _ => INSIDE
       end.
(** ** Fields outside the reach of [update] *)

(** The fields that neither an allocation nor a refresh writes. *)
Definition untouched (this this' : ClippingPlaneCollection) : Prop :=
  _planes this' = _planes this
  /\ _containsUntrackablePlanes this' = _containsUntrackablePlanes this
  /\ _enabled this' = _enabled this
  /\ modelMatrix this' = modelMatrix this
  /\ _unionClippingRegions this' = _unionClippingRegions this
  /\ _testIntersection this' = _testIntersection this.
(** Two tracked sample planes, uploaded once on a float host. *)
Definition sample_tracked_options : Options :=
  Build_Options (Some [0%nat; 1%nat]) None None None.

Definition sample_uploaded : World :=
  Eval vm_compute in
    run (ClippingPlaneCollection_new sample_heap sample_tracked_options)
        [OpUpdate sample_limits floatFrame].

Definition sample_uploaded_texture : Texture :=
  Eval vm_compute in
    default (Texture_new (Number.ofZ 0) (Number.ofZ 0) FLOAT)
            (_clippingPlanesTexture (collection sample_uploaded)).

Definition sample_uploaded_view : TypedArray :=
  Eval vm_compute in default [] (_float32View (collection sample_uploaded)).
(** ** Owners of collections *)

Abbreviation CollectionRef := nat.
Abbreviation OwnerRef := nat.

Section Ownership.
Context {Key : Type} `{EqDecision Key}.

(** What [setOwner] reads and writes: the [_owner] field of every
    collection, the property [owner[key]] of every owner (a collection or
    undefined), and the collections whose [destroy] has been called, in the
    order of the calls. *)
Record Ownership : Type := mkOwnership {
  _owner : CollectionRef -> option OwnerRef;
  property : OwnerRef * Key -> option CollectionRef;
  destroyed : list CollectionRef
}.

(** [owner[key] = owner[key] && owner[key].destroy()].  Modelled from the
    spec: Core/destroyObject is not part of the sources; [destroy] is
    documented to return undefined, so that the property is undefined
    afterwards. *)
Definition destroyPrevious (s : Ownership) (owner : OwnerRef) (key : Key) : Ownership :=
  match property s (owner, key) with
  | Some previous =>
      mkOwnership (_owner s) (<[(owner, key) := None]> (property s))
                  (destroyed s ++ [previous])
  | None => s
  end.

Definition setOwner (s : Ownership) (clippingPlaneCollection : option CollectionRef)
    (owner : OwnerRef) (key : Key) : Ownership * Completion :=
  if decide (clippingPlaneCollection = property s (owner, key)) then (s, Normal)
  else
    let s := destroyPrevious s owner key in
    match clippingPlaneCollection with
    | Some collection =>
        match _owner s collection with
        | Some _ => (s, Abrupt DeveloperError)
        | None =>
            (mkOwnership (<[collection := Some owner]> (_owner s))
                         (<[(owner, key) := Some collection]> (property s))
                         (destroyed s),
             Normal)
        end
    | None => (s, Normal)
    end.

(** Calls of [setOwner] one after the other, whether they return or throw. *)
Definition setOwners (s : Ownership)
    (calls : list (option CollectionRef * OwnerRef * Key)) : Ownership :=
  foldl (fun s '(clippingPlaneCollection, owner, key) =>
           fst (setOwner s clippingPlaneCollection owner key)) s calls.

(** Nothing is owned and nothing has been destroyed. *)
Definition noOwnership : Ownership := mkOwnership (fun _ => None) (fun _ => None) [].

(** Ownership is exclusive: the collection an owner holds names that owner,
    no collection is held twice, and a destroyed collection was owned, is
    held by nobody and was destroyed once. *)
Definition exclusive (s : Ownership) : Prop :=
  (forall owner key held, property s (owner, key) = Some held -> _owner s held = Some owner)
  /\ (forall slot slot' held,
        property s slot = Some held -> property s slot' = Some held -> slot = slot')
  /\ (forall gone, gone ∈ destroyed s ->
        is_Some (_owner s gone) /\ forall slot, property s slot <> Some gone)
  /\ NoDup (destroyed s).

End Ownership.
(** ** A host that accepts the textures asked of it *)

(** Modelled from the spec: the texture collaborator is not part of the
    sources, and an allocation it refuses propagates from [update] as a
    fatal error.  A host accepts the allocation of a texture whose width and
    height are positive and at most its maximum texture size. *)
Definition accepts (limits : ContextLimits) (call : GpuCall) : bool :=
  match call with
  | TextureNew width height _ =>
      let maximum := Number.ofZ (maximumTextureSize limits) in
      Number.lt (Number.ofZ 0) width && negb (Number.lt maximum width)
      && Number.lt (Number.ofZ 0) height && negb (Number.lt maximum height)
  | _ => true
  end.

Section AcceptingHost.
Context `{Collaborators}.

(** Every [update] among the operations has asked its host only for
    textures that the host accepts. *)
Fixpoint hostAccepts (w : World) (ops : list Op) : Prop :=
  match ops with
  | [] => True
  | op :: ops =>
      match op with
      | OpUpdate limits frameState =>
          forallb (accepts limits)
                  (gpuCalls (update limits frameState (heap w) (collection w))) = true
      | _ => True
      end
      /\ hostAccepts (step w op) ops
  end.

End AcceptingHost.
(** The texture a collection holds, if any, has positive dimensions; a
    height that is not a number is not positive. *)
Definition texture_positive (this : ClippingPlaneCollection) : Prop :=
  forall texture, _clippingPlanesTexture this = Some texture ->
    Number.lt (Number.ofZ 0) (width texture) = true
    /\ Number.lt (Number.ofZ 0) (height texture) = true.

(** * Properties *)

(** A list of calls spelled out holds no upload. *)
Ltac no_upload :=
  let Hin := fresh "Hin" in
  intros ? ? ? Hin; cbn [app] in Hin;
  repeat (apply elem_of_cons in Hin as [Hin|Hin]; [discriminate|]);
  by apply elem_of_nil in Hin.

(** ** Numbers *)

Lemma Qltb_lt (a b : Q) : Number.Qltb a b = true <-> (a < b)%Q.
Proof.
  unfold Number.Qltb. rewrite negb_true_iff.
  split.
  - intros Hle. apply Qnot_le_lt. intros Hba.
    apply Qle_bool_iff in Hba. congruence.
  - intros Hlt. destruct (Qle_bool b a) eqn:E; [|reflexivity].
    apply Qle_bool_iff in E. exfalso. exact (Qlt_not_le _ _ Hlt E).
Qed.

Lemma lt_ofZ (a b : Z) : Number.lt (Number.ofZ a) (Number.ofZ b) = (a <? b).
Proof.
  unfold Number.lt, Number.ofZ.
  destruct (a <? b) eqn:E.
  - apply Qltb_lt. rewrite <- Zlt_Qlt. lia.
  - destruct (Number.Qltb (inject_Z a) (inject_Z b)) eqn:F; [|reflexivity].
    apply Qltb_lt in F. rewrite <- Zlt_Qlt in F. lia.
Qed.

Lemma lt_quarter_ofZ (n c : Z) :
  Number.lt (Number.ofZ n) (Number.mul (Number.Fin 0.25) (Number.ofZ c)) = (4 * n <? c).
Proof.
  unfold Number.lt, Number.mul, Number.ofZ.
  assert (Hiff : (inject_Z n < 0.25 * inject_Z c)%Q <-> 4 * n < c).
  { unfold Qlt, Qmult, inject_Z. simpl. lia. }
  destruct (4 * n <? c) eqn:E.
  - apply Qltb_lt, Hiff. lia.
  - destruct (Number.Qltb _ _) eqn:F; [|reflexivity].
    apply Qltb_lt, Hiff in F. lia.
Qed.

Lemma mul_ofZ (a b : Z) : Number.mul (Number.ofZ a) (Number.ofZ b) = Number.ofZ (a * b).
Proof. reflexivity. Qed.

Lemma min_ofZ (a b : Z) : Number.min (Number.ofZ a) (Number.ofZ b) = Number.ofZ (Z.min a b).
Proof.
  unfold Number.min. change (Number.ofZ a) with (Number.Fin (inject_Z a)) at 1.
  change (Number.ofZ b) with (Number.Fin (inject_Z b)) at 1.
  cbv iota beta.
  change (Number.Fin (inject_Z b)) with (Number.ofZ b).
  change (Number.Fin (inject_Z a)) with (Number.ofZ a).
  rewrite lt_ofZ. destruct (b <? a) eqn:E; f_equal; lia.
Qed.

Lemma max_ofZ (a b : Z) : Number.max (Number.ofZ a) (Number.ofZ b) = Number.ofZ (Z.max a b).
Proof.
  unfold Number.max. change (Number.ofZ a) with (Number.Fin (inject_Z a)) at 1.
  change (Number.ofZ b) with (Number.Fin (inject_Z b)) at 1.
  cbv iota beta.
  change (Number.Fin (inject_Z b)) with (Number.ofZ b).
  change (Number.Fin (inject_Z a)) with (Number.ofZ a).
  rewrite lt_ofZ. destruct (a <? b) eqn:E; f_equal; lia.
Qed.

Lemma to_index_ofZ (i : Z) :
  Number.to_index (Number.ofZ i) = if 0 <=? i then Some (Z.to_nat i) else None.
Proof.
  unfold Number.to_index, Number.ofZ. rewrite Qfloor_Z.
  rewrite Qeq_bool_refl. reflexivity.
Qed.

(** [Math.ceil(n / w)] for integers, [w] positive. *)
Lemma ceil_div_ofZ (n w : Z) :
  0 < w ->
  Number.ceil (Number.div (Number.ofZ n) (Number.ofZ w)) = Number.ofZ (- ((- n) / w)).
Proof.
  intros Hw. unfold Number.div, Number.ofZ.
  destruct (Qeq_bool (inject_Z w) 0) eqn:E.
  { apply Qeq_bool_iff in E. unfold Qeq in E. simpl in E. lia. }
  unfold Number.ceil, Number.ofZ. do 2 f_equal. unfold Qceiling. f_equal.
  rewrite Zdiv_Qdiv. apply Qfloor_comp.
  rewrite inject_Z_opp. unfold Qdiv. ring.
Qed.

Lemma floor_div_ofZ (n w : Z) :
  0 < w ->
  Number.floor (Number.div (Number.ofZ n) (Number.ofZ w)) = Number.ofZ (n / w).
Proof.
  intros Hw. unfold Number.div, Number.ofZ.
  destruct (Qeq_bool (inject_Z w) 0) eqn:E.
  { apply Qeq_bool_iff in E. unfold Qeq in E. simpl in E. lia. }
  unfold Number.floor, Number.ofZ. do 2 f_equal. symmetry. apply Zdiv_Qdiv.
Qed.

(** ** The plane set: [get] *)




(** [get] reads the sequence at a valid position. *)
Lemma get_valid_index (w : World) (i : nat) (plane : PlaneRef) :
  _planes (collection w) !! i = Some plane ->
  get w (VNumber (Number.ofZ (Z.of_nat i))) = inr (Some plane).
Proof.
  intros Hi. unfold get. rewrite to_index_ofZ.
  destruct (Z.leb_spec 0 (Z.of_nat i)); [|lia].
  rewrite Nat2Z.id. by rewrite Hi.
Qed.

(** ** The dirty tracker *)


(** After [update] has returned, nothing is pending. *)
Lemma update_refresh_clean `{Collaborators} useFloat heap this texture calls :
  completion (update_refresh useFloat heap this texture calls) = Normal ->
  dirtyState (state (update_refresh useFloat heap this texture calls)) = Clean.
Proof.
  unfold update_refresh.
  destruct (_multipleDirtyPlanes this || _containsUntrackablePlanes this) eqn:Efull; simpl.
  - destruct useFloat;
      [destruct (packPlanesAsFloats _ _ _ _)|destruct (packPlanesAsUint8 _ _ _ _)];
      simpl; intros Hc; try discriminate; reflexivity.
  - destruct (Z.eqb_spec (_dirtyIndex this) (-1)) as [E|E]; simpl.
    + intros _. apply orb_false_iff in Efull as [Em _].
      unfold dirtyState. rewrite Em, E. reflexivity.
    + destruct useFloat;
        [destruct (packPlanesAsFloats _ _ _ _)|destruct (packPlanesAsUint8 _ _ _ _)];
        simpl; intros Hc; try discriminate; reflexivity.
Qed.

Lemma update_clean `{Collaborators} limits frameState heap this :
  completion (update limits frameState heap this) = Normal ->
  dirtyState (state (update limits frameState heap this)) = Clean.
Proof.
  unfold update.
  destruct (update_keep this _) as [[texture|] calls].
  - apply update_refresh_clean.
  - destruct (TypedArray_new _); simpl; [discriminate|].
    apply update_refresh_clean.
Qed.

Lemma update_refresh_abrupt `{Collaborators} useFloat heap this texture calls :
  completion (update_refresh useFloat heap this texture calls) <> Normal ->
  state (update_refresh useFloat heap this texture calls) = this.
Proof.
  unfold update_refresh.
  destruct (negb _ && _); [simpl; congruence|].
  destruct (negb _), useFloat;
    [destruct (packPlanesAsFloats _ _ _ _)|destruct (packPlanesAsUint8 _ _ _ _)
    |destruct (packPlanesAsFloats _ _ _ _)|destruct (packPlanesAsUint8 _ _ _ _)];
    simpl; congruence.
Qed.



(** ** The classifier *)

Section Classifier.
Context `{Collaborators}.

(** The loop, started at any position [i] with [count] planes left, scans
    the classifications of those planes. *)
Lemma computeIntersection_loop_scan (this : ClippingPlaneCollection) (heap : Heap)
    (volume : BoundingVolume) (matrix : Matrix4) (rest : list PlaneRef) :
  mode_consistent this ->
  forall (done : list PlaneRef) (intersection : Intersect),
    _planes this = done ++ rest ->
    computeIntersection_loop this heap volume matrix (length rest) (length done) intersection
    = scan (_unionClippingRegions this) intersection
        (map (fun plane => intersectPlane volume (Plane_transform (heap plane) matrix)) rest).
Proof.
  intros Hmode. induction rest as [|plane rest IH]; intros done intersection Hplanes.
  - reflexivity.
  - cbn [length computeIntersection_loop map scan].
    rewrite Hplanes at 1. rewrite lookup_app_r, Nat.sub_diag by lia.
    cbn [lookup list_lookup].
    assert (Hnext : _planes this = (done ++ [plane]) ++ rest)
      by (rewrite <- app_assoc; exact Hplanes).
    pose proof (IH (done ++ [plane])) as IH'.
    rewrite length_app in IH'. cbn [length] in IH'.
    replace (length done + 1)%nat with (S (length done)) in IH' by lia.
    rewrite Hmode.
    destruct (intersectPlane volume (Plane_transform (heap plane) matrix)) eqn:Evalue;
      cbn [Intersect_eqb].
    + destruct (_unionClippingRegions this); cbn; [reflexivity|by apply IH'].
    + by apply IH'.
    + destruct (_unionClippingRegions this); cbn; [by apply IH'|reflexivity].
Qed.

(** C8: the classifier computes what the specification's algorithm does
    on the per-plane classifications: start from INSIDE in union mode or for
    an empty set and from OUTSIDE otherwise, scan in index order, let
    INTERSECTING replace the result and go on, return at once on OUTSIDE in
    union mode and on INSIDE in intersection mode, and return the result
    after the last plane. *)
Theorem computeIntersectionWithBoundingVolume_classify (w : World)
    (tileBoundingVolume : BoundingVolume) (transform : option Matrix4) :
  mode_consistent (collection w) ->
  computeIntersectionWithBoundingVolume w tileBoundingVolume transform
  = classify (_unionClippingRegions (collection w))
      (classifications w tileBoundingVolume transform).
Proof.
  intros Hmode. unfold computeIntersectionWithBoundingVolume, classify, classifications.
  rewrite (computeIntersection_loop_scan (collection w) (heap w) tileBoundingVolume _
             (_planes (collection w)) Hmode [] _ eq_refl).
  f_equal.
  destruct (_unionClippingRegions (collection w)), (_planes (collection w)); reflexivity.
Qed.

(** C10: an empty collection classifies every volume as INSIDE, in
    intersection mode as in union mode, with or without an extra
    transform. *)
Theorem computeIntersectionWithBoundingVolume_empty (w : World)
    (tileBoundingVolume : BoundingVolume) (transform : option Matrix4) :
  _planes (collection w) = [] ->
  computeIntersectionWithBoundingVolume w tileBoundingVolume transform = INSIDE.
Proof.
  intros Hempty. unfold computeIntersectionWithBoundingVolume.
  rewrite Hempty. cbn. by rewrite andb_false_r.
Qed.

(** The constructor and every operation keep the mode flag and the
    early-exit function in agreement. *)
Lemma mode_consistent_new (objects : Heap) (options : Options) :
  mode_consistent (collection (ClippingPlaneCollection_new objects options)).
Proof. unfold mode_consistent. cbn. by destruct (default false _). Qed.

Lemma mode_consistent_update_refresh useFloat heap this texture calls :
  mode_consistent this ->
  mode_consistent (state (update_refresh useFloat heap this texture calls)).
Proof.
  intros Hmode. unfold update_refresh.
  destruct (negb _ && _); [exact Hmode|].
  destruct (negb _), useFloat; unfold packPlanesAsFloats, packPlanesAsUint8;
    [destruct (packPlanesAsFloats_loop _ _ _ _ _ _)
    |destruct (packPlanesAsUint8_loop _ _ _ _ _ _)
    |destruct (packPlanesAsFloats_loop _ _ _ _ _ _)
    |destruct (packPlanesAsUint8_loop _ _ _ _ _ _)]; exact Hmode.
Qed.

Lemma mode_consistent_step (w : World) (op : Op) :
  mode_consistent (collection w) -> mode_consistent (collection (step w op)).
Proof.
  intros Hmode. destruct op as [plane|plane| |limits frameState|plane n d|v|v|v]; cbn.
  - unfold add. destruct (instanceofClippingPlane _); exact Hmode.
  - unfold remove. destruct (_ =? -1); [exact Hmode|].
    destruct (remove_shift _ _ _ _). exact Hmode.
  - exact Hmode.
  - unfold update. destruct (update_keep _ _) as [[texture|] calls].
    + by apply mode_consistent_update_refresh.
    + destruct (TypedArray_new _); [exact Hmode|].
      apply mode_consistent_update_refresh. by destruct (useFloatTexture _).
  - unfold setPlane. destruct (heap w plane) as [? ? ix [[]|]|]; exact Hmode.
  - unfold set_unionClippingRegions, mode_consistent in *.
    destruct (Bool.eqb _ _); [exact Hmode|]. cbn. by destruct v.
  - unfold set_enabled. destruct (Bool.eqb _ _); exact Hmode.
  - exact Hmode.
Qed.

Lemma mode_consistent_run (ops : list Op) (w : World) :
  mode_consistent (collection w) -> mode_consistent (collection (run w ops)).
Proof.
  revert w. induction ops as [|op ops IH]; intros w Hmode; [exact Hmode|].
  apply IH, mode_consistent_step, Hmode.
Qed.

End Classifier.

Lemma computeIntersectionWithBoundingVolume_classify_witness :
  let w := run (ClippingPlaneCollection_new sample_heap defaultOptions)
               [OpAdd 1%nat; OpAdd 0%nat; OpAdd 2%nat] in
  mode_consistent (collection w)
  /\ computeIntersectionWithBoundingVolume w sample_volume None
     = classify false [INTERSECTING; INSIDE; OUTSIDE].
Proof.
  intros w.
  assert (Hmode : mode_consistent (collection w)) by reflexivity.
  split; [exact Hmode|].
  exact (computeIntersectionWithBoundingVolume_classify w sample_volume None Hmode).
Defined.

Lemma computeIntersectionWithBoundingVolume_empty_witness :
  let w := ClippingPlaneCollection_new sample_heap defaultOptions in
  _planes (collection w) = []
  /\ computeIntersectionWithBoundingVolume w sample_volume (Some Matrix4.IDENTITY) = INSIDE.
Proof.
  intros w. split; [reflexivity|].
  exact (computeIntersectionWithBoundingVolume_empty w sample_volume
           (Some Matrix4.IDENTITY) eq_refl).
Defined.

(** ** The resolution planner *)

(** For at least one pixel the plan is the specification's: the width is
    [min(pixelsNeeded, maxWidth)] and the height the rounded-up quotient,
    both at least 1. *)
Lemma computeTextureResolution_positive (limits : ContextLimits) (n : Z) :
  1 <= n -> 1 <= maximumTextureSize limits ->
  let width := Z.min n (maximumTextureSize limits) in
  computeTextureResolution limits (Number.ofZ n)
  = Cartesian2.mk (Number.ofZ width) (Number.ofZ (- (- n / width)))
  /\ 1 <= width /\ 1 <= - (- n / width)
  /\ n <= width * - (- n / width) < n + width.
Proof.
  intros Hn Hmax width. assert (Hw : 1 <= width) by (unfold width; lia).
  assert (Hdiv : n <= width * - (- n / width) < n + width).
  { pose proof (Z.div_mod (- n) width ltac:(lia)) as Hqr.
    pose proof (Z.mod_pos_bound (- n) width ltac:(lia)) as Hr. nia. }
  assert (Hh : 1 <= - (- n / width)) by nia.
  split; [|auto].
  unfold computeTextureResolution. rewrite min_ofZ. fold width.
  rewrite ceil_div_ofZ by lia. rewrite !max_ofZ.
  f_equal; f_equal; lia.
Qed.

(** For no pixel at all the quotient is [0 / 0]: the plan is one pixel wide
    and NaN pixels high. *)
Lemma computeTextureResolution_empty (limits : ContextLimits) :
  1 <= maximumTextureSize limits ->
  computeTextureResolution limits (Number.ofZ 0)
  = Cartesian2.mk (Number.ofZ 1) Number.NaN.
Proof.
  intros Hmax. unfold computeTextureResolution. rewrite min_ofZ.
  replace (Z.min 0 (maximumTextureSize limits)) with 0 by lia.
  reflexivity.
Qed.

(** C5 at [pixelsNeeded = 0]: the width is clamped to 1, but the height is
    [Math.max(Math.ceil(0 / 0), 1)], which is NaN: it is no integer and in
    particular not the 1 that [max(ceil(0 / width), 1)] is for the clamped
    width. *)
Theorem computeTextureResolution_zero (limits : ContextLimits) :
  1 <= maximumTextureSize limits ->
  let plan := computeTextureResolution limits (Number.ofZ 0) in
  Cartesian2.x plan = Number.ofZ 1
  /\ Cartesian2.y plan = Number.NaN
  /\ (forall height : Z, Cartesian2.y plan <> Number.ofZ height)
  /\ Number.max (Number.ceil (Number.div (Number.ofZ 0) (Cartesian2.x plan))) (Number.ofZ 1)
     = Number.ofZ 1.
Proof.
  intros Hmax plan. subst plan. rewrite computeTextureResolution_empty by exact Hmax.
  cbn [Cartesian2.x Cartesian2.y]. repeat split. discriminate.
Qed.

Lemma computeTextureResolution_zero_witness :
  1 <= maximumTextureSize sample_limits
  /\ Cartesian2.y (computeTextureResolution sample_limits (Number.ofZ 0)) = Number.NaN.
Proof.
  assert (Hmax : 1 <= maximumTextureSize sample_limits) by (vm_compute; discriminate).
  split; [exact Hmax|].
  exact (proj1 (proj2 (computeTextureResolution_zero sample_limits Hmax))).
Defined.

(** ** The plane set: [remove] *)

(** [indexOf] answers -1 exactly when no member is value-equal to the plane,
    and otherwise the first position of a value-equal member. *)
Lemma indexOf_from_spec (heap : Heap) (rest : list PlaneRef) (plane : PlaneRef) (i : Z) :
  (indexOf_from heap rest plane i = -1 /\ 0 <= i ->
     forall p, p ∈ rest -> Plane_equals (heap p) (heap plane) = false)
  /\ (0 <= i -> indexOf_from heap rest plane i <> -1 ->
      exists k p, indexOf_from heap rest plane i = i + Z.of_nat k
        /\ rest !! k = Some p
        /\ Plane_equals (heap p) (heap plane) = true
        /\ forall j q, (j < k)%nat -> rest !! j = Some q ->
             Plane_equals (heap q) (heap plane) = false).
Proof.
  revert i. induction rest as [|p rest IH]; intros i; cbn [indexOf_from].
  - split; [intros _ p Hp; by apply elem_of_nil in Hp|congruence].
  - destruct (Plane_equals (heap p) (heap plane)) eqn:E.
    + split; [lia|]. intros Hi _. exists 0%nat, p.
      repeat split; [lia|done|lia].
    + destruct (IH (i + 1)) as [IHnone IHsome]. split.
      * intros [Hnone Hi] q Hq. apply elem_of_cons in Hq as [->|Hq]; [exact E|].
        apply IHnone; [split; [exact Hnone|lia]|exact Hq].
      * intros Hi Hfound. destruct (IHsome ltac:(lia) Hfound) as (k & q & Hk & Hq & Eq & Hfirst).
        exists (S k), q. repeat split; [lia|exact Hq|exact Eq|].
        intros [|j] q' Hj Hq'; cbn in Hq'; [congruence|].
        eapply Hfirst; [|exact Hq']. lia.
Qed.

(** When no member is value-equal to the plane, [remove] answers false and
    changes nothing: not the sequence, not the planes, not the tracker. *)
Lemma remove_not_found (w : World) (clippingPlane : PlaneRef) :
  (forall p, p ∈ _planes (collection w) ->
     Plane_equals (heap w p) (heap w clippingPlane) = false) ->
  remove w clippingPlane = (w, false).
Proof.
  intros Hnone. unfold remove, indexOf.
  destruct (Z.eqb_spec (indexOf_from (heap w) (_planes (collection w)) clippingPlane 0) (-1))
    as [E|E]; [reflexivity|].
  destruct (indexOf_from_spec (heap w) (_planes (collection w)) clippingPlane 0)
    as [_ Hsome].
  destruct (Hsome ltac:(lia) E) as (k & p & _ & Hp & Ep & _).
  rewrite Hnone in Ep; [discriminate|]. eapply list_elem_of_lookup_2, Hp.
Qed.

(** The shifting loop moves the planes of positions [i+1 .. i+count] down by
    one position and leaves the other positions as they were. *)
Lemma remove_shift_lookup (count : nat) :
  forall (i : nat) (heap : Heap) (planes : list PlaneRef),
    (i + count < length planes)%nat ->
    let planes' := snd (remove_shift count i heap planes) in
    length planes' = length planes
    /\ forall j, planes' !! j
                 = if decide (i <= j < i + count)%nat then planes !! S j else planes !! j.
Proof.
  induction count as [|count IH]; intros i heap planes Hlen; cbn [remove_shift].
  - split; [reflexivity|]. intros j. destruct (decide _); [lia|reflexivity].
  - destruct (lookup_lt_is_Some_2 planes (S i) ltac:(lia)) as [planeToKeep Hkeep].
    rewrite Hkeep.
    match goal with |- context [remove_shift count (S i) ?h ?l] =>
      destruct (IH (S i) h l) as [Hlength Hlookup] end.
    { rewrite length_insert. lia. }
    cbv zeta in Hlength, Hlookup |- *. rewrite length_insert in Hlength.
    split; [exact Hlength|]. intros j. rewrite Hlookup.
    destruct (decide (S i <= j < S i + count)%nat) as [Hin|Hout].
    + rewrite list_lookup_insert_ne by lia. destruct (decide _); [reflexivity|lia].
    + destruct (decide (j = i)) as [->|Hne].
      * rewrite list_lookup_insert_eq by lia. destruct (decide _); [by rewrite Hkeep|lia].
      * rewrite list_lookup_insert_ne by lia. destruct (decide _); [lia|reflexivity].
Qed.

(** When some member is value-equal to the plane, [remove] answers true,
    takes the first such member out of the sequence, keeps the order of the
    others, and leaves the tracker at multiple. *)
Lemma remove_found (w : World) (clippingPlane : PlaneRef) (k : nat) :
  indexOf (heap w) (_planes (collection w)) clippingPlane = Z.of_nat k ->
  let result := remove w clippingPlane in
  snd result = true
  /\ _planes (collection (fst result)) = delete k (_planes (collection w))
  /\ dirtyState (collection (fst result)) = Multiple.
Proof.
  intros Hindex.
  destruct (indexOf_from_spec (heap w) (_planes (collection w)) clippingPlane 0)
    as [_ Hsome].
  unfold indexOf in Hindex.
  destruct (Hsome ltac:(lia) ltac:(lia)) as (k' & p & Hk & Hp & _).
  assert (k' = k) as -> by lia.
  apply lookup_lt_Some in Hp.
  unfold remove, indexOf. rewrite Hindex.
  destruct (Z.eqb_spec (Z.of_nat k) (-1)); [lia|]. rewrite Nat2Z.id.
  match goal with |- context [remove_shift ?c k ?h ?l] =>
    pose proof (remove_shift_lookup c k h l ltac:(lia)) as Hshift;
    destruct (remove_shift c k h l) as [heap' planes'] end.
  cbv zeta in Hshift. cbn [snd] in Hshift. destruct Hshift as [Hlength Hlookup].
  cbn [fst snd collection _planes with_planes with_multipleDirtyPlanes].
  split; [reflexivity|]. split; [|reflexivity].
  apply list_eq. intros j.
  destruct (decide (j < length (_planes (collection w)) - 1)%nat) as [Hj|Hj].
  - rewrite lookup_take_lt by lia. rewrite Hlookup.
    destruct (decide (k <= j < k + _)%nat).
    + by rewrite list_lookup_delete_ge by lia.
    + by rewrite list_lookup_delete_lt by lia.
  - rewrite lookup_take_ge by lia. symmetry. apply lookup_ge_None.
    rewrite length_delete by (apply lookup_lt_is_Some; lia). lia.
Qed.

(** The shifting loop renumbers exactly the ClippingPlanes it moves, when no
    plane object occurs twice in the sequence. *)
Lemma remove_shift_heap (count : nat) :
  forall (i : nat) (heap : Heap) (planes : list PlaneRef),
    (i + count < length planes)%nat -> NoDup planes ->
    let heap' := fst (remove_shift count i heap planes) in
    forall r,
      ((forall j, (i < j <= i + count)%nat -> planes !! j <> Some r) -> heap' r = heap r)
      /\ (forall j, (i < j <= i + count)%nat -> planes !! j = Some r ->
            heap' r = if instanceofClippingPlane (heap r)
                      then set_index (heap r) (Z.of_nat (j - 1)) else heap r).
Proof.
  intros i heap planes Hlen Hnodup.
  assert (Hinj : forall a b x, planes !! a = Some x -> planes !! b = Some x -> a = b)
    by (by apply NoDup_alt).
  clear Hnodup. revert i heap Hlen.
  (* the loop reads positions that its earlier writes do not reach *)
  assert (Hgen : forall count i heap current,
            (i + count < length planes)%nat -> length current = length planes ->
            (forall j, (i < j)%nat -> current !! j = planes !! j) ->
            forall r,
              ((forall j, (i < j <= i + count)%nat -> planes !! j <> Some r) ->
                 fst (remove_shift count i heap current) r = heap r)
              /\ (forall j, (i < j <= i + count)%nat -> planes !! j = Some r ->
                    fst (remove_shift count i heap current) r
                    = if instanceofClippingPlane (heap r)
                      then set_index (heap r) (Z.of_nat (j - 1)) else heap r)).
  { clear count. induction count as [|count IH]; intros i heap current Hlen Hsame Htail r;
      cbn [remove_shift].
    - split; [reflexivity|]. intros j Hj. lia.
    - destruct (lookup_lt_is_Some_2 planes (S i) ltac:(lia)) as [planeToKeep Hkeep].
      rewrite (Htail (S i)) by lia. rewrite Hkeep.
      set (heap1 := if instanceofClippingPlane (heap planeToKeep)
                    then <[planeToKeep := set_index (heap planeToKeep) (Z.of_nat i)]> heap
                    else heap).
      destruct (IH (S i) heap1 (<[i := planeToKeep]> current)) with (r := r)
        as [IHother IHmoved].
      { lia. }
      { by rewrite length_insert. }
      { intros j Hj. rewrite list_lookup_insert_ne by lia. apply Htail. lia. }
      assert (Hheap1 : forall x, x <> planeToKeep -> heap1 x = heap x).
      { intros x Hx. unfold heap1. destruct (instanceofClippingPlane _); [|reflexivity].
        by rewrite fn_lookup_insert_ne. }
      assert (Hheap1' : heap1 planeToKeep
                        = if instanceofClippingPlane (heap planeToKeep)
                          then set_index (heap planeToKeep) (Z.of_nat i)
                          else heap planeToKeep).
      { unfold heap1. destruct (instanceofClippingPlane _); [|reflexivity].
        by rewrite fn_lookup_insert. }
      split.
      + intros Hnot. rewrite IHother by (intros j Hj; apply Hnot; lia).
        apply Hheap1. intros ->. by apply (Hnot (S i) ltac:(lia)).
      + intros j Hj Hr. destruct (decide (j = S i)) as [->|Hne].
        * assert (r = planeToKeep) as -> by congruence.
          rewrite IHother.
          { rewrite Hheap1'. by replace (S i - 1)%nat with i by lia. }
          intros j Hj' Hdup. pose proof (Hinj _ _ _ Hkeep Hdup). lia.
        * rewrite (IHmoved j) by (lia || done).
          assert (r <> planeToKeep).
          { intros ->. pose proof (Hinj _ _ _ Hkeep Hr). lia. }
          by rewrite Hheap1. }
  intros i heap Hlen. cbv zeta. by apply Hgen.
Qed.

(** [remove] of a member itself, in a sequence without repeated objects and
    with no earlier value-equal member, does what C3 says: the member is
    detached (index and callback cleared if it is a ClippingPlane), the
    ClippingPlanes after it are renumbered to their new positions, and every
    other plane object is left as it was. *)
Lemma remove_member (w : World) (clippingPlane : PlaneRef) (k : nat) :
  NoDup (_planes (collection w)) ->
  _planes (collection w) !! k = Some clippingPlane ->
  indexOf (heap w) (_planes (collection w)) clippingPlane = Z.of_nat k ->
  let heap' := heap (fst (remove w clippingPlane)) in
  heap' clippingPlane
    = (if instanceofClippingPlane (heap w clippingPlane)
       then set_index (set_onChangeCallback (heap w clippingPlane) None) (-1)
       else heap w clippingPlane)
  /\ (forall j r, (k < j)%nat -> _planes (collection w) !! j = Some r ->
        heap' r = if instanceofClippingPlane (heap w r)
                  then set_index (heap w r) (Z.of_nat (j - 1)) else heap w r)
  /\ (forall r, r <> clippingPlane ->
        (forall j, (k < j)%nat -> _planes (collection w) !! j <> Some r) ->
        heap' r = heap w r).
Proof.
  intros Hnodup Hmember Hindex.
  assert (Hinj : forall a b x, _planes (collection w) !! a = Some x ->
                               _planes (collection w) !! b = Some x -> a = b)
    by (by apply NoDup_alt).
  pose proof (lookup_lt_Some _ _ _ Hmember) as Hk.
  unfold remove. rewrite Hindex.
  destruct (Z.eqb_spec (Z.of_nat k) (-1)); [lia|]. rewrite Nat2Z.id.
  set (heap1 := if instanceofClippingPlane (heap w clippingPlane)
                then <[clippingPlane := set_index (set_onChangeCallback (heap w clippingPlane) None) (-1)]>
                       (heap w)
                else heap w).
  pose proof (remove_shift_heap (length (_planes (collection w)) - 1 - k) k heap1
                (_planes (collection w)) ltac:(lia) Hnodup) as Hshift.
  destruct (remove_shift _ k heap1 _) as [heap' planes']. cbv zeta in Hshift.
  cbn [fst heap] in *.
  assert (Hheap1 : forall x, x <> clippingPlane -> heap1 x = heap w x).
  { intros x Hx. unfold heap1. destruct (instanceofClippingPlane _); [|reflexivity].
    by rewrite fn_lookup_insert_ne. }
  split; [|split].
  - destruct (Hshift clippingPlane) as [Hother _]. rewrite Hother.
    + unfold heap1. destruct (instanceofClippingPlane _); [|reflexivity].
      by rewrite fn_lookup_insert.
    + intros j Hj Hdup. pose proof (Hinj _ _ _ Hmember Hdup). lia.
  - intros j r Hj Hr. destruct (Hshift r) as [_ Hmoved].
    assert (r <> clippingPlane).
    { intros ->. pose proof (Hinj _ _ _ Hmember Hr). lia. }
    rewrite (Hmoved j); [by rewrite Hheap1|..|exact Hr].
    apply lookup_lt_Some in Hr. lia.
  - intros r Hne Hnot. destruct (Hshift r) as [Hother _].
    rewrite Hother; [by apply Hheap1|]. intros j Hj. apply Hnot. lia.
Qed.

(** C3 on a plane that is value-equal to a member without being that member:
    [remove] answers true and takes the member out of the sequence, but the
    index and the callback it clears are those of its argument; the member it
    found keeps its index 0 and its callback. *)
Theorem remove_value_equal_plane :
  let w := add (ClippingPlaneCollection_new sample_heap defaultOptions) 0%nat in
  Plane_equals (heap w 0%nat) (heap w 3%nat) = true
  /\ snd (remove w 3%nat) = true
  /\ _planes (collection (fst (remove w 3%nat))) = []
  /\ index (heap (fst (remove w 3%nat)) 0%nat) = Some 0
  /\ onChangeCallback (heap (fst (remove w 3%nat)) 0%nat) = Some SetIndexDirtyCallback.
Proof. vm_compute. repeat split. Qed.

(** ** The encoders *)

Section Encoders.
Context `{Collaborators}.

Lemma element_in_range (planes : list PlaneRef) (i : Z) :
  0 <= i < Z.of_nat (length planes) -> is_Some (element planes i).
Proof.
  intros Hi. unfold element. destruct (Z.ltb_spec i 0); [lia|].
  apply lookup_lt_is_Some. lia.
Qed.

(** Encoding planes that exist into a view that exists cannot fail, and
    keeps the size of the view. *)
Lemma packPlanesAsFloats_loop_ok (heap : Heap) (planes : list PlaneRef) (count : nat) :
  forall (i : Z) (floatIndex : nat) (view : TypedArray),
    0 <= i -> i + Z.of_nat count <= Z.of_nat (length planes) ->
    exists view',
      packPlanesAsFloats_loop heap planes count i floatIndex (Some view) = inr (Some view')
      /\ length view' = length view.
Proof.
  induction count as [|count IH]; intros i floatIndex view Hi Hend.
  - by exists view.
  - cbn [packPlanesAsFloats_loop].
    destruct (element_in_range planes i ltac:(lia)) as [plane ->].
    edestruct IH as (view' & -> & Hlen); [| |exists view'; split; [reflexivity|]].
    + lia.
    + lia.
    + by rewrite Hlen, !length_insert.
Qed.

Lemma packPlanesAsUint8_loop_ok (heap : Heap) (planes : list PlaneRef) (count : nat) :
  forall (i : Z) (byteIndex : nat) (view : TypedArray),
    0 <= i -> i + Z.of_nat count <= Z.of_nat (length planes) ->
    exists view',
      packPlanesAsUint8_loop heap planes count i byteIndex (Some view) = inr (Some view')
      /\ length view' = length view.
Proof.
  induction count as [|count IH]; intros i byteIndex view Hi Hend.
  - by exists view.
  - cbn [packPlanesAsUint8_loop].
    destruct (element_in_range planes i ltac:(lia)) as [plane ->].
    edestruct IH as (view' & -> & Hlen); [| |exists view'; split; [reflexivity|]].
    + lia.
    + lia.
    + by rewrite Hlen, !length_insert.
Qed.

(** An encoder that returns has not changed the size of the view. *)
Lemma packPlanesAsFloats_loop_length (heap : Heap) (planes : list PlaneRef) (count : nat) :
  forall i floatIndex view result,
    packPlanesAsFloats_loop heap planes count i floatIndex view = inr result ->
    length <$> result = length <$> view.
Proof.
  induction count as [|count IH]; intros i floatIndex view result; cbn.
  - by intros [= <-].
  - destruct (element planes i); [|discriminate]. destruct view as [view|]; [|discriminate].
    intros Hloop. apply IH in Hloop. rewrite Hloop. cbn. by rewrite !length_insert.
Qed.

Lemma packPlanesAsUint8_loop_length (heap : Heap) (planes : list PlaneRef) (count : nat) :
  forall i byteIndex view result,
    packPlanesAsUint8_loop heap planes count i byteIndex view = inr result ->
    length <$> result = length <$> view.
Proof.
  induction count as [|count IH]; intros i byteIndex view result; cbn.
  - by intros [= <-].
  - destruct (element planes i); [|discriminate]. destruct view as [view|]; [|discriminate].
    intros Hloop. apply IH in Hloop. rewrite Hloop. cbn. by rewrite !length_insert.
Qed.

Lemma encode_length (useFloat : bool) heap planes startIndex endIndex view result :
  encode useFloat heap planes startIndex endIndex view = inr result ->
  length <$> result = length <$> view.
Proof.
  unfold encode. destruct useFloat;
    [apply packPlanesAsFloats_loop_length|apply packPlanesAsUint8_loop_length].
Qed.

Lemma encode_all_ok (useFloat : bool) (heap : Heap) (planes : list PlaneRef)
    (view : TypedArray) :
  exists view',
    encode useFloat heap planes 0 (Z.of_nat (length planes)) (Some view) = inr (Some view')
    /\ length view' = length view.
Proof.
  unfold encode. rewrite Z.sub_0_r, Nat2Z.id.
  destruct useFloat;
    [apply packPlanesAsFloats_loop_ok|apply packPlanesAsUint8_loop_ok]; lia.
Qed.

End Encoders.

(** ** The update *)

Section Update.
Context `{Collaborators}.

Lemma Texture_copyFrom_dims (t : Texture) srcWidth srcHeight view xOffset yOffset :
  let t' := Texture_copyFrom t srcWidth srcHeight view xOffset yOffset in
  width t' = width t /\ height t' = height t /\ pixelDatatype t' = pixelDatatype t.
Proof.
  unfold Texture_copyFrom.
  repeat (match goal with |- context [match ?x with _ => _ end] => destruct x end);
    auto.
Qed.

Lemma copyFrom_dims (t : Texture) copyWidth copyHeight view offset :
  let t' := copyFrom t copyWidth copyHeight view offset in
  width t' = width t /\ height t' = height t /\ pixelDatatype t' = pixelDatatype t.
Proof.
  unfold copyFrom. destruct (default _ offset), view; [|auto].
  apply Texture_copyFrom_dims.
Qed.

(** The packers change the view of their layout and nothing else. *)
Lemma packPlanesAsFloats_encode heap this startIndex endIndex :
  packPlanesAsFloats heap this startIndex endIndex
  = match encode true heap (_planes this) startIndex endIndex (_float32View this) with
    | inr view => inr (with_viewOf true this view)
    | inl e => inl e
    end.
Proof. reflexivity. Qed.

Lemma packPlanesAsUint8_encode heap this startIndex endIndex :
  packPlanesAsUint8 heap this startIndex endIndex
  = match encode false heap (_planes this) startIndex endIndex (_uint8View this) with
    | inr view => inr (with_viewOf false this view)
    | inl e => inl e
    end.
Proof. reflexivity. Qed.

(** The three courses of lines 508-553: nothing to do, a full refresh, a
    partial refresh of the one dirty plane. *)
Lemma update_refresh_skip useFloat heap this texture calls :
  _multipleDirtyPlanes this = false -> _containsUntrackablePlanes this = false ->
  _dirtyIndex this = -1 ->
  update_refresh useFloat heap this texture calls = mkOutcome this calls Normal.
Proof. intros Hm Hu Hd. unfold update_refresh. by rewrite Hm, Hu, Hd. Qed.

Lemma update_refresh_full useFloat heap this texture calls :
  _multipleDirtyPlanes this || _containsUntrackablePlanes this = true ->
  update_refresh useFloat heap this texture calls
  = match encode useFloat heap (_planes this) 0 (length_ this) (viewOf useFloat this) with
    | inr view =>
        mkOutcome
          (refreshed useFloat this view
             (copyFrom texture (width texture) (height texture) view None))
          (calls ++ [TextureCopyFrom (width texture) (height texture) None]) Normal
    | inl e => mkOutcome this calls (Abrupt e)
    end.
Proof.
  intros Hfull. unfold update_refresh. rewrite Hfull. cbn [negb andb].
  destruct useFloat;
    [rewrite packPlanesAsFloats_encode|rewrite packPlanesAsUint8_encode];
    cbn [viewOf]; destruct (encode _ _ _ _ _ _); reflexivity.
Qed.

Lemma update_refresh_partial (useFloat : bool) heap this texture calls :
  _multipleDirtyPlanes this = false -> _containsUntrackablePlanes this = false ->
  _dirtyIndex this <> -1 ->
  let dirtyIndex := _dirtyIndex this in
  let offsetY := Number.floor (Number.div (Number.ofZ dirtyIndex) (width texture)) in
  let offsetX :=
    Number.floor (Number.sub (Number.ofZ dirtyIndex) (Number.mul offsetY (width texture))) in
  let copyWidth := Number.ofZ (if useFloat then 1 else 2) in
  update_refresh useFloat heap this texture calls
  = match encode useFloat heap (_planes this) dirtyIndex (dirtyIndex + 1)
            (viewOf useFloat this) with
    | inr view =>
        mkOutcome
          (refreshed useFloat this view
             (copyFrom texture copyWidth (Number.ofZ 1) view (Some (offsetX, offsetY))))
          (calls ++ [TextureCopyFrom copyWidth (Number.ofZ 1) (Some (offsetX, offsetY))])
          Normal
    | inl e => mkOutcome this calls (Abrupt e)
    end.
Proof.
  intros Hm Hu Hd. unfold update_refresh. rewrite Hm, Hu. cbn [orb negb andb].
  destruct (Z.eqb_spec (_dirtyIndex this) (-1)); [contradiction|].
  destruct useFloat;
    [rewrite packPlanesAsFloats_encode|rewrite packPlanesAsUint8_encode];
    cbn [viewOf]; destruct (encode _ _ _ _ _ _); reflexivity.
Qed.

(** Whatever its course, the refresh keeps the planes, the untracked-plane
    flag, the mode and the dimensions of the texture. *)
Lemma update_refresh_keeps useFloat heap this texture calls :
  _clippingPlanesTexture this = Some texture ->
  let o := update_refresh useFloat heap this texture calls in
  _planes (state o) = _planes this
  /\ _containsUntrackablePlanes (state o) = _containsUntrackablePlanes this
  /\ exists texture',
       _clippingPlanesTexture (state o) = Some texture'
       /\ width texture' = width texture /\ height texture' = height texture
       /\ pixelDatatype texture' = pixelDatatype texture.
Proof.
  intros Htex o. subst o.
  destruct (_multipleDirtyPlanes this || _containsUntrackablePlanes this) eqn:Efull.
  - rewrite update_refresh_full by exact Efull.
    destruct (encode _ _ _ _ _ _) as [e|view]; cbn [state].
    + eauto 10.
    + split; [by destruct useFloat|]. split; [by destruct useFloat|].
      eexists. split; [reflexivity|]. apply copyFrom_dims.
  - apply orb_false_iff in Efull as [Hm Hu].
    destruct (Z.eq_dec (_dirtyIndex this) (-1)) as [Hd|Hd].
    + rewrite update_refresh_skip by assumption. cbn [state]. eauto 10.
    + rewrite update_refresh_partial by assumption.
      destruct (encode _ _ _ _ _ _) as [e|view]; cbn [state].
      * eauto 10.
      * split; [by destruct useFloat|]. split; [by destruct useFloat|].
        eexists. split; [reflexivity|]. apply copyFrom_dims.
Qed.

(** Whatever its course, the refresh keeps the sizes of the typed arrays. *)
Lemma update_refresh_keeps_views useFloat heap this texture calls :
  let o := update_refresh useFloat heap this texture calls in
  length <$> _float32View (state o) = length <$> _float32View this
  /\ length <$> _uint8View (state o) = length <$> _uint8View this.
Proof.
  intros o. subst o.
  destruct (_multipleDirtyPlanes this || _containsUntrackablePlanes this) eqn:Efull.
  - rewrite update_refresh_full by exact Efull.
    destruct (encode _ _ _ _ _ _) as [e|view] eqn:Hencode; cbn [state]; [done|].
    apply encode_length in Hencode. by destruct useFloat.
  - apply orb_false_iff in Efull as [Hm Hu].
    destruct (Z.eq_dec (_dirtyIndex this) (-1)) as [Hd|Hd].
    + by rewrite update_refresh_skip by assumption.
    + rewrite update_refresh_partial by assumption.
      destruct (encode _ _ _ _ _ _) as [e|view] eqn:Hencode; cbn [state]; [done|].
      apply encode_length in Hencode. by destruct useFloat.
Qed.

End Update.

Section Reallocation.
Context `{Collaborators}.

Lemma pixelsNeeded_ofZ (useFloat : bool) (this : ClippingPlaneCollection) :
  (if useFloat then Number.ofZ (length_ this)
   else Number.mul (Number.ofZ (length_ this)) (Number.ofZ 2))
  = Number.ofZ (pixelsNeededFor useFloat this).
Proof. by destruct useFloat. Qed.

Lemma pixelsNeededFor_nonneg (useFloat : bool) (this : ClippingPlaneCollection) :
  0 <= pixelsNeededFor useFloat this.
Proof. unfold pixelsNeededFor, length_. destruct useFloat; lia. Qed.

Lemma TypedArray_new_ofZ (n : Z) :
  0 <= n -> TypedArray_new (Number.ofZ n) = inr (replicate (Z.to_nat n) (Number.ofZ 0)).
Proof.
  intros Hn. unfold TypedArray_new, Number.ofZ.
  destruct (Number.Qltb (inject_Z n) 0) eqn:E.
  { apply Qltb_lt in E. change 0%Q with (inject_Z 0) in E. rewrite <- Zlt_Qlt in E. lia. }
  rewrite Qfloor_Z. destruct (Z.ltb_spec n 0); [lia|reflexivity].
Qed.

(** The texture is kept exactly when its pixel count is at least the pixels
    needed and at most four times as many. *)
Lemma update_keep_finite (this : ClippingPlaneCollection) (texture : Texture)
    (w h n : Z) :
  _clippingPlanesTexture this = Some texture ->
  width texture = Number.ofZ w -> height texture = Number.ofZ h ->
  update_keep this (Number.ofZ n)
  = if (w * h <? n) || (4 * n <? w * h) then (None, [TextureDestroy])
    else (Some texture, []).
Proof.
  intros Htex Hw Hh. unfold update_keep.
  rewrite Htex, Hw, Hh, mul_ofZ, lt_ofZ, lt_quarter_ofZ. reflexivity.
Qed.

Lemma update_keep_cases (this : ClippingPlaneCollection) (pixelsNeeded : Number) :
  (exists texture, _clippingPlanesTexture this = Some texture
     /\ update_keep this pixelsNeeded = (Some texture, []))
  \/ (exists calls, update_keep this pixelsNeeded = (None, calls)
        /\ (calls = [] \/ calls = [TextureDestroy])).
Proof.
  unfold update_keep. destruct (_clippingPlanesTexture this) as [texture|]; [|eauto].
  destruct (_ || _); eauto 10.
Qed.

(** The array allocated next to a planned texture always exists when the
    host reports a maximum width of at least 1. *)
Lemma planned_view_exists (limits : ContextLimits) (n : Z) :
  1 <= maximumTextureSize limits -> 0 <= n ->
  exists view,
    TypedArray_new
      (Number.mul (Number.mul (plannedWidth limits (Number.ofZ n))
                              (plannedHeight limits (Number.ofZ n)))
                  (Number.ofZ 4))
    = inr view.
Proof.
  intros Hmax Hn. unfold plannedWidth, plannedHeight.
  destruct (Z.eq_dec n 0) as [->|Hpos].
  - rewrite computeTextureResolution_empty by exact Hmax. by eexists.
  - destruct (computeTextureResolution_positive limits n ltac:(lia) Hmax)
      as (-> & Hw & Hh & _).
    cbn [Cartesian2.x Cartesian2.y]. rewrite !mul_ofZ.
    eexists. apply TypedArray_new_ofZ. nia.
Qed.

(** A planned texture is neither too small for the pixels it was planned
    for nor more than four times too large. *)
Lemma planned_texture_fits (limits : ContextLimits) (n : Z) :
  1 <= maximumTextureSize limits -> 0 <= n ->
  let currentPixelCount :=
    Number.mul (plannedWidth limits (Number.ofZ n)) (plannedHeight limits (Number.ofZ n)) in
  Number.lt currentPixelCount (Number.ofZ n)
  || Number.lt (Number.ofZ n) (Number.mul (Number.Fin 0.25) currentPixelCount)
  = false.
Proof.
  intros Hmax Hn. unfold plannedWidth, plannedHeight.
  destruct (Z.eq_dec n 0) as [->|Hpos].
  - rewrite computeTextureResolution_empty by exact Hmax. reflexivity.
  - destruct (computeTextureResolution_positive limits n ltac:(lia) Hmax)
      as (-> & Hw & Hh & Hdiv).
    cbn [Cartesian2.x Cartesian2.y]. rewrite !mul_ofZ, lt_ofZ, lt_quarter_ofZ.
    apply orb_false_iff. split; [apply Z.ltb_ge|apply Z.ltb_ge]; nia.
Qed.

(** [update] with no texture to keep allocates one and goes on to a full
    refresh. *)
Lemma update_allocates (limits : ContextLimits) (frameState : FrameState) (heap : Heap)
    (this : ClippingPlaneCollection) (calls : list GpuCall) :
  let useFloat := floatingPointTexture (context frameState) in
  let pixelsNeeded := Number.ofZ (pixelsNeededFor useFloat this) in
  update_keep this pixelsNeeded = (None, calls) ->
  1 <= maximumTextureSize limits ->
  let texture :=
    Texture_new (plannedWidth limits pixelsNeeded) (plannedHeight limits pixelsNeeded)
                (datatypeFor useFloat) in
  exists view,
    update limits frameState heap this
    = update_refresh useFloat heap (allocated useFloat this view texture) texture
        (calls ++ [TextureNew (width texture) (height texture) (datatypeFor useFloat)]).
Proof.
  intros useFloat pixelsNeeded Hkeep Hmax texture.
  destruct (planned_view_exists limits (pixelsNeededFor useFloat this) Hmax
              (pixelsNeededFor_nonneg _ _)) as [view Hview].
  exists view. unfold update. unfold useFloatTexture. fold useFloat.
  rewrite pixelsNeeded_ofZ. fold pixelsNeeded. rewrite Hkeep.
  cbn [Cartesian2.x Cartesian2.y].
  fold (plannedWidth limits pixelsNeeded) (plannedHeight limits pixelsNeeded).
  fold pixelsNeeded in Hview. rewrite Hview.
  unfold allocated, with_viewOf, datatypeFor, texture.
  by destruct useFloat.
Qed.

Lemma update_keeps (limits : ContextLimits) (frameState : FrameState) (heap : Heap)
    (this : ClippingPlaneCollection) (texture : Texture) (calls : list GpuCall) :
  let useFloat := floatingPointTexture (context frameState) in
  update_keep this (Number.ofZ (pixelsNeededFor useFloat this)) = (Some texture, calls) ->
  update limits frameState heap this = update_refresh useFloat heap this texture calls.
Proof.
  intros useFloat Hkeep. unfold update. unfold useFloatTexture. fold useFloat.
  rewrite pixelsNeeded_ofZ, Hkeep. reflexivity.
Qed.

End Reallocation.

Section Policy.
Context `{Collaborators}.

Lemma refreshed_fields (useFloat : bool) this view texture :
  _planes (refreshed useFloat this view texture) = _planes this
  /\ viewOf useFloat (refreshed useFloat this view texture) = view
  /\ _clippingPlanesTexture (refreshed useFloat this view texture) = Some texture
  /\ _containsUntrackablePlanes (refreshed useFloat this view texture)
     = _containsUntrackablePlanes this.
Proof. by destruct useFloat. Qed.

Lemma allocated_fields (useFloat : bool) this view texture :
  _planes (allocated useFloat this view texture) = _planes this
  /\ viewOf useFloat (allocated useFloat this view texture) = Some view
  /\ _clippingPlanesTexture (allocated useFloat this view texture) = Some texture
  /\ _multipleDirtyPlanes (allocated useFloat this view texture) = true
  /\ _containsUntrackablePlanes (allocated useFloat this view texture)
     = _containsUntrackablePlanes this.
Proof. by destruct useFloat. Qed.

(** With a full refresh pending and the view of the layout allocated, the
    refresh encodes every plane and uploads the whole texture. *)
Lemma update_refresh_fullRefresh (useFloat : bool) heap this texture calls view :
  _multipleDirtyPlanes this || _containsUntrackablePlanes this = true ->
  viewOf useFloat this = Some view ->
  (forall copyWidth copyHeight offset, TextureCopyFrom copyWidth copyHeight offset ∉ calls) ->
  let o := update_refresh useFloat heap this texture calls in
  fullRefresh useFloat heap o
  /\ gpuCalls o = calls ++ [TextureCopyFrom (width texture) (height texture) None]
  /\ _planes (state o) = _planes this
  /\ _containsUntrackablePlanes (state o) = _containsUntrackablePlanes this.
Proof.
  intros Hfull Hview Hcalls o. subst o. rewrite update_refresh_full by exact Hfull.
  rewrite Hview.
  destruct (encode_all_ok useFloat heap (_planes this) view) as (view' & Henc & _).
  unfold length_. rewrite Henc.
  destruct (refreshed_fields useFloat this (Some view')
              (copyFrom texture (width texture) (height texture) (Some view') None))
    as (Hplanes & Hv & Htex & Hflag).
  unfold fullRefresh. cbn [state gpuCalls completion].
  split; [split; [reflexivity|split]|split; [reflexivity|split]].
  - exists view. unfold length_. rewrite Hplanes, Hv. exact Henc.
  - eexists _, calls. split; [exact Htex|]. split; [|exact Hcalls].
    destruct (copyFrom_dims texture (width texture) (height texture) (Some view') None)
      as (-> & -> & _). reflexivity.
  - exact Hplanes.
  - exact Hflag.
Qed.

(** The refresh adds at most one call, an upload. *)
Lemma update_refresh_calls (useFloat : bool) heap this texture calls :
  exists uploads,
    gpuCalls (update_refresh useFloat heap this texture calls) = calls ++ uploads
    /\ (uploads = []
        \/ exists copyWidth copyHeight offset,
             uploads = [TextureCopyFrom copyWidth copyHeight offset]).
Proof.
  destruct (_multipleDirtyPlanes this || _containsUntrackablePlanes this) eqn:Efull.
  - rewrite update_refresh_full by exact Efull.
    destruct (encode _ _ _ _ _ _); cbn [gpuCalls].
    + exists []. rewrite app_nil_r. auto.
    + eexists. split; [reflexivity|]. right. eauto.
  - apply orb_false_iff in Efull as [Hm Hu].
    destruct (Z.eq_dec (_dirtyIndex this) (-1)) as [Hd|Hd].
    + rewrite update_refresh_skip by assumption. exists []. rewrite app_nil_r. auto.
    + rewrite update_refresh_partial by assumption.
      destruct (encode _ _ _ _ _ _); cbn [gpuCalls].
      * exists []. rewrite app_nil_r. auto.
      * eexists. split; [reflexivity|]. right. eauto.
Qed.



End Policy.
Section Completion.
Context `{Collaborators}.

Lemma encode_range_ok (useFloat : bool) (heap : Heap) (planes : list PlaneRef)
    (startIndex endIndex : Z) (view : TypedArray) :
  0 <= startIndex <= endIndex -> endIndex <= Z.of_nat (length planes) ->
  exists view',
    encode useFloat heap planes startIndex endIndex (Some view) = inr (Some view').
Proof.
  intros Hstart Hend. unfold encode.
  destruct useFloat;
    [destruct (packPlanesAsFloats_loop_ok heap planes (Z.to_nat (endIndex - startIndex))
                 startIndex 0 view ltac:(lia) ltac:(lia)) as (view' & -> & _)
    |destruct (packPlanesAsUint8_loop_ok heap planes (Z.to_nat (endIndex - startIndex))
                 startIndex 0 view ltac:(lia) ltac:(lia)) as (view' & -> & _)];
    eauto.
Qed.

(** [update] returns whenever the host reports a maximum width of at least
    1, the view of the layout is allocated next to the texture, and the
    dirty index, if one is pending, is a position of the sequence. *)
Lemma update_completes (limits : ContextLimits) (frameState : FrameState) (heap : Heap)
    (this : ClippingPlaneCollection) :
  1 <= maximumTextureSize limits ->
  view_ready (floatingPointTexture (context frameState)) this ->
  _dirtyIndex this = -1 \/ 0 <= _dirtyIndex this < length_ this ->
  completion (update limits frameState heap this) = Normal.
Proof.
  intros Hmax Hready Hdirty. set (useFloat := floatingPointTexture (context frameState)) in *.
  assert (Hrefresh : forall that texture calls view,
            viewOf useFloat that = Some view ->
            _dirtyIndex that = -1 \/ 0 <= _dirtyIndex that < length_ that ->
            completion (update_refresh useFloat heap that texture calls) = Normal).
  { intros that texture calls view Hview Hd.
    destruct (_multipleDirtyPlanes that || _containsUntrackablePlanes that) eqn:Efull.
    - rewrite update_refresh_full by exact Efull. rewrite Hview.
      destruct (encode_range_ok useFloat heap (_planes that) 0 (length_ that) view
                  ltac:(unfold length_; lia) ltac:(unfold length_; lia)) as [view' ->].
      reflexivity.
    - apply orb_false_iff in Efull as [Hm Hu].
      destruct (Z.eq_dec (_dirtyIndex that) (-1)) as [Hclean|Hpending].
      + by rewrite update_refresh_skip by assumption.
      + rewrite update_refresh_partial by assumption. rewrite Hview.
        destruct (encode_range_ok useFloat heap (_planes that) (_dirtyIndex that)
                    (_dirtyIndex that + 1) view ltac:(lia) ltac:(unfold length_ in Hd; lia))
          as [view' ->].
        reflexivity. }
  destruct (update_keep_cases this (Number.ofZ (pixelsNeededFor useFloat this)))
    as [(texture & Htex & Hkeep)|(calls & Hkeep & _)].
  - rewrite (update_keeps limits frameState heap this texture [] Hkeep). fold useFloat.
    destruct (Hready ltac:(rewrite Htex; eauto)) as [view Hview].
    by apply (Hrefresh this texture [] view).
  - destruct (update_allocates limits frameState heap this calls Hkeep Hmax) as [view ->].
    fold useFloat. set (fresh := Texture_new _ _ _).
    destruct (allocated_fields useFloat this view fresh) as (Hp & Hv & _).
    apply (Hrefresh _ fresh _ view Hv).
    unfold length_. rewrite Hp. by destruct useFloat.
Qed.

End Completion.

Section Idempotence.
Context `{Collaborators}.

Lemma update_keep_unfold (this : ClippingPlaneCollection) (pixelsNeeded : Number) :
  update_keep this pixelsNeeded
  = match _clippingPlanesTexture this with
    | Some texture =>
        if reallocationNeeded texture pixelsNeeded then (None, [TextureDestroy])
        else (Some texture, [])
    | None => (None, [])
    end.
Proof. reflexivity. Qed.

Lemma dirtyState_clean (this : ClippingPlaneCollection) :
  dirtyState this = Clean <-> _multipleDirtyPlanes this = false /\ _dirtyIndex this = -1.
Proof.
  unfold dirtyState. destruct (_multipleDirtyPlanes this); [split; [|intros []]; discriminate|].
  destruct (Z.eqb_spec (_dirtyIndex this) (-1)); split; try discriminate; auto.
  intros [_ ?]. contradiction.
Qed.

(** A texture that need not be reallocated, with nothing pending and no
    untracked plane: [update] returns at once. *)
Lemma update_noop (limits : ContextLimits) (frameState : FrameState) (heap : Heap)
    (this : ClippingPlaneCollection) (texture : Texture) :
  _clippingPlanesTexture this = Some texture ->
  reallocationNeeded texture
    (Number.ofZ (pixelsNeededFor (floatingPointTexture (context frameState)) this)) = false ->
  _containsUntrackablePlanes this = false ->
  dirtyState this = Clean ->
  update limits frameState heap this = mkOutcome this [] Normal.
Proof.
  intros Htex Hfits Hflag Hclean. apply dirtyState_clean in Hclean as [Hm Hd].
  rewrite (update_keeps limits frameState heap this texture []).
  - by apply update_refresh_skip.
  - by rewrite update_keep_unfold, Htex, Hfits.
Qed.

(** What a completed [update] leaves: the planes and the untracked-plane
    flag as they were, and a texture that fits the pixels needed. *)
Lemma update_leaves_fitting_texture (limits : ContextLimits) (frameState : FrameState)
    (heap : Heap) (this : ClippingPlaneCollection) :
  1 <= maximumTextureSize limits ->
  let useFloat := floatingPointTexture (context frameState) in
  let o := update limits frameState heap this in
  _planes (state o) = _planes this
  /\ _containsUntrackablePlanes (state o) = _containsUntrackablePlanes this
  /\ (completion o = Normal ->
      exists texture,
        _clippingPlanesTexture (state o) = Some texture
        /\ reallocationNeeded texture (Number.ofZ (pixelsNeededFor useFloat this)) = false).
Proof.
  intros Hmax useFloat o. subst o.
  destruct (update_keep_cases this (Number.ofZ (pixelsNeededFor useFloat this)))
    as [(texture & Htex & Hkeep)|(calls & Hkeep & _)].
  - rewrite (update_keeps limits frameState heap this texture [] Hkeep). fold useFloat.
    destruct (update_refresh_keeps useFloat heap this texture [] Htex)
      as (Hp & Hu & texture' & Htex' & Hw & Hh & _).
    split; [exact Hp|]. split; [exact Hu|]. intros _.
    exists texture'. split; [exact Htex'|].
    rewrite update_keep_unfold, Htex in Hkeep.
    unfold reallocationNeeded in *. rewrite Hw, Hh.
    destruct (_ || _); [discriminate|reflexivity].
  - destruct (update_allocates limits frameState heap this calls Hkeep Hmax) as [view ->].
    fold useFloat. set (fresh := Texture_new _ _ _).
    destruct (allocated_fields useFloat this view fresh) as (Hp & Hv & Ht & Hm & Hu).
    destruct (update_refresh_keeps useFloat heap (allocated useFloat this view fresh) fresh
                (calls ++ [TextureNew (width fresh) (height fresh) (datatypeFor useFloat)])
                Ht) as (Hp' & Hu' & texture' & Htex' & Hw & Hh & _).
    split; [by rewrite Hp'|]. split; [by rewrite Hu'|]. intros _.
    exists texture'. split; [exact Htex'|].
    unfold reallocationNeeded. rewrite Hw, Hh.
    apply (planned_texture_fits limits (pixelsNeededFor useFloat this) Hmax).
    apply pixelsNeededFor_nonneg.
Qed.

(** C9, as the code has it: for a collection that holds no untracked plane,
    an [update] that returns leaves nothing pending, and a second [update]
    for the same frame context returns at once, whatever the host limits
    then are: no encoding, no call on the texture, no change of state. *)
Theorem update_twice (limits : ContextLimits) (frameState : FrameState) (heap : Heap)
    (this : ClippingPlaneCollection) :
  1 <= maximumTextureSize limits ->
  _containsUntrackablePlanes this = false ->
  let first := update limits frameState heap this in
  completion first = Normal ->
  dirtyState (state first) = Clean
  /\ forall limits',
       update limits' frameState heap (state first) = mkOutcome (state first) [] Normal.
Proof.
  intros Hmax Hflag first Hdone.
  pose proof (update_clean limits frameState heap this Hdone) as Hclean.
  split; [exact Hclean|]. intros limits'.
  destruct (update_leaves_fitting_texture limits frameState heap this Hmax)
    as (Hp & Hu & Hfit).
  destruct (Hfit Hdone) as (texture & Htex & Hfits).
  apply (update_noop limits' frameState heap (state first) texture).
  - exact Htex.
  - unfold pixelsNeededFor, length_ in *. fold first in Hp. by rewrite Hp.
  - fold first in Hu. by rewrite Hu.
  - exact Hclean.
Qed.

End Idempotence.

Lemma update_twice_witness :
  let w := run (ClippingPlaneCollection_new sample_heap defaultOptions)
               [OpAdd 0%nat; OpAdd 1%nat] in
  let first := update sample_limits byteFrame (heap w) (collection w) in
  1 <= maximumTextureSize sample_limits
  /\ _containsUntrackablePlanes (collection w) = false
  /\ completion first = Normal
  /\ dirtyState (state first) = Clean
  /\ update sample_limits byteFrame (heap w) (state first) = mkOutcome (state first) [] Normal.
Proof.
  intros w first.
  assert (Hmax : 1 <= maximumTextureSize sample_limits) by (vm_compute; discriminate).
  assert (Hflag : _containsUntrackablePlanes (collection w) = false)
    by (vm_compute; reflexivity).
  assert (Hdone : completion first = Normal) by (vm_compute; reflexivity).
  repeat (split; [assumption|]).
  destruct (update_twice sample_limits byteFrame (heap w) (collection w) Hmax Hflag Hdone)
    as [Hclean Hsecond].
  split; [exact Hclean|exact (Hsecond sample_limits)].
Defined.

(** C9, as stated, fails for a collection that holds an untracked plane: the
    second of two successive updates encodes and uploads again. *)
Lemma update_twice_untracked :
  let w := add (ClippingPlaneCollection_new sample_heap defaultOptions) 2%nat in
  let first := update sample_limits floatFrame (heap w) (collection w) in
  let second := update sample_limits floatFrame (heap w) (state first) in
  completion first = Normal
  /\ gpuCalls second = [TextureCopyFrom (Number.ofZ 2) (Number.ofZ 1) None]
  /\ gpuCalls second <> [].
Proof. vm_compute. repeat split. discriminate. Qed.
(** ** Untracked planes *)

Section Untracked.
Context `{Collaborators}.

Lemma packPlanesAsFloats_loop_Some heap planes count :
  forall i floatIndex view result,
    packPlanesAsFloats_loop heap planes count i floatIndex (Some view) = inr result ->
    is_Some result.
Proof.
  induction count as [|count IH]; intros i floatIndex view result; cbn.
  - intros [= <-]. eauto.
  - destruct (element planes i); [|discriminate]. apply IH.
Qed.

Lemma packPlanesAsUint8_loop_Some heap planes count :
  forall i byteIndex view result,
    packPlanesAsUint8_loop heap planes count i byteIndex (Some view) = inr result ->
    is_Some result.
Proof.
  induction count as [|count IH]; intros i byteIndex view result; cbn.
  - intros [= <-]. eauto.
  - destruct (element planes i); [|discriminate]. apply IH.
Qed.

Lemma encode_Some (useFloat : bool) heap planes startIndex endIndex view result :
  encode useFloat heap planes startIndex endIndex (Some view) = inr result ->
  is_Some result.
Proof.
  unfold encode. destruct useFloat;
    [apply packPlanesAsFloats_loop_Some|apply packPlanesAsUint8_loop_Some].
Qed.

(** [update] with no texture to keep: the allocation, then the refresh. *)
Lemma update_allocation (limits : ContextLimits) (frameState : FrameState) (heap : Heap)
    (this : ClippingPlaneCollection) (calls : list GpuCall) :
  let useFloat := floatingPointTexture (context frameState) in
  let pixelsNeeded := Number.ofZ (pixelsNeededFor useFloat this) in
  update_keep this pixelsNeeded = (None, calls) ->
  let texture :=
    Texture_new (plannedWidth limits pixelsNeeded) (plannedHeight limits pixelsNeeded)
                (datatypeFor useFloat) in
  let calls := calls ++ [TextureNew (width texture) (height texture) (datatypeFor useFloat)] in
  update limits frameState heap this
  = match TypedArray_new
            (Number.mul (Number.mul (width texture) (height texture)) (Number.ofZ 4)) with
    | inl e => mkOutcome this calls (Abrupt e)
    | inr view =>
        update_refresh useFloat heap (allocated useFloat this view texture) texture calls
    end.
Proof.
  intros useFloat pixelsNeeded Hkeep texture calls'.
  unfold update. unfold useFloatTexture. fold useFloat.
  rewrite pixelsNeeded_ofZ. fold pixelsNeeded. rewrite Hkeep.
  subst calls' texture. unfold allocated, with_viewOf, datatypeFor, plannedWidth, plannedHeight.
  cbn [width height Texture_new Cartesian2.x Cartesian2.y].
  destruct (TypedArray_new _); by destruct useFloat.
Qed.

Lemma update_refresh_view_ready (useFloat : bool) heap this texture calls :
  is_Some (viewOf useFloat this) ->
  is_Some (viewOf useFloat (state (update_refresh useFloat heap this texture calls))).
Proof.
  intros [view Hview].
  destruct (_multipleDirtyPlanes this || _containsUntrackablePlanes this) eqn:Efull.
  - rewrite update_refresh_full by exact Efull. rewrite Hview.
    destruct (encode _ _ _ _ _ _) as [e|result] eqn:Henc; cbn [state].
    + rewrite Hview. eauto.
    + apply encode_Some in Henc.
      by destruct (refreshed_fields useFloat this result
                     (copyFrom texture (width texture) (height texture) result None))
        as (_ & -> & _).
  - apply orb_false_iff in Efull as [Hm Hu].
    destruct (Z.eq_dec (_dirtyIndex this) (-1)) as [Hd|Hd].
    + rewrite update_refresh_skip by assumption. cbn [state]. rewrite Hview. eauto.
    + rewrite update_refresh_partial by assumption. rewrite Hview.
      destruct (encode _ _ _ _ _ _) as [e|result] eqn:Henc; cbn [state].
      * rewrite Hview. eauto.
      * apply encode_Some in Henc.
        match goal with |- context [refreshed useFloat this result ?t] =>
          by destruct (refreshed_fields useFloat this result t) as (_ & -> & _) end.
Qed.

(** On a host of one capability, [update] keeps the view of the layout
    allocated whenever a texture is. *)
Lemma update_view_ready (limits : ContextLimits) (frameState : FrameState) (heap : Heap)
    (this : ClippingPlaneCollection) :
  let useFloat := floatingPointTexture (context frameState) in
  view_ready useFloat this ->
  view_ready useFloat (state (update limits frameState heap this)).
Proof.
  intros useFloat Hready.
  destruct (update_keep_cases this (Number.ofZ (pixelsNeededFor useFloat this)))
    as [(texture & Htex & Hkeep)|(calls & Hkeep & _)].
  - rewrite (update_keeps limits frameState heap this texture [] Hkeep). fold useFloat.
    intros _. apply update_refresh_view_ready. apply Hready. rewrite Htex. eauto.
  - rewrite (update_allocation limits frameState heap this calls Hkeep). fold useFloat.
    destruct (TypedArray_new _) as [e|view]; [exact Hready|].
    intros _. apply update_refresh_view_ready.
    match goal with |- context [allocated useFloat this view ?t] =>
      destruct (allocated_fields useFloat this view t) as (_ & -> & _) end.
    eauto.
Qed.

Lemma view_ready_step (useFloat : bool) (w : World) (op : Op) :
  sameHost useFloat op ->
  view_ready useFloat (collection w) -> view_ready useFloat (collection (step w op)).
Proof.
  intros Hhost Hready.
  destruct op as [plane|plane| |limits frameState|plane n d|v|v|v]; cbn.
  - unfold add. destruct (instanceofClippingPlane _); by destruct useFloat.
  - unfold remove. destruct (_ =? -1); [exact Hready|].
    destruct (remove_shift _ _ _ _). by destruct useFloat.
  - by destruct useFloat.
  - cbn in Hhost. subst useFloat. by apply update_view_ready.
  - unfold setPlane. destruct (heap w plane) as [? ? ix [[]|]|]; by destruct useFloat.
  - unfold set_unionClippingRegions. destruct (Bool.eqb _ _); by destruct useFloat.
  - unfold set_enabled. destruct (Bool.eqb _ _); by destruct useFloat.
  - by destruct useFloat.
Qed.





End Untracked.

(** ** Partial refresh *)

Section PartialRefresh.
Context `{Collaborators}.

(** C1 in the quantized layout, on a collection built by the public
    operations: plane 0 is added and uploaded, then plane 1 is added, which
    leaves exactly index 1 dirty.  The planes' regions are texels 0-1 and
    2-3.  [update] encodes plane 1 alone but uploads its two texels at
    column 1: it overwrites the distance texel of plane 0 and leaves texel
    3, the distance texel of plane 1, as it was. *)
Theorem partial_update_quantized_offset :
  let w := run (ClippingPlaneCollection_new sample_heap defaultOptions)
               [OpAdd 0%nat; OpUpdate sample_limits byteFrame; OpAdd 1%nat] in
  let o := update sample_limits byteFrame (heap w) (collection w) in
  dirtyState (collection w) = Single 1
  /\ _containsUntrackablePlanes (collection w) = false
  /\ planeTexels false 1%nat = [2%nat; 3%nat]
  /\ texels <$> _clippingPlanesTexture (collection w)
     = Some [normalTexel (sample_heap 0%nat); distanceTexel (sample_heap 0%nat);
             Cartesian4.ZERO; Cartesian4.ZERO]
  /\ gpuCalls o
     = [TextureCopyFrom (Number.ofZ 2) (Number.ofZ 1) (Some (Number.ofZ 1, Number.ofZ 0))]
  /\ texels <$> _clippingPlanesTexture (state o)
     = Some [normalTexel (sample_heap 0%nat); normalTexel (sample_heap 1%nat);
             distanceTexel (sample_heap 1%nat); Cartesian4.ZERO].
Proof. vm_compute. repeat split. Qed.

(** The full refresh of the same two planes puts each plane in its own
    region. *)
Lemma full_update_quantized_layout :
  let w := run (ClippingPlaneCollection_new sample_heap defaultOptions)
               [OpAdd 0%nat; OpAdd 1%nat] in
  let o := update sample_limits byteFrame (heap w) (collection w) in
  take 4 <$> (texels <$> _clippingPlanesTexture (state o))
  = Some [normalTexel (sample_heap 0%nat); distanceTexel (sample_heap 0%nat);
          normalTexel (sample_heap 1%nat); distanceTexel (sample_heap 1%nat)].
Proof. vm_compute. reflexivity. Qed.

End PartialRefresh.
Section PartialRefreshFloat.
Context `{Collaborators}.

Lemma floor_sub_ofZ (a b : Z) :
  Number.floor (Number.sub (Number.ofZ a) (Number.ofZ b)) = Number.ofZ (a - b).
Proof.
  unfold Number.floor, Number.sub, Number.ofZ. do 2 f_equal.
  unfold Qfloor, Qminus, Qplus, Qopp, inject_Z. cbn [Qnum Qden].
  change (Z.pos (1 * 1)) with 1. rewrite Z.div_1_r. lia.
Qed.

Lemma pixelAt_insert4 (view : TypedArray) (a b c d : Number) :
  (4 <= length view)%nat ->
  pixelAt (<[3%nat := d]> (<[2%nat := c]> (<[1%nat := b]> (<[0%nat := a]> view)))) 0
  = Cartesian4.mk a b c d.
Proof.
  intros Hlen. unfold pixelAt. cbn [Nat.mul Nat.add].
  rewrite list_lookup_insert_eq by (rewrite !length_insert; lia).
  do 1 rewrite (list_lookup_insert_ne _ 3 2) by lia.
  rewrite list_lookup_insert_eq by (rewrite !length_insert; lia).
  do 2 (rewrite (list_lookup_insert_ne _ _ 1) by lia).
  rewrite list_lookup_insert_eq by (rewrite !length_insert; lia).
  do 3 (rewrite (list_lookup_insert_ne _ _ 0) by lia).
  rewrite list_lookup_insert_eq by lia.
  reflexivity.
Qed.

(** The float layout does what C1 says: with exactly index [i] dirty and
    the texture kept, [update] encodes plane [i] alone, uploads one texel
    at column [i mod width], row [i / width], and so replaces texel [i] of
    the texture by the plane's data and leaves every other texel as it
    was. *)
Lemma partial_update_float (limits : ContextLimits) (frameState : FrameState)
    (heap : Heap) (this : ClippingPlaneCollection) (texture : Texture)
    (view : TypedArray) (w h : Z) (i : nat) (plane : PlaneRef) :
  floatingPointTexture (context frameState) = true ->
  _clippingPlanesTexture this = Some texture ->
  width texture = Number.ofZ w -> height texture = Number.ofZ h -> 0 < w ->
  length_ this <= w * h <= 4 * length_ this ->
  _float32View this = Some view -> (4 <= length view)%nat ->
  _containsUntrackablePlanes this = false ->
  dirtyState this = Single (Z.of_nat i) ->
  _planes this !! i = Some plane ->
  let o := update limits frameState heap this in
  completion o = Normal
  /\ gpuCalls o
     = [TextureCopyFrom (Number.ofZ 1) (Number.ofZ 1)
          (Some (Number.ofZ (Z.of_nat i mod w), Number.ofZ (Z.of_nat i / w)))]
  /\ _float32View (state o)
     = Some (<[3%nat := toFloat32 (distance (heap plane))]>
              (<[2%nat := toFloat32 (Cartesian3.z (normal (heap plane)))]>
                (<[1%nat := toFloat32 (Cartesian3.y (normal (heap plane)))]>
                  (<[0%nat := toFloat32 (Cartesian3.x (normal (heap plane)))]> view))))
  /\ _clippingPlanesTexture (state o)
     = Some (mkTexture (width texture) (height texture) (pixelDatatype texture)
               (<[i := floatTexel (heap plane)]> (texels texture)))
  /\ dirtyState (state o) = Clean.
Proof.
  intros Hhost Htex Hw Hh Hwpos Hfit Hview Hlen Hflag Hdirty Hplane o.
  assert (Hi : Z.of_nat i < length_ this).
  { unfold length_. apply lookup_lt_Some in Hplane. lia. }
  assert (Hhpos : 0 < h) by nia.
  assert (Hm : _multipleDirtyPlanes this = false /\ _dirtyIndex this = Z.of_nat i).
  { unfold dirtyState in Hdirty. destruct (_multipleDirtyPlanes this); [discriminate|].
    destruct (_dirtyIndex this =? -1); [discriminate|]. by injection Hdirty. }
  destruct Hm as [Hm Hd].
  assert (Hkeep : update_keep this (Number.ofZ (pixelsNeededFor true this)) = (Some texture, [])).
  { rewrite (update_keep_finite this texture w h _ Htex Hw Hh). unfold pixelsNeededFor.
    destruct (Z.ltb_spec (w * h) (length_ this)); [lia|].
    destruct (Z.ltb_spec (4 * length_ this) (w * h)); [lia|]. reflexivity. }
  rewrite <- Hhost in Hkeep.
  subst o. rewrite (update_keeps limits frameState heap this texture [] Hkeep), Hhost.
  rewrite update_refresh_partial by (try assumption; lia).
  rewrite Hd, Hw. unfold encode, viewOf.
  replace (Z.to_nat (Z.of_nat i + 1 - Z.of_nat i)) with 1%nat by lia.
  cbn [packPlanesAsFloats_loop]. unfold element.
  destruct (Z.ltb_spec (Z.of_nat i) 0); [lia|]. rewrite Nat2Z.id, Hplane, Hview.
  cbn [Nat.add]. rewrite floor_div_ofZ by exact Hwpos. rewrite mul_ofZ, floor_sub_ofZ.
  replace (Z.of_nat i - Z.of_nat i / w * w) with (Z.of_nat i mod w)
    by (rewrite Z.mod_eq by lia; lia).
  cbn [completion gpuCalls state app].
  split; [reflexivity|]. split; [reflexivity|]. split; [reflexivity|].
  split; [|reflexivity].
  cbn [refreshed with_dirtyIndex with_multipleDirtyPlanes with_clippingPlanesTexture
       _clippingPlanesTexture]. f_equal.
  unfold copyFrom. cbn [from_option id]. unfold Texture_copyFrom.
  rewrite Hw, Hh, !to_index_ofZ.
  pose proof (Z.mod_pos_bound (Z.of_nat i) w Hwpos) as Hmod.
  pose proof (Z.div_pos (Z.of_nat i) w ltac:(lia) Hwpos) as Hdivpos.
  assert (Hdivlt : Z.of_nat i / w < h).
  { apply Z.div_lt_upper_bound; [exact Hwpos|]. lia. }
  destruct (Z.leb_spec 0 w); [|lia]. destruct (Z.leb_spec 0 h); [|lia].
  destruct (Z.leb_spec 0 1); [|lia].
  destruct (Z.leb_spec 0 (Z.of_nat i mod w)); [|lia].
  destruct (Z.leb_spec 0 (Z.of_nat i / w)); [|lia].
  rewrite !length_insert.
  assert (Hbounds :
    (Z.to_nat (Z.of_nat i mod w) + Z.to_nat 1 <=? Z.to_nat w)%nat
    && (Z.to_nat (Z.of_nat i / w) + Z.to_nat 1 <=? Z.to_nat h)%nat
    && (4 * Z.to_nat 1 * Z.to_nat 1 <=? length view)%nat = true).
  { rewrite !andb_true_iff. repeat split; apply Nat.leb_le.
    - lia.
    - lia.
    - change (Z.to_nat 1) with 1%nat. lia. }
  rewrite Hbounds. change (Z.to_nat 1) with 1%nat.
  f_equal. unfold blit. cbn [seq foldl].
  rewrite pixelAt_insert4 by exact Hlen.
  replace ((Z.to_nat (Z.of_nat i / w) + 0) * Z.to_nat w + Z.to_nat (Z.of_nat i mod w) + 0)%nat
    with i; [reflexivity|].
  pose proof (Z.div_mod (Z.of_nat i) w ltac:(lia)) as Hdm. nia.
Qed.

End PartialRefreshFloat.

(** ** The layout a full refresh writes *)

Section Layout.
Context `{Collaborators}.

(** Reading an element of a view after a run of element writes. *)
Ltac read_writes :=
  rewrite ?list_lookup_insert, ?length_insert;
  repeat (destruct (decide _) as [[? ?]|?]; try lia);
  try reflexivity.

(** The float packer, started at plane [i] and float [4 * c], leaves the
    floats before its start as they were and writes each plane it visits to
    the next pixel. *)
Lemma packPlanesAsFloats_loop_layout (heap : Heap) (planes : list PlaneRef) (count : nat) :
  forall (i c : nat) (view view' : TypedArray),
    packPlanesAsFloats_loop heap planes count (Z.of_nat i) (4 * c)%nat (Some view)
    = inr (Some view') ->
    length view' = length view
    /\ (forall p, (p < 4 * c)%nat -> view' !! p = view !! p)
    /\ (forall m plane, (m < count)%nat -> planes !! (i + m)%nat = Some plane ->
          (4 * (c + m) + 4 <= length view)%nat ->
          pixelAt view' (c + m) = floatTexel (heap plane)).
Proof.
  induction count as [|count IH]; intros i c view view'; cbn [packPlanesAsFloats_loop].
  - intros [= <-]. split; [reflexivity|]. split; [reflexivity|]. intros; lia.
  - unfold element. destruct (Z.ltb_spec (Z.of_nat i) 0); [lia|]. rewrite Nat2Z.id.
    destruct (planes !! i) as [plane0|] eqn:Hplane0; [|discriminate].
    replace (Z.of_nat i + 1) with (Z.of_nat (S i)) by lia.
    replace (4 * c + 4)%nat with (4 * S c)%nat by lia.
    intros Hloop. apply IH in Hloop as (Hlength & Hbefore & Hplanes).
    rewrite !length_insert in Hlength. split; [exact Hlength|]. split.
    + intros p Hp. rewrite Hbefore by lia. read_writes.
    + intros m plane Hm Hplane Hfits. destruct m as [|m].
      * rewrite Nat.add_0_r in Hplane, Hfits |- *.
        assert (plane = plane0) as -> by congruence.
        unfold pixelAt, floatTexel. rewrite !Hbefore by lia.
        f_equal; read_writes.
      * replace (c + S m)%nat with (S c + m)%nat in * by lia.
        apply Hplanes; [lia| |rewrite !length_insert; lia].
        by replace (S i + m)%nat with (i + S m)%nat by lia.
Qed.

(** The quantized packer, started at plane [i] and byte [8 * c], leaves the
    bytes before its start as they were and writes each plane it visits to
    the next two pixels: the normal, then the distance. *)
Lemma packPlanesAsUint8_loop_layout (heap : Heap) (planes : list PlaneRef) (count : nat) :
  forall (i c : nat) (view view' : TypedArray),
    packPlanesAsUint8_loop heap planes count (Z.of_nat i) (8 * c)%nat (Some view)
    = inr (Some view') ->
    length view' = length view
    /\ (forall p, (p < 8 * c)%nat -> view' !! p = view !! p)
    /\ (forall m plane, (m < count)%nat -> planes !! (i + m)%nat = Some plane ->
          (8 * (c + m) + 8 <= length view)%nat ->
          pixelAt view' (2 * (c + m)) = normalTexel (heap plane)
          /\ pixelAt view' (2 * (c + m) + 1) = distanceTexel (heap plane)).
Proof.
  induction count as [|count IH]; intros i c view view'; cbn [packPlanesAsUint8_loop].
  - intros [= <-]. split; [reflexivity|]. split; [reflexivity|]. intros; lia.
  - unfold element. destruct (Z.ltb_spec (Z.of_nat i) 0); [lia|]. rewrite Nat2Z.id.
    destruct (planes !! i) as [plane0|] eqn:Hplane0; [|discriminate].
    replace (Z.of_nat i + 1) with (Z.of_nat (S i)) by lia.
    replace (8 * c + 8)%nat with (8 * S c)%nat by lia.
    intros Hloop. apply IH in Hloop as (Hlength & Hbefore & Hplanes).
    rewrite !length_insert in Hlength. split; [exact Hlength|]. split.
    + intros p Hp. rewrite Hbefore by lia. read_writes.
    + intros m plane Hm Hplane Hfits. destruct m as [|m].
      * rewrite Nat.add_0_r in Hplane, Hfits |- *.
        assert (plane = plane0) as -> by congruence.
        unfold pixelAt, normalTexel, distanceTexel. rewrite !Hbefore by lia.
        split; f_equal; read_writes.
      * replace (c + S m)%nat with (S c + m)%nat in * by lia.
        apply Hplanes; [lia| |rewrite !length_insert; lia].
        by replace (S i + m)%nat with (i + S m)%nat by lia.
Qed.

(** After a full refresh, plane [i] occupies the texels of [planeTexels]:
    pixel [i] of the float view, pixels [2 i] and [2 i + 1] of the quantized
    view. *)
Lemma full_encode_layout (heap : Heap) (planes : list PlaneRef)
    (view view' : TypedArray) (i : nat) (plane : PlaneRef) :
  planes !! i = Some plane ->
  (encode true heap planes 0 (Z.of_nat (length planes)) (Some view) = inr (Some view') ->
   (4 * i + 4 <= length view)%nat ->
   pixelAt view' <$> planeTexels true i = [floatTexel (heap plane)])
  /\ (encode false heap planes 0 (Z.of_nat (length planes)) (Some view) = inr (Some view') ->
      (8 * i + 8 <= length view)%nat ->
      pixelAt view' <$> planeTexels false i
      = [normalTexel (heap plane); distanceTexel (heap plane)]).
Proof.
  intros Hplane. pose proof (lookup_lt_Some _ _ _ Hplane) as Hi.
  unfold encode. rewrite Z.sub_0_r, Nat2Z.id. split; intros Hencode Hfits.
  - apply (packPlanesAsFloats_loop_layout heap planes (length planes) 0 0) in Hencode
      as (_ & _ & Hplanes).
    cbn [planeTexels fmap list_fmap]. f_equal. by apply (Hplanes i plane).
  - apply (packPlanesAsUint8_loop_layout heap planes (length planes) 0 0) in Hencode
      as (_ & _ & Hplanes).
    cbn [planeTexels fmap list_fmap].
    destruct (Hplanes i plane Hi Hplane Hfits) as [Hnormal Hdistance].
    cbn [Nat.add] in Hnormal, Hdistance. by rewrite Hnormal, Hdistance.
Qed.

End Layout.

Section PartialRefreshQuantized.
Context `{Collaborators}.

(** In the quantized layout the partial refresh uploads a region two texels
    wide at column [i mod width], row [i / width]: the plane's index decides
    the offset, although plane [i] lives at pixel [2 i]. *)
Lemma partial_update_quantized (limits : ContextLimits) (frameState : FrameState)
    (heap : Heap) (this : ClippingPlaneCollection) (texture : Texture)
    (view : TypedArray) (w h : Z) (i : nat) (plane : PlaneRef) :
  floatingPointTexture (context frameState) = false ->
  _clippingPlanesTexture this = Some texture ->
  width texture = Number.ofZ w -> height texture = Number.ofZ h -> 0 < w ->
  length_ this * 2 <= w * h <= 4 * (length_ this * 2) ->
  _uint8View this = Some view ->
  _containsUntrackablePlanes this = false ->
  dirtyState this = Single (Z.of_nat i) ->
  _planes this !! i = Some plane ->
  let o := update limits frameState heap this in
  completion o = Normal
  /\ gpuCalls o
     = [TextureCopyFrom (Number.ofZ 2) (Number.ofZ 1)
          (Some (Number.ofZ (Z.of_nat i mod w), Number.ofZ (Z.of_nat i / w)))]
  /\ dirtyState (state o) = Clean.
Proof.
  intros Hhost Htex Hw Hh Hwpos Hfit Hview Hflag Hdirty Hplane o.
  assert (Hm : _multipleDirtyPlanes this = false /\ _dirtyIndex this = Z.of_nat i).
  { unfold dirtyState in Hdirty. destruct (_multipleDirtyPlanes this); [discriminate|].
    destruct (_dirtyIndex this =? -1); [discriminate|]. by injection Hdirty. }
  destruct Hm as [Hm Hd].
  assert (Hkeep : update_keep this (Number.ofZ (pixelsNeededFor false this))
                  = (Some texture, [])).
  { rewrite (update_keep_finite this texture w h _ Htex Hw Hh). unfold pixelsNeededFor.
    destruct (Z.ltb_spec (w * h) (length_ this * 2)); [lia|].
    destruct (Z.ltb_spec (4 * (length_ this * 2)) (w * h)); [lia|]. reflexivity. }
  rewrite <- Hhost in Hkeep.
  subst o. rewrite (update_keeps limits frameState heap this texture [] Hkeep), Hhost.
  rewrite update_refresh_partial by (try assumption; lia).
  rewrite Hd, Hw. unfold encode, viewOf.
  replace (Z.to_nat (Z.of_nat i + 1 - Z.of_nat i)) with 1%nat by lia.
  cbn [packPlanesAsUint8_loop]. unfold element.
  destruct (Z.ltb_spec (Z.of_nat i) 0); [lia|]. rewrite Nat2Z.id, Hplane, Hview.
  rewrite floor_div_ofZ by exact Hwpos. rewrite mul_ofZ, floor_sub_ofZ.
  replace (Z.of_nat i - Z.of_nat i / w * w) with (Z.of_nat i mod w)
    by (rewrite Z.mod_eq by lia; lia).
  cbn [completion gpuCalls state app]. repeat split.
Qed.

End PartialRefreshQuantized.

(** * Further properties of the plane set *)

(** X1: [contains] answers true exactly when some member of the sequence is
    value-equal to the plane, whatever the tracking status of either. *)
Theorem contains_iff (w : World) (clippingPlane : PlaneRef) :
  contains w clippingPlane = true
  <-> exists k member,
        _planes (collection w) !! k = Some member
        /\ Plane_equals (heap w member) (heap w clippingPlane) = true.
Proof.
  unfold contains, indexOf. rewrite negb_true_iff, Z.eqb_neq.
  destruct (indexOf_from_spec (heap w) (_planes (collection w)) clippingPlane 0)
    as [Hnone Hsome].
  split.
  - intros Hfound. destruct (Hsome (Z.le_refl 0) Hfound) as (k & member & _ & Hk & Heq & _).
    eauto.
  - intros (k & member & Hk & Heq) Hnot.
    rewrite (Hnone (conj Hnot (Z.le_refl 0)) member) in Heq; [discriminate|].
    eapply list_elem_of_lookup_2, Hk.
Qed.

(** X2: [indexOf] answers -1 when no plane of the array is value-equal to the
    plane, and otherwise the position of the first one that is; the answer is
    never past the end of the array. *)
Theorem indexOf_first_match (heap : Heap) (planes : list PlaneRef) (plane : PlaneRef) :
  -1 <= indexOf heap planes plane < Z.of_nat (length planes)
  /\ ((indexOf heap planes plane = -1
       /\ forall k member, planes !! k = Some member ->
            Plane_equals (heap member) (heap plane) = false)
      \/ exists k member,
           indexOf heap planes plane = Z.of_nat k
           /\ planes !! k = Some member
           /\ Plane_equals (heap member) (heap plane) = true
           /\ forall j earlier, (j < k)%nat -> planes !! j = Some earlier ->
                Plane_equals (heap earlier) (heap plane) = false).
Proof.
  unfold indexOf.
  destruct (indexOf_from_spec heap planes plane 0) as [Hnone Hsome].
  destruct (Z.eq_dec (indexOf_from heap planes plane 0) (-1)) as [Hnot|Hfound].
  - split; [lia|]. left. split; [exact Hnot|]. intros k member Hk.
    apply (Hnone (conj Hnot (Z.le_refl 0))). eapply list_elem_of_lookup_2, Hk.
  - destruct (Hsome (Z.le_refl 0) Hfound) as (k & member & Hindex & Hk & Heq & Hfirst).
    pose proof (lookup_lt_Some _ _ _ Hk). split; [lia|]. right.
    exists k, member. repeat split; [lia|assumption..].
Qed.

(** X3: [remove] answers what [contains] answers.  When the answer is false
    nothing changes; when it is true exactly one plane, the first value-equal
    member, leaves the sequence, the others keep their order, and the tracker
    is left at multiple. *)
Theorem remove_answers_contains (w : World) (clippingPlane : PlaneRef) :
  snd (remove w clippingPlane) = contains w clippingPlane
  /\ (contains w clippingPlane = false -> fst (remove w clippingPlane) = w)
  /\ (contains w clippingPlane = true ->
      exists k,
        indexOf (heap w) (_planes (collection w)) clippingPlane = Z.of_nat k
        /\ _planes (collection (fst (remove w clippingPlane)))
           = delete k (_planes (collection w))
        /\ S (length (_planes (collection (fst (remove w clippingPlane)))))
           = length (_planes (collection w))
        /\ dirtyState (collection (fst (remove w clippingPlane))) = Multiple).
Proof.
  destruct (indexOf_first_match (heap w) (_planes (collection w)) clippingPlane)
    as [Hrange [[Hnot Hnone]|(k & member & Hindex & Hk & Heq & _)]].
  - assert (Hremove : remove w clippingPlane = (w, false)).
    { apply remove_not_found. intros p Hp. apply list_elem_of_lookup_1 in Hp as [j Hj].
      by apply (Hnone j). }
    assert (Hcontains : contains w clippingPlane = false).
    { unfold contains. rewrite Hnot. reflexivity. }
    rewrite Hremove, Hcontains. split; [reflexivity|]. split; [reflexivity|discriminate].
  - destruct (remove_found w clippingPlane k Hindex) as (Htrue & Hplanes & Hdirty).
    assert (Hcontains : contains w clippingPlane = true).
    { unfold contains. rewrite Hindex. destruct (Z.eqb_spec (Z.of_nat k) (-1)); [lia|done]. }
    rewrite Htrue, Hcontains. split; [reflexivity|]. split; [discriminate|].
    intros _. exists k. split; [exact Hindex|]. split; [exact Hplanes|]. split; [|exact Hdirty].
    rewrite Hplanes, length_delete by eauto.
    apply lookup_lt_Some in Hk. lia.
Qed.

(** X4: two collections report the same [clippingPlanesState] exactly when
    they hold the same number of planes and either agree on the mode or are
    both empty.  The magnitude of the state is the number of planes: the
    state of an empty collection is 0 in both modes, and that of a non-empty
    one is positive exactly in union mode. *)
Theorem clippingPlanesState_eq (a b : ClippingPlaneCollection) :
  (clippingPlanesState a = clippingPlanesState b
   <-> length_ a = length_ b
       /\ (length_ a = 0 \/ _unionClippingRegions a = _unionClippingRegions b))
  /\ Z.abs (clippingPlanesState a) = length_ a
  /\ (length_ a = 0 -> clippingPlanesState a = 0)
  /\ (0 < length_ a -> (0 < clippingPlanesState a <-> _unionClippingRegions a = true)).
Proof.
  unfold clippingPlanesState, length_.
  split; [|split; [|split]].
  - destruct (_unionClippingRegions a), (_unionClippingRegions b); split.
    all: try (intros [? [?|?]]; (lia || discriminate)).
    all: intros ?; split; [lia|]; (by right) || (left; lia).
  - destruct (_unionClippingRegions a); lia.
  - destruct (_unionClippingRegions a); lia.
  - intros Hpos. destruct (_unionClippingRegions a); split; (lia || done).
Qed.

(** The plane object a detached ClippingPlane is: no callback, index -1. *)
Lemma detach_idempotent (p : PlaneObject) :
  set_index (set_onChangeCallback (set_index (set_onChangeCallback p None) (-1)) None) (-1)
  = set_index (set_onChangeCallback p None) (-1).
Proof. by destruct p. Qed.

Lemma removeAll_heap (planes : list PlaneRef) :
  forall (heap : Heap) (r : PlaneRef),
    foldl (fun (heap : Heap) plane =>
             if instanceofClippingPlane (heap plane) then
               let o := set_onChangeCallback (heap plane) None in
               <[plane := set_index o (-1)]> heap
             else heap) heap planes r
    = if bool_decide (r ∈ planes) && instanceofClippingPlane (heap r)
      then set_index (set_onChangeCallback (heap r) None) (-1)
      else heap r.
Proof.
  induction planes as [|plane planes IH]; intros heap r; cbn [foldl].
  - reflexivity.
  - rewrite IH. clear IH.
    destruct (decide (r = plane)) as [->|Hne].
    + rewrite (bool_decide_eq_true_2 (plane ∈ plane :: planes)) by apply list_elem_of_here.
      destruct (instanceofClippingPlane (heap plane)) eqn:Htracked; cbn [andb].
      * rewrite fn_lookup_insert. destruct (heap plane); [|discriminate].
        cbn. by destruct (bool_decide _).
      * rewrite Htracked. by rewrite andb_false_r.
    + assert (Hsame : forall h : Heap,
                (if instanceofClippingPlane (h plane)
                 then <[plane := set_index (set_onChangeCallback (h plane) None) (-1)]> h
                 else h) r = h r).
      { intros h. destruct (instanceofClippingPlane _); [|reflexivity].
        by rewrite fn_lookup_insert_ne. }
      rewrite Hsame.
      assert (Hmember : bool_decide (r ∈ plane :: planes) = bool_decide (r ∈ planes)).
      { apply bool_decide_ext. rewrite elem_of_cons. split; [intros [?|?]; [contradiction|assumption]|auto]. }
      by rewrite Hmember.
Qed.

(** X5: [removeAll] empties the sequence and leaves the tracker at multiple.
    Every ClippingPlane that was a member is unlinked (no callback, index -1)
    with its normal and distance untouched; bare Planes and plane objects
    that were not members are left exactly as they were. *)
Theorem removeAll_unlinks (w : World) :
  _planes (collection (removeAll w)) = []
  /\ dirtyState (collection (removeAll w)) = Multiple
  /\ (forall r,
        heap (removeAll w) r
        = if bool_decide (r ∈ _planes (collection w)) && instanceofClippingPlane (heap w r)
          then set_index (set_onChangeCallback (heap w r) None) (-1)
          else heap w r)
  /\ (forall r, normal (heap (removeAll w) r) = normal (heap w r)
                /\ distance (heap (removeAll w) r) = distance (heap w r)).
Proof.
  assert (Hheap : forall r,
            heap (removeAll w) r
            = if bool_decide (r ∈ _planes (collection w)) && instanceofClippingPlane (heap w r)
              then set_index (set_onChangeCallback (heap w r) None) (-1)
              else heap w r).
  { intros r. unfold removeAll. cbn [heap]. apply removeAll_heap. }
  split; [reflexivity|]. split; [reflexivity|]. split; [exact Hheap|].
  intros r. rewrite Hheap. destruct (_ && _); [|done]. by destruct (heap w r).
Qed.

(** Adding a plane changes no other plane object and never the kind of one. *)
Lemma add_heap (w : World) (plane r : PlaneRef) :
  heap (add w plane) r
  = if decide (r = plane) then
      (if instanceofClippingPlane (heap w plane)
       then set_index (set_onChangeCallback (heap w plane) (Some SetIndexDirtyCallback))
                      (length_ (collection w))
       else heap w plane)
    else heap w r.
Proof.
  unfold add. destruct (instanceofClippingPlane (heap w plane)) eqn:Htracked; cbn [heap].
  - destruct (decide (r = plane)) as [->|Hne];
      [by rewrite fn_lookup_insert|by rewrite fn_lookup_insert_ne].
  - by destruct (decide (r = plane)) as [->|Hne].
Qed.

Lemma add_planes (w : World) (plane : PlaneRef) :
  _planes (collection (add w plane)) = _planes (collection w) ++ [plane].
Proof. unfold add. by destruct (instanceofClippingPlane _). Qed.

(** X6: [add] appends.  The new plane is read back by [get] at the old
    length and every earlier position reads as before; a ClippingPlane is
    numbered with the old length and linked to the collection, with its
    normal and distance untouched; no other plane object changes.  A clean
    tracker becomes single at the new index, a tracker that names another
    index or is at multiple ends at multiple. *)
Theorem add_appends (w : World) (plane : PlaneRef) :
  let n := length_ (collection w) in
  _planes (collection (add w plane)) = _planes (collection w) ++ [plane]
  /\ get (add w plane) (VNumber (Number.ofZ n)) = inr (Some plane)
  /\ (forall i, i < n ->
        get (add w plane) (VNumber (Number.ofZ i)) = get w (VNumber (Number.ofZ i)))
  /\ (instanceofClippingPlane (heap w plane) = true ->
      heap (add w plane) plane
      = ClippingPlane (normal (heap w plane)) (distance (heap w plane)) n
                      (Some SetIndexDirtyCallback))
  /\ (instanceofClippingPlane (heap w plane) = false ->
      heap (add w plane) plane = heap w plane
      /\ _containsUntrackablePlanes (collection (add w plane)) = true)
  /\ (forall r, r <> plane -> heap (add w plane) r = heap w r)
  /\ (dirtyState (collection w) = Clean ->
      dirtyState (collection (add w plane)) = Single n)
  /\ (dirtyState (collection w) <> Clean -> _dirtyIndex (collection w) <> n ->
      dirtyState (collection (add w plane)) = Multiple).
Proof.
  intros n. pose proof (add_planes w plane) as Hplanes.
  split; [exact Hplanes|]. split; [|split; [|split; [|split; [|split; [|split]]]]].
  - unfold n, length_. rewrite <- (get_valid_index (add w plane) (length (_planes (collection w))) plane);
      [reflexivity|].
    rewrite Hplanes. by rewrite lookup_app_r, Nat.sub_diag by lia.
  - intros i Hi. unfold get. rewrite !to_index_ofZ.
    destruct (Z.leb_spec 0 i); [|reflexivity].
    rewrite Hplanes, lookup_app_l; [reflexivity|]. unfold n, length_ in Hi. lia.
  - intros Htracked. rewrite add_heap. destruct (decide _); [|done].
    rewrite Htracked. by destruct (heap w plane).
  - intros Hbare. unfold add. by rewrite Hbare.
  - intros r Hne. rewrite add_heap. by destruct (decide _).
  - intros Hclean. apply dirtyState_clean in Hclean as [Hm Hd].
    unfold add. destruct (instanceofClippingPlane _); unfold dirtyState, setIndexDirty;
      cbn; rewrite Hm, Hd; cbn; fold n;
      (destruct (Z.eqb_spec n (-1)); [unfold n, length_ in *; lia|reflexivity]).
  - intros Hdirty Hother.
    assert (Hescalate : _multipleDirtyPlanes (collection w)
                        || negb (_dirtyIndex (collection w) =? -1)
                           && negb (_dirtyIndex (collection w) =? n) = true).
    { destruct (_multipleDirtyPlanes (collection w)) eqn:Hm; [done|]. cbn.
      destruct (Z.eqb_spec (_dirtyIndex (collection w)) (-1)) as [Hd|Hd].
      - exfalso. apply Hdirty. by apply dirtyState_clean.
      - destruct (Z.eqb_spec (_dirtyIndex (collection w)) n); [contradiction|done]. }
    unfold add. destruct (instanceofClippingPlane _); unfold dirtyState, setIndexDirty;
      cbn; fold n; by rewrite Hescalate.
Qed.

(** Adding planes one after the other, as the constructor does. *)
Lemma add_kind (w : World) (plane r : PlaneRef) :
  instanceofClippingPlane (heap (add w plane) r) = instanceofClippingPlane (heap w r).
Proof.
  rewrite add_heap. destruct (decide (r = plane)) as [->|]; [|reflexivity].
  destruct (heap w plane); reflexivity.
Qed.

Lemma add_fields (w : World) (plane : PlaneRef) :
  let this := collection w in
  let this' := collection (add w plane) in
  _enabled this' = _enabled this /\ modelMatrix this' = modelMatrix this
  /\ _unionClippingRegions this' = _unionClippingRegions this
  /\ _testIntersection this' = _testIntersection this
  /\ _uint8View this' = _uint8View this /\ _float32View this' = _float32View this
  /\ _clippingPlanesTexture this' = _clippingPlanesTexture this
  /\ _containsUntrackablePlanes this'
     = _containsUntrackablePlanes this || negb (instanceofClippingPlane (heap w plane)).
Proof.
  unfold add. destruct (instanceofClippingPlane _); cbn; rewrite ?orb_false_r, ?orb_true_r;
    repeat split.
Qed.

Lemma foldl_add (given : list PlaneRef) :
  forall w : World,
    let w' := foldl add w given in
    _planes (collection w') = _planes (collection w) ++ given
    /\ _containsUntrackablePlanes (collection w')
       = _containsUntrackablePlanes (collection w)
         || existsb (fun r => negb (instanceofClippingPlane (heap w r))) given
    /\ _uint8View (collection w') = _uint8View (collection w)
    /\ _float32View (collection w') = _float32View (collection w)
    /\ _clippingPlanesTexture (collection w') = _clippingPlanesTexture (collection w)
    /\ (_multipleDirtyPlanes (collection w) = true ->
        _multipleDirtyPlanes (collection w') = true).
Proof.
  induction given as [|plane given IH]; intros w; cbn [foldl existsb].
  - rewrite app_nil_r, orb_false_r. repeat split. auto.
  - destruct (IH (add w plane)) as (Hplanes & Hflag & Hu8 & Hf32 & Htex & Hmultiple).
    destruct (add_fields w plane) as (_ & _ & _ & _ & Hu8' & Hf32' & Htex' & Hflag').
    cbv zeta in *. rewrite Hplanes, Hflag, Hu8, Hf32, Htex, add_planes, <- app_assoc.
    rewrite Hflag', Hu8', Hf32', Htex', orb_assoc.
    split; [reflexivity|]. split; [|split; [reflexivity|split; [reflexivity|split; [reflexivity|]]]].
    + f_equal. clear. induction given as [|r given IH]; [reflexivity|].
      cbn [existsb]. by rewrite IH, add_kind.
    + intros Hm. apply Hmultiple. unfold add.
      destruct (instanceofClippingPlane _); unfold setIndexDirty; cbn; by rewrite Hm.
Qed.

(** X7: the constructor leaves the planes of its options in the sequence, in
    their order, with no texture and no typed array allocated; the
    untracked-plane flag is set exactly when one of the planes is not a
    ClippingPlane; and the tracker is clean for no plane, single at index 0
    for one plane and at multiple for more.  The other fields take the
    options or their defaults. *)
Theorem constructor_result (objects : Heap) (options : Options) :
  let this := collection (ClippingPlaneCollection_new objects options) in
  let given := default [] (planes options) in
  _planes this = given
  /\ _containsUntrackablePlanes this
     = existsb (fun r => negb (instanceofClippingPlane (objects r))) given
  /\ dirtyState this
     = match given with [] => Clean | [_] => Single 0 | _ :: _ :: _ => Multiple end
  /\ _clippingPlanesTexture this = None
  /\ _float32View this = None /\ _uint8View this = None
  /\ _enabled this = default true (enabled options)
  /\ _unionClippingRegions this = default false (unionClippingRegions options)
  /\ modelMatrix this = default Matrix4.IDENTITY (options_modelMatrix options).
Proof.
  intros this given. subst this. unfold ClippingPlaneCollection_new. fold given.
  set (this0 := mkCollection [] false (-1) false true Matrix4.IDENTITY false
                  defaultIntersectFunction None None None).
  destruct (foldl_add given (mkWorld objects this0))
    as (Hplanes & Hflag & Hu8 & Hf32 & Htex & Hmultiple).
  cbv zeta in *. cbn [collection heap _planes _containsUntrackablePlanes _uint8View
    _float32View _clippingPlanesTexture _multipleDirtyPlanes this0 app orb] in *.
  cbn [collection _planes _containsUntrackablePlanes _clippingPlanesTexture _float32View
       _uint8View _enabled _unionClippingRegions modelMatrix with_testIntersection
       with_unionClippingRegions with_modelMatrix with_enabled Matrix4.clone].
  split; [exact Hplanes|]. split; [exact Hflag|].
  split; [|by repeat split].
  unfold dirtyState. cbn [_multipleDirtyPlanes _dirtyIndex with_testIntersection
    with_unionClippingRegions with_modelMatrix with_enabled].
  destruct given as [|first [|second rest]].
  - reflexivity.
  - cbn [foldl]. unfold add. by destruct (instanceofClippingPlane _).
  - cbn [foldl].
    destruct (foldl_add rest (add (add (mkWorld objects this0) first) second))
      as (_ & _ & _ & _ & _ & Hstays).
    cbv zeta in Hstays. rewrite Hstays; [reflexivity|].
    unfold add. cbn. by destruct (instanceofClippingPlane _), (instanceofClippingPlane _).
Qed.

(** * Planes stay linked under careful use *)

Lemma indexOf_range (heap : Heap) (planes : list PlaneRef) (plane : PlaneRef) :
  indexOf heap planes plane = -1
  \/ exists k, indexOf heap planes plane = Z.of_nat k /\ (k < length planes)%nat.
Proof.
  unfold indexOf.
  assert (Hgen : forall rest i, 0 <= i ->
            indexOf_from heap rest plane i = -1
            \/ exists k, indexOf_from heap rest plane i = i + Z.of_nat k
                         /\ (k < length rest)%nat).
  { induction rest as [|p rest IH]; intros i Hi; cbn [indexOf_from]; [by left|].
    destruct (Plane_equals _ _).
    - right. exists 0%nat. cbn [length]. split; lia.
    - destruct (IH (i + 1) ltac:(lia)) as [->|(k & -> & Hk)]; [by left|].
      right. exists (S k). cbn [length]. split; lia. }
  destruct (Hgen planes 0 (Z.le_refl 0)) as [?|(k & Hk & ?)]; [by left|].
  right. exists k. split; [rewrite Hk; lia|assumption].
Qed.

Lemma linked_add (w : World) (plane : PlaneRef) :
  plane ∉ _planes (collection w) -> linked w -> linked (add w plane).
Proof.
  intros Hfresh (Hnodup & Hmembers & Hothers). unfold linked.
  rewrite add_planes. split; [|split].
  - apply list.NoDup_app. split; [exact Hnodup|]. split; [|apply NoDup_singleton].
    intros r Hr Hr'. apply list_elem_of_singleton in Hr'. by subst.
  - intros k r Hk. rewrite add_heap.
    destruct (decide (r = plane)) as [->|Hne].
    + assert (k = length (_planes (collection w))) as ->.
      { destruct (decide (k < length (_planes (collection w)))%nat) as [Hlt|Hge].
        - rewrite lookup_app_l in Hk by exact Hlt.
          apply list_elem_of_lookup_2 in Hk. contradiction.
        - apply lookup_lt_Some in Hk. rewrite length_app in Hk. cbn in Hk. lia. }
      destruct (heap w plane) eqn:E; cbn; [|discriminate]. by unfold length_.
    + intros Htracked. apply Hmembers; [|exact Htracked].
      destruct (decide (k < length (_planes (collection w)))%nat) as [Hlt|Hge].
      * by rewrite lookup_app_l in Hk.
      * rewrite lookup_app_r in Hk by lia.
        destruct (k - length (_planes (collection w)))%nat; cbn in Hk; [|done].
        congruence.
  - intros r. rewrite add_heap. destruct (decide (r = plane)) as [->|Hne].
    + intros _. apply elem_of_app. right. apply list_elem_of_here.
    + intros Hcb. apply elem_of_app. left. by apply Hothers.
Qed.

Lemma linked_remove (w : World) (clippingPlane : PlaneRef) :
  careful w (OpRemove clippingPlane) -> linked w -> linked (fst (remove w clippingPlane)).
Proof.
  intros Hcareful (Hnodup & Hmembers & Hothers). cbn [careful] in Hcareful.
  cbv zeta in Hcareful.
  destruct (indexOf_range (heap w) (_planes (collection w)) clippingPlane)
    as [Hnone|(k & Hk & Hlt)].
  { unfold remove. rewrite Hnone. cbn [fst Z.eqb Z.opp Pos.eqb].
    split; [exact Hnodup|]. split; [exact Hmembers|exact Hothers]. }
  assert (Hat : _planes (collection w) !! k = Some clippingPlane).
  { destruct Hcareful as [Hnone|Hat]; [lia|]. rewrite Hk in Hat. unfold element in Hat.
    destruct (Z.ltb_spec (Z.of_nat k) 0); [lia|]. by rewrite Nat2Z.id in Hat. }
  destruct (remove_found w clippingPlane k Hk) as (_ & Hplanes & _).
  destruct (remove_member w clippingPlane k Hnodup Hat Hk) as (Hgone & Hlater & Hrest).
  cbv zeta in *. unfold linked. rewrite Hplanes.
  pose proof (proj1 (NoDup_alt _) Hnodup) as Hinj.
  split; [|split].
  - eapply sublist_NoDup; [exact Hnodup|apply sublist_delete].
  - intros j r Hj.
    destruct (decide (j < k)%nat) as [Hbefore|Hafter].
    + rewrite list_lookup_delete_lt in Hj by exact Hbefore.
      rewrite Hrest.
      * by apply Hmembers.
      * intros ->. pose proof (Hinj _ _ _ Hj Hat). lia.
      * intros j' Hj' Hj''. pose proof (Hinj _ _ _ Hj Hj''). lia.
    + rewrite list_lookup_delete_ge in Hj by lia.
      rewrite (Hlater (S j) r ltac:(lia) Hj).
      destruct (instanceofClippingPlane (heap w r)) eqn:Etracked; [|by rewrite Etracked].
      intros _. destruct (Hmembers _ _ Hj Etracked) as [_ Hcb].
      destruct (heap w r); [|discriminate]. cbn in *.
      split; [f_equal; lia|exact Hcb].
  - intros r Hcb.
    destruct (decide (r = clippingPlane)) as [->|Hne].
    { rewrite Hgone in Hcb. exfalso. apply Hcb.
      destruct (heap w clippingPlane); reflexivity. }
    assert (Hin : r ∈ _planes (collection w)).
    { destruct (decide (r ∈ _planes (collection w))) as [?|Hout]; [assumption|].
      apply Hothers. rewrite Hrest in Hcb; [exact Hcb|exact Hne|].
      intros j _ Hj. apply Hout. by apply list_elem_of_lookup_2 in Hj. }
    apply list_elem_of_lookup_1 in Hin as [j Hj].
    apply list_elem_of_lookup. 
    destruct (decide (j < k)%nat) as [Hbefore|Hafter].
    + exists j. by rewrite list_lookup_delete_lt.
    + assert (j <> k) by (intros ->; congruence).
      exists (j - 1)%nat. rewrite list_lookup_delete_ge by lia.
      by replace (S (j - 1)) with j by lia.
Qed.

Lemma linked_removeAll (w : World) : linked w -> linked (removeAll w).
Proof.
  intros (Hnodup & Hmembers & Hothers). unfold linked, removeAll.
  cbn [collection heap _planes with_planes].
  split; [apply NoDup_nil_2|]. split; [intros k r Hk; by rewrite lookup_nil in Hk|].
  intros r. rewrite removeAll_heap.
  destruct (bool_decide (r ∈ _planes (collection w))) eqn:Ein.
  - destruct (heap w r); cbn; congruence.
  - cbn [andb]. intros Hcb. apply Hothers in Hcb.
    apply bool_decide_eq_false in Ein. contradiction.
Qed.

Lemma linked_setPlane (w : World) (plane : PlaneRef)
    (normal : Cartesian3.t) (distance : Number) :
  linked w -> linked (setPlane w plane normal distance).
Proof.
  intros (Hnodup & Hmembers & Hothers).
  assert (Hsame : forall r,
            let o := heap (setPlane w plane normal distance) r in
            instanceofClippingPlane o = instanceofClippingPlane (heap w r)
            /\ index o = index (heap w r)
            /\ onChangeCallback o = onChangeCallback (heap w r)).
  { intros r. unfold setPlane.
    destruct (heap w plane) as [n d i [[]|]|n d] eqn:E; cbn [heap];
      (destruct (decide (r = plane)) as [->|Hne];
       [rewrite fn_lookup_insert, E; by repeat split
       |rewrite fn_lookup_insert_ne by congruence; by repeat split]). }
  assert (Hplanes : _planes (collection (setPlane w plane normal distance))
                    = _planes (collection w)).
  { unfold setPlane. by destruct (heap w plane) as [n d i [[]|]|n d]. }
  unfold linked. rewrite Hplanes. split; [exact Hnodup|]. split.
  - intros k r Hk. destruct (Hsame r) as (-> & -> & ->). by apply Hmembers.
  - intros r. destruct (Hsame r) as (_ & _ & ->). apply Hothers.
Qed.

Lemma dirtyIndex_valid_setIndexDirty (this : ClippingPlaneCollection) (i : Z) :
  0 <= i < length_ this -> dirtyIndex_valid (setIndexDirty this i).
Proof. intros Hi. right. right. exact Hi. Qed.

Lemma dirtyIndex_valid_setPlane (w : World) (plane : PlaneRef)
    (normal : Cartesian3.t) (distance : Number) :
  linked w -> dirtyIndex_valid (collection w) ->
  dirtyIndex_valid (collection (setPlane w plane normal distance)).
Proof.
  intros (Hnodup & Hmembers & Hothers) Hvalid. unfold setPlane.
  destruct (heap w plane) as [n d i [[]|]|n d] eqn:E; cbn [collection]; try exact Hvalid.
  apply dirtyIndex_valid_setIndexDirty.
  assert (Hin : plane ∈ _planes (collection w)) by (apply Hothers; by rewrite E).
  apply list_elem_of_lookup_1 in Hin as [k Hk].
  destruct (Hmembers k plane Hk ltac:(by rewrite E)) as [Hindex _].
  rewrite E in Hindex. cbn in Hindex. apply lookup_lt_Some in Hk.
  unfold length_. injection Hindex as ->. lia.
Qed.

Section LinkedUpdate.
Context `{Collaborators}.

Lemma update_planes (limits : ContextLimits) (frameState : FrameState) (heap : Heap)
    (this : ClippingPlaneCollection) :
  _planes (state (update limits frameState heap this)) = _planes this.
Proof.
  set (useFloat := floatingPointTexture (context frameState)).
  destruct (update_keep_cases this (Number.ofZ (pixelsNeededFor useFloat this)))
    as [(texture & Htex & Hkeep)|(calls & Hkeep & _)].
  - rewrite (update_keeps limits frameState heap this texture [] Hkeep). fold useFloat.
    by destruct (update_refresh_keeps useFloat heap this texture [] Htex) as [-> _].
  - rewrite (update_allocation limits frameState heap this calls Hkeep).
    destruct (TypedArray_new _) as [e|view]; [reflexivity|].
    fold useFloat. set (fresh := Texture_new _ _ _).
    destruct (allocated_fields useFloat this view fresh) as (Hp & _ & Ht & _).
    destruct (update_refresh_keeps useFloat heap _ fresh
                (calls ++ [TextureNew (width fresh) (height fresh) (datatypeFor useFloat)]) Ht)
      as [-> _].
    exact Hp.
Qed.

Lemma dirtyIndex_valid_update (limits : ContextLimits) (frameState : FrameState)
    (heap : Heap) (this : ClippingPlaneCollection) :
  dirtyIndex_valid this ->
  dirtyIndex_valid (state (update limits frameState heap this)).
Proof.
  intros Hvalid. set (useFloat := floatingPointTexture (context frameState)).
  assert (Hrefresh : forall that texture calls,
            dirtyIndex_valid that ->
            dirtyIndex_valid (state (update_refresh useFloat heap that texture calls))).
  { intros that texture calls Hthat.
    destruct (completion (update_refresh useFloat heap that texture calls)) eqn:Ec.
    - apply update_refresh_clean in Ec. unfold dirtyState in Ec. right. left.
      destruct (_multipleDirtyPlanes _); [discriminate|].
      destruct (Z.eqb_spec (_dirtyIndex (state (update_refresh useFloat heap that texture calls)))
                  (-1)); [assumption|discriminate].
    - rewrite update_refresh_abrupt; [exact Hthat|by rewrite Ec]. }
  destruct (update_keep_cases this (Number.ofZ (pixelsNeededFor useFloat this)))
    as [(texture & Htex & Hkeep)|(calls & Hkeep & _)].
  - rewrite (update_keeps limits frameState heap this texture [] Hkeep). by apply Hrefresh.
  - rewrite (update_allocation limits frameState heap this calls Hkeep).
    destruct (TypedArray_new _) as [e|view]; [exact Hvalid|].
    apply Hrefresh. left.
    by destruct (allocated_fields useFloat this view
                   (Texture_new (plannedWidth limits (Number.ofZ (pixelsNeededFor useFloat this)))
                      (plannedHeight limits (Number.ofZ (pixelsNeededFor useFloat this)))
                      (datatypeFor useFloat))) as (_ & _ & _ & ? & _).
Qed.

Lemma linked_step (w : World) (op : Op) :
  careful w op -> linked w /\ dirtyIndex_valid (collection w) ->
  linked (step w op) /\ dirtyIndex_valid (collection (step w op)).
Proof.
  intros Hcareful [Hlinked Hvalid].
  destruct op as [plane|clippingPlane| |limits frameState|plane n d|value|value|value];
    cbn [step].
  - split; [by apply linked_add|].
    unfold add. destruct (instanceofClippingPlane _); cbn [collection];
      right; right; unfold length_; cbn; rewrite length_app; cbn; lia.
  - split; [by apply linked_remove|].
    destruct (indexOf_range (heap w) (_planes (collection w)) clippingPlane)
      as [Hnone|(k & Hk & _)].
    + unfold remove. rewrite Hnone. exact Hvalid.
    + destruct (remove_found w clippingPlane k Hk) as (_ & _ & Hdirty).
      left. unfold dirtyState in Hdirty.
      destruct (_multipleDirtyPlanes _); [reflexivity|].
      by destruct (_ =? _).
  - split; [by apply linked_removeAll|]. by left.
  - split; [|by apply dirtyIndex_valid_update].
    destruct Hlinked as (Hnodup & Hmembers & Hothers). unfold linked.
    cbn [collection heap]. by rewrite update_planes.
  - split; [by apply linked_setPlane|by apply dirtyIndex_valid_setPlane].
  - split.
    + unfold linked. cbn [collection heap]. unfold set_unionClippingRegions.
      by destruct (Bool.eqb _ _).
    + unfold set_unionClippingRegions. cbn [collection]. by destruct (Bool.eqb _ _).
  - split.
    + unfold linked. cbn [collection heap]. unfold set_enabled. by destruct (Bool.eqb _ _).
    + unfold set_enabled. cbn [collection]. by destruct (Bool.eqb _ _).
  - split; [exact Hlinked|exact Hvalid].
Qed.

Lemma linked_run (ops : list Op) :
  forall w : World,
    carefulRun w ops -> linked w /\ dirtyIndex_valid (collection w) ->
    linked (run w ops) /\ dirtyIndex_valid (collection (run w ops)).
Proof.
  induction ops as [|op ops IH]; intros w Hcareful Hinv; [exact Hinv|].
  destruct Hcareful as [Hop Hops]. cbn [run foldl]. apply IH; [exact Hops|].
  by apply linked_step.
Qed.

End LinkedUpdate.

Lemma linked_foldl_add (given : list PlaneRef) :
  forall w : World,
    NoDup (_planes (collection w) ++ given) ->
    linked w /\ dirtyIndex_valid (collection w) ->
    linked (foldl add w given) /\ dirtyIndex_valid (collection (foldl add w given)).
Proof.
  induction given as [|plane given IH]; intros w Hnodup Hinv; [exact Hinv|].
  cbn [foldl]. apply IH.
  - rewrite add_planes, <- app_assoc. exact Hnodup.
  - apply list.NoDup_app in Hnodup as (_ & Hfresh & _).
    destruct Hinv as [Hlinked _]. split.
    + apply linked_add; [|exact Hlinked]. intros Hin.
      apply (Hfresh _ Hin). apply list_elem_of_here.
    + unfold add. destruct (instanceofClippingPlane _); cbn [collection];
        right; right; unfold length_; cbn; rewrite length_app; cbn; lia.
Qed.

Lemma linked_new (objects : Heap) (options : Options) :
  NoDup (default [] (planes options)) ->
  (forall r, onChangeCallback (objects r) = None) ->
  let w := ClippingPlaneCollection_new objects options in
  linked w /\ dirtyIndex_valid (collection w).
Proof.
  intros Hnodup Hfree. cbv zeta. unfold ClippingPlaneCollection_new.
  set (this0 := mkCollection [] false (-1) false true Matrix4.IDENTITY false
                  defaultIntersectFunction None None None).
  destruct (linked_foldl_add (default [] (planes options)) (mkWorld objects this0))
    as [Hlinked Hvalid].
  - exact Hnodup.
  - split; [|by right; left]. split; [apply NoDup_nil_2|]. split.
    + intros k r Hk. cbn in Hk. by rewrite lookup_nil in Hk.
    + intros r Hcb. cbn in Hcb. by rewrite Hfree in Hcb.
  - split; [exact Hlinked|exact Hvalid].
Qed.

Lemma new_texture (objects : Heap) (options : Options) :
  _clippingPlanesTexture (collection (ClippingPlaneCollection_new objects options)) = None.
Proof.
  unfold ClippingPlaneCollection_new.
  set (this0 := mkCollection [] false (-1) false true Matrix4.IDENTITY false
                  defaultIntersectFunction None None None).
  by destruct (foldl_add (default [] (planes options)) (mkWorld objects this0))
    as (_ & _ & _ & _ & Htex & _).
Qed.

Section CarefulUse.
Context `{Collaborators}.

Lemma update_completes_valid (limits : ContextLimits) (frameState : FrameState)
    (heap : Heap) (this : ClippingPlaneCollection) :
  1 <= maximumTextureSize limits ->
  view_ready (floatingPointTexture (context frameState)) this ->
  dirtyIndex_valid this ->
  completion (update limits frameState heap this) = Normal.
Proof.
  intros Hmax Hready Hvalid. set (useFloat := floatingPointTexture (context frameState)) in *.
  assert (Hrefresh : forall that texture calls view,
            viewOf useFloat that = Some view -> dirtyIndex_valid that ->
            completion (update_refresh useFloat heap that texture calls) = Normal).
  { intros that texture calls view Hview Hd.
    destruct (_multipleDirtyPlanes that || _containsUntrackablePlanes that) eqn:Efull.
    - rewrite update_refresh_full by exact Efull. rewrite Hview.
      destruct (encode_range_ok useFloat heap (_planes that) 0 (length_ that) view
                  ltac:(unfold length_; lia) ltac:(unfold length_; lia)) as [view' ->].
      reflexivity.
    - apply orb_false_iff in Efull as [Hm Hu].
      destruct Hd as [Hd|Hd]; [congruence|].
      destruct (Z.eq_dec (_dirtyIndex that) (-1)) as [Hclean|Hpending].
      + by rewrite update_refresh_skip by assumption.
      + rewrite update_refresh_partial by assumption. rewrite Hview.
        destruct (encode_range_ok useFloat heap (_planes that) (_dirtyIndex that)
                    (_dirtyIndex that + 1) view ltac:(lia) ltac:(unfold length_ in Hd; lia))
          as [view' ->].
        reflexivity. }
  destruct (update_keep_cases this (Number.ofZ (pixelsNeededFor useFloat this)))
    as [(texture & Htex & Hkeep)|(calls & Hkeep & _)].
  - rewrite (update_keeps limits frameState heap this texture [] Hkeep). fold useFloat.
    destruct (Hready ltac:(rewrite Htex; eauto)) as [view Hview].
    by apply (Hrefresh this texture [] view).
  - destruct (update_allocates limits frameState heap this calls Hkeep Hmax) as [view ->].
    fold useFloat. set (fresh := Texture_new _ _ _).
    destruct (allocated_fields useFloat this view fresh) as (_ & Hv & _ & Hm & _).
    apply (Hrefresh _ fresh _ view Hv). by left.
Qed.

Lemma view_ready_run (useFloat : bool) (ops : list Op) :
  forall w : World,
    Forall (sameHost useFloat) ops ->
    view_ready useFloat (collection w) -> view_ready useFloat (collection (run w ops)).
Proof.
  induction ops as [|op ops IH]; intros w Hhost Hready; [exact Hready|].
  apply Forall_cons_1 in Hhost as [Hop Hops]. cbn [run foldl]. apply IH; [exact Hops|].
  by apply view_ready_step.
Qed.

(** X8: a collection that is constructed from distinct plane objects that
    notify nobody, and is then used by a caller that adds no plane object
    twice and removes only plane objects it has added, keeps its planes
    linked: no plane is a member twice, every ClippingPlane among the members
    carries its current position as [index] and the collection's callback,
    no plane outside the collection still notifies it, and the dirty index
    that counts is a position of the sequence. *)
Theorem careful_use_keeps_planes_linked (objects : Heap) (options : Options)
    (ops : list Op) :
  NoDup (default [] (planes options)) ->
  (forall r, onChangeCallback (objects r) = None) ->
  carefulRun (ClippingPlaneCollection_new objects options) ops ->
  let w := run (ClippingPlaneCollection_new objects options) ops in
  linked w /\ dirtyIndex_valid (collection w).
Proof.
  intros Hnodup Hfree Hcareful. cbv zeta.
  apply linked_run; [exact Hcareful|]. by apply linked_new.
Qed.

Lemma accepts_positive (limits : ContextLimits) (width' height' : Number)
    (datatype : PixelDatatype) :
  accepts limits (TextureNew width' height' datatype) = true ->
  Number.lt (Number.ofZ 0) width' = true /\ Number.lt (Number.ofZ 0) height' = true.
Proof.
  cbn [accepts]. rewrite !andb_true_iff. intros [[[? ?] ?] ?]. by split.
Qed.

Lemma texture_positive_update (limits : ContextLimits) (frameState : FrameState)
    (heap : Heap) (this : ClippingPlaneCollection) :
  texture_positive this ->
  forallb (accepts limits) (gpuCalls (update limits frameState heap this)) = true ->
  texture_positive (state (update limits frameState heap this)).
Proof.
  intros Hpositive. set (useFloat := floatingPointTexture (context frameState)).
  destruct (update_keep_cases this (Number.ofZ (pixelsNeededFor useFloat this)))
    as [(texture & Htex & Hkeep)|(calls & Hkeep & _)].
  - rewrite (update_keeps limits frameState heap this texture [] Hkeep). fold useFloat.
    intros _.
    destruct (update_refresh_keeps useFloat heap this texture [] Htex)
      as (_ & _ & texture' & Hstate & Hwidth & Hheight & _).
    intros kept Hkept. rewrite Hstate in Hkept. injection Hkept as <-.
    rewrite Hwidth, Hheight. by apply Hpositive.
  - rewrite (update_allocation limits frameState heap this calls Hkeep).
    fold useFloat. set (fresh := Texture_new _ _ _).
    destruct (TypedArray_new _) as [e|view]; [intros _; exact Hpositive|].
    destruct (allocated_fields useFloat this view fresh) as (_ & _ & Ht & _).
    destruct (update_refresh_calls useFloat heap (allocated useFloat this view fresh) fresh
                (calls ++ [TextureNew (width fresh) (height fresh) (datatypeFor useFloat)]))
      as (uploads & -> & _).
    rewrite !forallb_app, !andb_true_iff. cbn [forallb]. rewrite andb_true_r.
    intros [[_ Haccepted] _]. apply accepts_positive in Haccepted.
    destruct (update_refresh_keeps useFloat heap (allocated useFloat this view fresh) fresh
                (calls ++ [TextureNew (width fresh) (height fresh) (datatypeFor useFloat)]) Ht)
      as (_ & _ & texture' & Hstate & Hwidth & Hheight & _).
    intros kept Hkept. rewrite Hstate in Hkept. injection Hkept as <-.
    by rewrite Hwidth, Hheight.
Qed.

Lemma texture_positive_step (w : World) (op : Op) :
  hostAccepts w [op] -> texture_positive (collection w) ->
  texture_positive (collection (step w op)).
Proof.
  intros [Haccepted _] Hpositive.
  destruct op as [plane|clippingPlane| |limits frameState|plane n d|value|value|value];
    cbn [step collection].
  - unfold add. by destruct (instanceofClippingPlane _).
  - unfold remove. destruct (_ =? -1); [exact Hpositive|].
    by destruct (remove_shift _ _ _ _).
  - exact Hpositive.
  - by apply texture_positive_update.
  - unfold setPlane. by destruct (heap w plane) as [? ? ? [[]|]|].
  - unfold set_unionClippingRegions. by destruct (Bool.eqb _ _).
  - unfold set_enabled. by destruct (Bool.eqb _ _).
  - exact Hpositive.
Qed.

Lemma texture_positive_run (ops : list Op) :
  forall w : World,
    hostAccepts w ops -> texture_positive (collection w) ->
    texture_positive (collection (run w ops)).
Proof.
  induction ops as [|op ops IH]; intros w Haccepted Hpositive; [exact Hpositive|].
  destruct Haccepted as [Hop Hops]. cbn [run foldl]. apply IH; [exact Hops|].
  apply texture_positive_step; [|exact Hpositive]. by split.
Qed.

(** X9: under the same careful use, on a host whose capability does not
    change between updates and whose maximum texture size is at least 1,
    [update] raises no error of its own: when the host has accepted every
    texture that the earlier updates asked for and accepts what this one
    asks for, [update] returns, and the texture the collection then holds
    has positive width and height.  Its reads of the plane sequence and its
    writes to the typed array never fail, and the typed array it allocates
    has a valid length; what is left to fail is the texture collaborator
    and the encoders, which are taken to return. *)
Theorem careful_use_update_returns (objects : Heap) (options : Options)
    (ops : list Op) (limits : ContextLimits) (frameState : FrameState) :
  NoDup (default [] (planes options)) ->
  (forall r, onChangeCallback (objects r) = None) ->
  carefulRun (ClippingPlaneCollection_new objects options) ops ->
  Forall (sameHost (floatingPointTexture (context frameState))) ops ->
  hostAccepts (ClippingPlaneCollection_new objects options) ops ->
  1 <= maximumTextureSize limits ->
  let w := run (ClippingPlaneCollection_new objects options) ops in
  let o := update limits frameState (heap w) (collection w) in
  forallb (accepts limits) (gpuCalls o) = true ->
  completion o = Normal
  /\ exists texture,
       _clippingPlanesTexture (state o) = Some texture
       /\ Number.lt (Number.ofZ 0) (width texture) = true
       /\ Number.lt (Number.ofZ 0) (height texture) = true.
Proof.
  intros Hnodup Hfree Hcareful Hhost Haccepted Hmax w o Hnow. subst o w.
  destruct (linked_run ops _ Hcareful (linked_new objects options Hnodup Hfree))
    as [_ Hvalid].
  assert (Hnormal : completion (update limits frameState
                                  (heap (run (ClippingPlaneCollection_new objects options) ops))
                                  (collection (run (ClippingPlaneCollection_new objects options)
                                                 ops)))
                    = Normal).
  { apply update_completes_valid; [exact Hmax| |exact Hvalid].
    apply view_ready_run; [exact Hhost|].
    intros [texture Htexture].
    rewrite new_texture in Htexture. discriminate. }
  split; [exact Hnormal|].
  destruct (update_leaves_fitting_texture limits frameState
              (heap (run (ClippingPlaneCollection_new objects options) ops))
              (collection (run (ClippingPlaneCollection_new objects options) ops)) Hmax)
    as (_ & _ & Hheld).
  destruct (Hheld Hnormal) as (texture & Htexture & _).
  exists texture. split; [exact Htexture|].
  apply (texture_positive_update limits frameState _ _
           (texture_positive_run ops _ Haccepted
              ltac:(intros t Ht; rewrite new_texture in Ht; discriminate)) Hnow).
  exact Htexture.
Qed.

End CarefulUse.

Lemma sample_careful :
  NoDup (default [] (planes sample_options))
  /\ (forall r, onChangeCallback (sample_heap r) = None)
  /\ carefulRun (ClippingPlaneCollection_new sample_heap sample_options) sample_careful_ops
  /\ Forall (sameHost true) sample_careful_ops.
Proof.
  split; [|split; [|split]].
  - apply (bool_decide_unpack _). vm_compute. reflexivity.
  - intros [|[|[|r]]]; reflexivity.
  - cbn [carefulRun sample_careful_ops]. repeat split.
    + right. vm_compute. reflexivity.
    + apply (bool_decide_unpack _). vm_compute. reflexivity.
  - repeat constructor.
Defined.

Lemma careful_use_keeps_planes_linked_witness :
  let w := run (ClippingPlaneCollection_new sample_heap sample_options) sample_careful_ops in
  NoDup (default [] (planes sample_options))
  /\ (forall r, onChangeCallback (sample_heap r) = None)
  /\ carefulRun (ClippingPlaneCollection_new sample_heap sample_options) sample_careful_ops
  /\ linked w /\ dirtyIndex_valid (collection w).
Proof.
  intros w. destruct sample_careful as (Hnodup & Hfree & Hcareful & _).
  repeat (split; [assumption|]).
  exact (careful_use_keeps_planes_linked sample_heap sample_options sample_careful_ops
           Hnodup Hfree Hcareful).
Defined.

Lemma sample_accepted :
  hostAccepts (ClippingPlaneCollection_new sample_heap sample_options) sample_careful_ops.
Proof.
  cbn [hostAccepts sample_careful_ops]. repeat split; vm_compute; reflexivity.
Defined.

Lemma careful_use_update_returns_witness :
  let w := run (ClippingPlaneCollection_new sample_heap sample_options) sample_careful_ops in
  NoDup (default [] (planes sample_options))
  /\ (forall r, onChangeCallback (sample_heap r) = None)
  /\ carefulRun (ClippingPlaneCollection_new sample_heap sample_options) sample_careful_ops
  /\ Forall (sameHost (floatingPointTexture (context floatFrame))) sample_careful_ops
  /\ hostAccepts (ClippingPlaneCollection_new sample_heap sample_options) sample_careful_ops
  /\ 1 <= maximumTextureSize sample_limits
  /\ forallb (accepts sample_limits)
             (gpuCalls (update sample_limits floatFrame (heap w) (collection w))) = true
  /\ completion (update sample_limits floatFrame (heap w) (collection w)) = Normal.
Proof.
  intros w. destruct sample_careful as (Hnodup & Hfree & Hcareful & Hhost).
  assert (Haccepted := sample_accepted).
  assert (Hmax : 1 <= maximumTextureSize sample_limits) by (vm_compute; discriminate).
  assert (Hnow : forallb (accepts sample_limits)
                   (gpuCalls (update sample_limits floatFrame (heap w) (collection w)))
                 = true) by (vm_compute; reflexivity).
  repeat (split; [assumption|]).
  exact (proj1 (careful_use_update_returns sample_heap sample_options sample_careful_ops
                  sample_limits floatFrame Hnodup Hfree Hcareful Hhost Haccepted Hmax Hnow)).
Defined.

(** * The classifier's verdict *)

Lemma scan_verdict (union : bool) (values : list Intersect) :
  forall result : Intersect,
    let decisive := if union then OUTSIDE else INSIDE in
    scan union result values
    = if occurs decisive values then decisive
      else if occurs INTERSECTING values then INTERSECTING
      else result.
Proof.
  induction values as [|value values IH]; intros result; [by destruct union|].
  cbv zeta in *. unfold occurs in *. cbn [scan existsb].
  destruct value, union; cbn [earlyExit Intersect_eqb orb]; rewrite ?IH;
    cbn [Intersect_eqb orb];
    repeat match goal with |- context [existsb ?f values] => destruct (existsb f values) end;
    reflexivity.
Qed.

Lemma occurs_Permutation (value : Intersect) (values values' : list Intersect) :
  values ≡ₚ values' -> occurs value values = occurs value values'.
Proof.
  unfold occurs. induction 1 as [|x l l' _ IH|x y l|l l' l'' _ IH _ IH'].
  - reflexivity.
  - cbn. by rewrite IH.
  - cbn. by destruct (Intersect_eqb x value), (Intersect_eqb y value).
  - by rewrite IH.
Qed.

Section Verdict.
Context `{Collaborators}.

Lemma computeIntersection_verdict (w : World) (tileBoundingVolume : BoundingVolume)
    (transform : option Matrix4) :
  mode_consistent (collection w) ->
  computeIntersectionWithBoundingVolume w tileBoundingVolume transform
  = verdict (_unionClippingRegions (collection w))
      (classifications w tileBoundingVolume transform).
Proof.
  intros Hmode. unfold computeIntersectionWithBoundingVolume, verdict, classifications.
  rewrite (computeIntersection_loop_scan (collection w) (heap w) tileBoundingVolume _
             (_planes (collection w)) Hmode [] _ eq_refl).
  rewrite scan_verdict. cbv zeta.
  destruct (occurs _ _); [reflexivity|]. destruct (occurs _ _); [reflexivity|].
  destruct (_unionClippingRegions (collection w)), (_planes (collection w)); reflexivity.
Qed.

(** X10: for every collection that the constructor and the operations can
    produce, the classifier's answer is decided by which classifications the
    planes report, not by where they stand: OUTSIDE in union mode (INSIDE in
    intersection mode) as soon as one plane reports it; otherwise
    INTERSECTING if one plane reports that; otherwise INSIDE, except that a
    non-empty set in intersection mode yields OUTSIDE. *)
Theorem computeIntersectionWithBoundingVolume_verdict (objects : Heap) (options : Options)
    (ops : list Op) (tileBoundingVolume : BoundingVolume) (transform : option Matrix4) :
  let w := run (ClippingPlaneCollection_new objects options) ops in
  let values := classifications w tileBoundingVolume transform in
  let union := _unionClippingRegions (collection w) in
  let decisive := if union then OUTSIDE else INSIDE in
  computeIntersectionWithBoundingVolume w tileBoundingVolume transform
  = if occurs decisive values then decisive
    else if occurs INTERSECTING values then INTERSECTING
    else match union, values with
         | false, _ :: _ => OUTSIDE
         | _, _ => INSIDE
         end.
Proof.
  cbv zeta. apply computeIntersection_verdict, mode_consistent_run, mode_consistent_new.
Qed.

(** X11: the order of the planes does not matter to the classifier: two
    collections in the same mode whose planes report the same
    classifications up to order are classified alike. *)
Theorem computeIntersectionWithBoundingVolume_order (w w' : World)
    (tileBoundingVolume : BoundingVolume) (transform transform' : option Matrix4) :
  mode_consistent (collection w) -> mode_consistent (collection w') ->
  _unionClippingRegions (collection w) = _unionClippingRegions (collection w') ->
  classifications w tileBoundingVolume transform
    ≡ₚ classifications w' tileBoundingVolume transform' ->
  computeIntersectionWithBoundingVolume w tileBoundingVolume transform
  = computeIntersectionWithBoundingVolume w' tileBoundingVolume transform'.
Proof.
  intros Hmode Hmode' Hunion Hperm.
  rewrite !computeIntersection_verdict by assumption. rewrite <- Hunion.
  unfold verdict.
  rewrite !(occurs_Permutation _ _ _ Hperm).
  destruct (occurs _ _); [reflexivity|]. destruct (occurs _ _); [reflexivity|].
  destruct (_unionClippingRegions (collection w)); [reflexivity|].
  destruct (classifications w _ _) as [|v values].
  - destruct (classifications w' _ _) as [|v' values']; [reflexivity|].
    by apply Permutation_nil_cons in Hperm.
  - destruct (classifications w' _ _) as [|v' values']; [|reflexivity].
    symmetry in Hperm. by apply Permutation_nil_cons in Hperm.
Qed.

End Verdict.

Lemma computeIntersectionWithBoundingVolume_order_witness :
  let w := ClippingPlaneCollection_new sample_heap
             (Build_Options (Some [0%nat; 1%nat; 2%nat]) None None None) in
  let w' := ClippingPlaneCollection_new sample_heap
              (Build_Options (Some [2%nat; 0%nat; 1%nat]) None None None) in
  mode_consistent (collection w) /\ mode_consistent (collection w')
  /\ _unionClippingRegions (collection w) = _unionClippingRegions (collection w')
  /\ classifications w sample_volume None ≡ₚ classifications w' sample_volume None
  /\ computeIntersectionWithBoundingVolume w sample_volume None
     = computeIntersectionWithBoundingVolume w' sample_volume None.
Proof.
  intros w w'.
  assert (Hmode : mode_consistent (collection w)) by apply mode_consistent_new.
  assert (Hmode' : mode_consistent (collection w')) by apply mode_consistent_new.
  assert (Hunion : _unionClippingRegions (collection w) = _unionClippingRegions (collection w'))
    by (vm_compute; reflexivity).
  assert (Hperm : classifications w sample_volume None
                    ≡ₚ classifications w' sample_volume None).
  { assert (Hvalues : classifications w sample_volume None = [INSIDE; INTERSECTING; OUTSIDE])
      by (vm_compute; reflexivity).
    assert (Hvalues' : classifications w' sample_volume None = [OUTSIDE; INSIDE; INTERSECTING])
      by (vm_compute; reflexivity).
    rewrite Hvalues, Hvalues'.
    symmetry. apply (Permutation_cons_append [INSIDE; INTERSECTING] OUTSIDE). }
  repeat (split; [assumption|]).
  exact (computeIntersectionWithBoundingVolume_order w w' sample_volume None None
           Hmode Hmode' Hunion Hperm).
Defined.

(** * The encoders on a range of planes *)

Section EncoderRanges.
Context `{Collaborators}.

Lemma packPlanesAsFloats_loop_frame (heap : Heap) (planes : list PlaneRef) (count : nat) :
  forall (i : Z) (floatIndex : nat) (view view' : TypedArray),
    packPlanesAsFloats_loop heap planes count i floatIndex (Some view) = inr (Some view') ->
    forall p, (p < floatIndex \/ floatIndex + 4 * count <= p)%nat -> view' !! p = view !! p.
Proof.
  induction count as [|count IH]; intros i floatIndex view view' Hloop p Hp.
  - cbn in Hloop. congruence.
  - cbn [packPlanesAsFloats_loop] in Hloop.
    destruct (element planes i) as [plane|]; [|discriminate].
    rewrite (IH _ _ _ _ Hloop p) by lia.
    rewrite !list_lookup_insert_ne by lia. reflexivity.
Qed.

Lemma packPlanesAsUint8_loop_frame (heap : Heap) (planes : list PlaneRef) (count : nat) :
  forall (i : Z) (byteIndex : nat) (view view' : TypedArray),
    packPlanesAsUint8_loop heap planes count i byteIndex (Some view) = inr (Some view') ->
    forall p, (p < byteIndex \/ byteIndex + 8 * count <= p)%nat -> view' !! p = view !! p.
Proof.
  induction count as [|count IH]; intros i byteIndex view view' Hloop p Hp.
  - cbn in Hloop. congruence.
  - cbn [packPlanesAsUint8_loop] in Hloop.
    destruct (element planes i) as [plane|]; [|discriminate].
    rewrite (IH _ _ _ _ Hloop p) by lia.
    rewrite !list_lookup_insert_ne by lia. reflexivity.
Qed.

Lemma packPlanesAsFloats_loop_throws (heap : Heap) (planes : list PlaneRef) (count : nat) :
  forall (i : Z) (floatIndex : nat) (view : option TypedArray),
    (0 < count)%nat ->
    view = None \/ i < 0 \/ Z.of_nat (length planes) < i + Z.of_nat count ->
    packPlanesAsFloats_loop heap planes count i floatIndex view = inl TypeError.
Proof.
  induction count as [|count IH]; intros i floatIndex view Hcount Hbad; [lia|].
  cbn [packPlanesAsFloats_loop].
  destruct (element planes i) as [plane|] eqn:Eplane; [|reflexivity].
  destruct view as [view|]; [|reflexivity].
  unfold element in Eplane. destruct (Z.ltb_spec i 0); [discriminate|].
  apply lookup_lt_Some in Eplane.
  destruct Hbad as [?|[?|Hbad]]; [discriminate|lia|].
  apply IH; [lia|]. right. right. lia.
Qed.

Lemma packPlanesAsUint8_loop_throws (heap : Heap) (planes : list PlaneRef) (count : nat) :
  forall (i : Z) (byteIndex : nat) (view : option TypedArray),
    (0 < count)%nat ->
    view = None \/ i < 0 \/ Z.of_nat (length planes) < i + Z.of_nat count ->
    packPlanesAsUint8_loop heap planes count i byteIndex view = inl TypeError.
Proof.
  induction count as [|count IH]; intros i byteIndex view Hcount Hbad; [lia|].
  cbn [packPlanesAsUint8_loop].
  destruct (element planes i) as [plane|] eqn:Eplane; [|reflexivity].
  destruct view as [view|]; [|reflexivity].
  unfold element in Eplane. destruct (Z.ltb_spec i 0); [discriminate|].
  apply lookup_lt_Some in Eplane.
  destruct Hbad as [?|[?|Hbad]]; [discriminate|lia|].
  apply IH; [lia|]. right. right. lia.
Qed.

(** X12: on a range of positions of the sequence, [packPlanesAsFloats]
    returns; it changes nothing but the float view; plane [startIndex + m]
    of the range lands in texel [m] of the view, counted from the start of
    the view whatever [startIndex] is; the view keeps its length, and every
    element past the range's texels keeps its value. *)
Theorem packPlanesAsFloats_range (heap : Heap) (this : ClippingPlaneCollection)
    (startIndex endIndex : nat) (view : TypedArray) :
  _float32View this = Some view ->
  (startIndex <= endIndex <= length (_planes this))%nat ->
  exists view',
    packPlanesAsFloats heap this (Z.of_nat startIndex) (Z.of_nat endIndex)
    = inr (with_float32View this (Some view'))
    /\ length view' = length view
    /\ (forall m plane,
          (m < endIndex - startIndex)%nat ->
          _planes this !! (startIndex + m)%nat = Some plane ->
          (4 * m + 4 <= length view)%nat ->
          pixelAt view' m = floatTexel (heap plane))
    /\ (forall p, (4 * (endIndex - startIndex) <= p)%nat -> view' !! p = view !! p).
Proof.
  intros Hview Hrange. unfold packPlanesAsFloats. rewrite Hview.
  replace (Z.to_nat (Z.of_nat endIndex - Z.of_nat startIndex))
    with (endIndex - startIndex)%nat by lia.
  destruct (packPlanesAsFloats_loop_ok heap (_planes this) (endIndex - startIndex)
              (Z.of_nat startIndex) 0 view ltac:(lia) ltac:(lia)) as (view' & Hloop & Hlength).
  rewrite Hloop. exists view'. split; [reflexivity|]. split; [exact Hlength|].
  destruct (packPlanesAsFloats_loop_layout heap (_planes this) (endIndex - startIndex)
              startIndex 0 view view' Hloop) as (_ & _ & Hlayout).
  split.
  - intros m plane Hm Hplane Hfits. by apply (Hlayout m plane).
  - intros p Hp. apply (packPlanesAsFloats_loop_frame _ _ _ _ _ _ _ Hloop). lia.
Qed.

(** X13: on a range of positions of the sequence, [packPlanesAsUint8]
    returns; it changes nothing but the byte view; plane [startIndex + m] of
    the range lands in texels [2 m] (the encoded normal) and [2 m + 1] (the
    packed distance), counted from the start of the view whatever
    [startIndex] is; the view keeps its length, and every element past the
    range's texels keeps its value. *)
Theorem packPlanesAsUint8_range (heap : Heap) (this : ClippingPlaneCollection)
    (startIndex endIndex : nat) (view : TypedArray) :
  _uint8View this = Some view ->
  (startIndex <= endIndex <= length (_planes this))%nat ->
  exists view',
    packPlanesAsUint8 heap this (Z.of_nat startIndex) (Z.of_nat endIndex)
    = inr (with_uint8View this (Some view'))
    /\ length view' = length view
    /\ (forall m plane,
          (m < endIndex - startIndex)%nat ->
          _planes this !! (startIndex + m)%nat = Some plane ->
          (8 * m + 8 <= length view)%nat ->
          pixelAt view' (2 * m) = normalTexel (heap plane)
          /\ pixelAt view' (2 * m + 1) = distanceTexel (heap plane))
    /\ (forall p, (8 * (endIndex - startIndex) <= p)%nat -> view' !! p = view !! p).
Proof.
  intros Hview Hrange. unfold packPlanesAsUint8. rewrite Hview.
  replace (Z.to_nat (Z.of_nat endIndex - Z.of_nat startIndex))
    with (endIndex - startIndex)%nat by lia.
  destruct (packPlanesAsUint8_loop_ok heap (_planes this) (endIndex - startIndex)
              (Z.of_nat startIndex) 0 view ltac:(lia) ltac:(lia)) as (view' & Hloop & Hlength).
  rewrite Hloop. exists view'. split; [reflexivity|]. split; [exact Hlength|].
  destruct (packPlanesAsUint8_loop_layout heap (_planes this) (endIndex - startIndex)
              startIndex 0 view view' Hloop) as (_ & _ & Hlayout).
  split.
  - intros m plane Hm Hplane Hfits. by apply (Hlayout m plane).
  - intros p Hp. apply (packPlanesAsUint8_loop_frame _ _ _ _ _ _ _ Hloop). lia.
Qed.

(** X14: the encoders throw exactly when the range is not empty and either
    the typed array of the layout is undefined or the range is not within
    the positions of the sequence; what they throw is a TypeError, and an
    empty range returns the collection as it is even without a typed
    array. *)
Theorem packPlanes_TypeError (heap : Heap) (this : ClippingPlaneCollection)
    (startIndex endIndex : Z) :
  let outOfRange := startIndex < 0 \/ length_ this < endIndex in
  (startIndex < endIndex /\ (_float32View this = None \/ outOfRange) ->
   packPlanesAsFloats heap this startIndex endIndex = inl TypeError)
  /\ (startIndex < endIndex /\ (_uint8View this = None \/ outOfRange) ->
      packPlanesAsUint8 heap this startIndex endIndex = inl TypeError)
  /\ (~ (startIndex < endIndex /\ (_float32View this = None \/ outOfRange)) ->
      exists view, packPlanesAsFloats heap this startIndex endIndex
                   = inr (with_float32View this view))
  /\ (~ (startIndex < endIndex /\ (_uint8View this = None \/ outOfRange)) ->
      exists view, packPlanesAsUint8 heap this startIndex endIndex
                   = inr (with_uint8View this view))
  /\ (endIndex <= startIndex ->
      packPlanesAsFloats heap this startIndex endIndex = inr this
      /\ packPlanesAsUint8 heap this startIndex endIndex = inr this).
Proof.
  cbv zeta. unfold length_, packPlanesAsFloats, packPlanesAsUint8.
  split; [|split; [|split; [|split]]].
  - intros [Hrange Hbad].
    rewrite packPlanesAsFloats_loop_throws; [reflexivity|lia|].
    destruct Hbad as [?|[?|?]]; [by left|right; left; lia|right; right; lia].
  - intros [Hrange Hbad].
    rewrite packPlanesAsUint8_loop_throws; [reflexivity|lia|].
    destruct Hbad as [?|[?|?]]; [by left|right; left; lia|right; right; lia].
  - intros Hgood.
    destruct (Z.le_gt_cases endIndex startIndex) as [Hempty|Hrange].
    + replace (Z.to_nat (endIndex - startIndex)) with 0%nat by lia. cbn. eauto.
    + destruct (_float32View this) as [view|] eqn:Eview; [|exfalso; apply Hgood; auto].
      destruct (packPlanesAsFloats_loop_ok heap (_planes this)
                  (Z.to_nat (endIndex - startIndex)) startIndex 0 view)
        as (view' & -> & _); [lia|lia|eauto].
  - intros Hgood.
    destruct (Z.le_gt_cases endIndex startIndex) as [Hempty|Hrange].
    + replace (Z.to_nat (endIndex - startIndex)) with 0%nat by lia. cbn. eauto.
    + destruct (_uint8View this) as [view|] eqn:Eview; [|exfalso; apply Hgood; auto].
      destruct (packPlanesAsUint8_loop_ok heap (_planes this)
                  (Z.to_nat (endIndex - startIndex)) startIndex 0 view)
        as (view' & -> & _); [lia|lia|eauto].
  - intros Hempty.
    replace (Z.to_nat (endIndex - startIndex)) with 0%nat by lia. cbn.
    by destruct this.
Qed.

End EncoderRanges.

Lemma packPlanesAsFloats_range_witness :
  let w := run (ClippingPlaneCollection_new sample_heap sample_options)
               [OpUpdate sample_limits floatFrame] in
  exists view,
    _float32View (collection w) = Some view
    /\ (1 <= 3 <= length (_planes (collection w)))%nat
    /\ exists view',
         packPlanesAsFloats (heap w) (collection w) 1 3
         = inr (with_float32View (collection w) (Some view'))
         /\ length view' = length view.
Proof.
  intros w.
  destruct (_float32View (collection w)) as [view|] eqn:Eview;
    [|vm_compute in Eview; discriminate].
  exists view.
  assert (Hrange : (1 <= 3 <= length (_planes (collection w)))%nat)
    by (vm_compute; split; repeat constructor).
  split; [reflexivity|]. split; [exact Hrange|].
  destruct (packPlanesAsFloats_range (heap w) (collection w) 1 3 view Eview Hrange)
    as (view' & Hpacked & Hlength & _).
  exists view'. split; [exact Hpacked|exact Hlength].
Defined.

Lemma packPlanesAsUint8_range_witness :
  let w := run (ClippingPlaneCollection_new sample_heap sample_options)
               [OpUpdate sample_limits byteFrame] in
  exists view,
    _uint8View (collection w) = Some view
    /\ (1 <= 3 <= length (_planes (collection w)))%nat
    /\ exists view',
         packPlanesAsUint8 (heap w) (collection w) 1 3
         = inr (with_uint8View (collection w) (Some view'))
         /\ length view' = length view.
Proof.
  intros w.
  destruct (_uint8View (collection w)) as [view|] eqn:Eview;
    [|vm_compute in Eview; discriminate].
  exists view.
  assert (Hrange : (1 <= 3 <= length (_planes (collection w)))%nat)
    by (vm_compute; split; repeat constructor).
  split; [reflexivity|]. split; [exact Hrange|].
  destruct (packPlanesAsUint8_range (heap w) (collection w) 1 3 view Eview Hrange)
    as (view' & Hpacked & Hlength & _).
  exists view'. split; [exact Hpacked|exact Hlength].
Defined.

(** * The texture that [update] plans and allocates *)

Section Allocation.
Context `{Collaborators}.

Lemma planned_dims (limits : ContextLimits) (n : Z) :
  1 <= n -> 1 <= maximumTextureSize limits ->
  let columns := Z.min n (maximumTextureSize limits) in
  let rows := - (- n / columns) in
  plannedWidth limits (Number.ofZ n) = Number.ofZ (2 * columns)
  /\ plannedHeight limits (Number.ofZ n) = Number.ofZ rows
  /\ 1 <= columns /\ 1 <= rows /\ n <= columns * rows < n + columns.
Proof.
  intros Hn Hmax. cbv zeta. unfold plannedWidth, plannedHeight.
  destruct (computeTextureResolution_positive limits n Hn Hmax) as (-> & Hw & Hh & Hfit).
  cbn [Cartesian2.x Cartesian2.y]. rewrite mul_ofZ.
  split; [f_equal; lia|]. split; [reflexivity|]. split; [exact Hw|]. split; [exact Hh|].
  exact Hfit.
Qed.

(** X15: for at least one pixel on a host whose maximum width is at least 1,
    the planned resolution is [min(pixelsNeeded, maximum)] columns by
    [ceil(pixelsNeeded / columns)] rows; both are at least 1, the plan holds
    every pixel, and it wastes less than one row. *)
Theorem computeTextureResolution_plan (limits : ContextLimits) (pixelsNeeded : Z) :
  1 <= pixelsNeeded -> 1 <= maximumTextureSize limits ->
  let columns := Z.min pixelsNeeded (maximumTextureSize limits) in
  let rows := - (- pixelsNeeded / columns) in
  computeTextureResolution limits (Number.ofZ pixelsNeeded)
  = Cartesian2.mk (Number.ofZ columns) (Number.ofZ rows)
  /\ 1 <= columns <= maximumTextureSize limits /\ 1 <= rows
  /\ pixelsNeeded <= columns * rows < pixelsNeeded + columns.
Proof.
  intros Hn Hmax. cbv zeta.
  destruct (computeTextureResolution_positive limits pixelsNeeded Hn Hmax)
    as (-> & Hw & Hh & Hfit).
  split; [reflexivity|]. split; [lia|]. split; [exact Hh|exact Hfit].
Qed.

(** X16: the first [update] of a collection of at least one plane, on a
    host whose maximum width is at least 1, allocates a texture twice as
    wide as the planned resolution and uploads all of it after a full
    refresh; the typed array of the layout has four elements per texel; the
    texture holds between two and four times the pixels needed; and it is
    wider than the host's maximum as soon as the pixels needed exceed half
    of that maximum. *)
Theorem update_first_allocation (limits : ContextLimits) (frameState : FrameState)
    (heap : Heap) (this : ClippingPlaneCollection) :
  let useFloat := floatingPointTexture (context frameState) in
  let pixelsNeeded := pixelsNeededFor useFloat this in
  let columns := Z.min pixelsNeeded (maximumTextureSize limits) in
  let rows := - (- pixelsNeeded / columns) in
  _clippingPlanesTexture this = None ->
  1 <= length_ this -> 1 <= maximumTextureSize limits ->
  let o := update limits frameState heap this in
  gpuCalls o
  = [TextureNew (Number.ofZ (2 * columns)) (Number.ofZ rows) (datatypeFor useFloat);
     TextureCopyFrom (Number.ofZ (2 * columns)) (Number.ofZ rows) None]
  /\ fullRefresh useFloat heap o
  /\ (exists texture,
        _clippingPlanesTexture (state o) = Some texture
        /\ width texture = Number.ofZ (2 * columns) /\ height texture = Number.ofZ rows
        /\ pixelDatatype texture = datatypeFor useFloat)
  /\ length <$> viewOf useFloat (state o) = Some (Z.to_nat (4 * (2 * columns * rows)))
  /\ 2 * pixelsNeeded <= 2 * columns * rows <= 4 * pixelsNeeded
  /\ (maximumTextureSize limits < 2 * pixelsNeeded ->
      maximumTextureSize limits < 2 * columns).
Proof.
  intros useFloat pixelsNeeded columns rows Htexture Hlength Hmax o.
  assert (Hneeded : 1 <= pixelsNeeded).
  { unfold pixelsNeeded, pixelsNeededFor. destruct useFloat; lia. }
  destruct (planned_dims limits pixelsNeeded Hneeded Hmax)
    as (Hwidth & Hheight & Hcolumns & Hrows & Hfit).
  cbv zeta in Hwidth, Hheight, Hcolumns, Hrows, Hfit. fold columns in Hwidth, Hheight, Hcolumns, Hfit.
  fold rows in Hheight, Hrows, Hfit.
  assert (Hkeep : update_keep this (Number.ofZ pixelsNeeded) = (None, [])).
  { by rewrite update_keep_unfold, Htexture. }
  subst o. rewrite (update_allocation limits frameState heap this [] Hkeep).
  fold useFloat. fold pixelsNeeded. rewrite Hwidth, Hheight.
  set (fresh := Texture_new (Number.ofZ (2 * columns)) (Number.ofZ rows)
                  (datatypeFor useFloat)).
  cbn [width height fresh Texture_new app]. rewrite !mul_ofZ.
  rewrite TypedArray_new_ofZ by nia.
  set (view := replicate _ _). fold fresh.
  destruct (allocated_fields useFloat this view fresh) as (Hp & Hv & Ht & Hm & Hu).
  destruct (update_refresh_fullRefresh useFloat heap (allocated useFloat this view fresh) fresh
              [TextureNew (Number.ofZ (2 * columns)) (Number.ofZ rows) (datatypeFor useFloat)]
              view)
    as (Hfull & Hcalls & _ & _).
  { by rewrite Hm. }
  { exact Hv. }
  { no_upload. }
  split; [exact Hcalls|]. split; [exact Hfull|]. split; [|split; [|split]].
  - destruct (update_refresh_keeps useFloat heap (allocated useFloat this view fresh) fresh
                [TextureNew (Number.ofZ (2 * columns)) (Number.ofZ rows)
                   (datatypeFor useFloat)] Ht)
      as (_ & _ & texture & Hstate & Hw' & Hh' & Hd').
    exists texture. split; [exact Hstate|]. by rewrite Hw', Hh', Hd'.
  - destruct (update_refresh_keeps_views useFloat heap (allocated useFloat this view fresh)
                fresh
                [TextureNew (Number.ofZ (2 * columns)) (Number.ofZ rows)
                   (datatypeFor useFloat)])
      as [Hfloat Hbyte].
    cbv zeta in Hfloat, Hbyte. unfold viewOf in *.
    destruct useFloat; [rewrite Hfloat, Hv|rewrite Hbyte, Hv]; cbn [fmap option_fmap option_map];
      unfold view; rewrite length_replicate; f_equal; lia.
  - nia.
  - unfold columns. lia.
Qed.

End Allocation.

Lemma computeTextureResolution_plan_witness :
  1 <= 40000 /\ 1 <= maximumTextureSize sample_limits
  /\ computeTextureResolution sample_limits (Number.ofZ 40000)
     = Cartesian2.mk (Number.ofZ 16384) (Number.ofZ 3).
Proof.
  assert (Hn : 1 <= 40000) by lia.
  assert (Hmax : 1 <= maximumTextureSize sample_limits) by (vm_compute; discriminate).
  split; [exact Hn|]. split; [exact Hmax|].
  exact (proj1 (computeTextureResolution_plan sample_limits 40000 Hn Hmax)).
Defined.

Lemma update_first_allocation_witness :
  let w := ClippingPlaneCollection_new sample_heap sample_options in
  _clippingPlanesTexture (collection w) = None
  /\ 1 <= length_ (collection w) /\ 1 <= maximumTextureSize sample_limits
  /\ gpuCalls (update sample_limits byteFrame (heap w) (collection w))
     = [TextureNew (Number.ofZ 12) (Number.ofZ 1) UNSIGNED_BYTE;
        TextureCopyFrom (Number.ofZ 12) (Number.ofZ 1) None].
Proof.
  intros w.
  assert (Htexture : _clippingPlanesTexture (collection w) = None) by (vm_compute; reflexivity).
  assert (Hlength : 1 <= length_ (collection w)) by (vm_compute; discriminate).
  assert (Hmax : 1 <= maximumTextureSize sample_limits) by (vm_compute; discriminate).
  repeat (split; [assumption|]).
  exact (proj1 (update_first_allocation sample_limits byteFrame (heap w) (collection w)
                  Htexture Hlength Hmax)).
Defined.

(** * What [update] does and does not touch *)

Section UpdateShape.
Context `{Collaborators}.

Lemma update_refresh_outcome (useFloat : bool) heap this texture calls :
  let o := update_refresh useFloat heap this texture calls in
  (state o = this /\ gpuCalls o = calls)
  \/ (exists view texture' copyWidth copyHeight offset,
        state o = refreshed useFloat this view texture'
        /\ gpuCalls o = calls ++ [TextureCopyFrom copyWidth copyHeight offset]
        /\ completion o = Normal).
Proof.
  cbv zeta.
  destruct (_multipleDirtyPlanes this || _containsUntrackablePlanes this) eqn:Efull.
  - rewrite update_refresh_full by exact Efull.
    destruct (encode _ _ _ _ _ _); cbn [gpuCalls state completion]; [by left|].
    right. by eexists _, _, _, _, _.
  - apply orb_false_iff in Efull as [Hm Hu].
    destruct (Z.eq_dec (_dirtyIndex this) (-1)) as [Hd|Hd].
    + rewrite update_refresh_skip by assumption. by left.
    + rewrite update_refresh_partial by assumption.
      destruct (encode _ _ _ _ _ _); cbn [gpuCalls state completion]; [by left|].
      right. by eexists _, _, _, _, _.
Qed.

Lemma untouched_refreshed (useFloat : bool) this view texture :
  untouched this (refreshed useFloat this view texture).
Proof. destruct useFloat; by repeat split. Qed.

Lemma untouched_allocated (useFloat : bool) this view texture :
  untouched this (allocated useFloat this view texture).
Proof. destruct useFloat; by repeat split. Qed.

Lemma untouched_trans (a b c : ClippingPlaneCollection) :
  untouched a b -> untouched b c -> untouched a c.
Proof.
  unfold untouched. intros (? & ? & ? & ? & ? & ?) (? & ? & ? & ? & ? & ?).
  repeat split; congruence.
Qed.

(** X17: whatever the collection and the host, [update] calls the texture
    collaborator in one of a few shapes: at most one allocation, preceded by
    the destruction of the old texture if there was one, and then at most
    one upload; an [update] that throws has uploaded nothing.  It never
    writes the plane sequence, the untracked-plane flag, the enabled flag,
    the model matrix or the clipping mode. *)
Theorem update_calls_shape (limits : ContextLimits) (frameState : FrameState)
    (heap : Heap) (this : ClippingPlaneCollection) :
  let o := update limits frameState heap this in
  (exists reallocation uploads,
     gpuCalls o = reallocation ++ uploads
     /\ (reallocation = []
         \/ exists width' height' datatype,
              (reallocation = [TextureNew width' height' datatype]
               /\ _clippingPlanesTexture this = None)
              \/ (reallocation = [TextureDestroy; TextureNew width' height' datatype]
                  /\ is_Some (_clippingPlanesTexture this)))
     /\ (uploads = []
         \/ exists copyWidth copyHeight offset,
              uploads = [TextureCopyFrom copyWidth copyHeight offset])
     /\ (completion o <> Normal -> uploads = []))
  /\ _planes (state o) = _planes this
  /\ _containsUntrackablePlanes (state o) = _containsUntrackablePlanes this
  /\ _enabled (state o) = _enabled this
  /\ modelMatrix (state o) = modelMatrix this
  /\ _unionClippingRegions (state o) = _unionClippingRegions this
  /\ _testIntersection (state o) = _testIntersection this.
Proof.
  cbv zeta. set (useFloat := floatingPointTexture (context frameState)).
  assert (Hrefresh : forall that texture calls,
            let o := update_refresh useFloat heap that texture calls in
            (exists uploads,
               gpuCalls o = calls ++ uploads
               /\ (uploads = []
                   \/ exists copyWidth copyHeight offset,
                        uploads = [TextureCopyFrom copyWidth copyHeight offset])
               /\ (completion o <> Normal -> uploads = []))
            /\ untouched that (state o)).
  { intros that texture calls. cbv zeta.
    destruct (update_refresh_outcome useFloat heap that texture calls)
      as [[-> ->]|(view & texture' & cw & ch & off & -> & -> & Hnormal)].
    - split; [|by repeat split]. exists []. rewrite app_nil_r. auto.
    - split; [|apply untouched_refreshed]. eexists. split; [reflexivity|].
      split; [right; eauto|]. intros Hthrown. by rewrite Hnormal in Hthrown. }
  assert (Hkeep_unfold := update_keep_unfold this (Number.ofZ (pixelsNeededFor useFloat this))).
  destruct (_clippingPlanesTexture this) as [texture|] eqn:Etexture.
  - destruct (reallocationNeeded texture _) eqn:Eneeded.
    + rewrite (update_allocation limits frameState heap this _ Hkeep_unfold).
      fold useFloat. cbn [app]. set (fresh := Texture_new _ _ _).
      destruct (TypedArray_new _) as [e|view].
      * cbn [gpuCalls state completion]. split; [|by repeat split].
        eexists _, []. rewrite app_nil_r. split; [reflexivity|].
        split; [right; eexists _, _, _; right; eauto|]. auto.
      * destruct (Hrefresh (allocated useFloat this view fresh) fresh
                    [TextureDestroy;
                     TextureNew (width fresh) (height fresh) (datatypeFor useFloat)])
          as [(uploads & -> & Hshape & Hthrown) Hsame].
        split.
        -- eexists _, uploads. split; [reflexivity|].
           split; [right; eexists _, _, _; right; eauto|]. auto.
        -- apply (untouched_trans _ _ _ (untouched_allocated useFloat this view fresh) Hsame).
    + rewrite (update_keeps limits frameState heap this texture [] Hkeep_unfold).
      fold useFloat.
      destruct (Hrefresh this texture []) as [(uploads & -> & Hshape & Hthrown) Hsame].
      split; [|exact Hsame]. exists [], uploads. auto.
  - rewrite (update_allocation limits frameState heap this _ Hkeep_unfold).
    fold useFloat. cbn [app]. set (fresh := Texture_new _ _ _).
    destruct (TypedArray_new _) as [e|view].
    + cbn [gpuCalls state completion]. split; [|by repeat split].
      eexists _, []. rewrite app_nil_r. split; [reflexivity|].
      split; [right; eexists _, _, _; left; eauto|]. auto.
    + destruct (Hrefresh (allocated useFloat this view fresh) fresh
                  [TextureNew (width fresh) (height fresh) (datatypeFor useFloat)])
        as [(uploads & -> & Hshape & Hthrown) Hsame].
      split.
      * eexists _, uploads. split; [reflexivity|].
        split; [right; eexists _, _, _; left; eauto|]. auto.
      * apply (untouched_trans _ _ _ (untouched_allocated useFloat this view fresh) Hsame).
Qed.


End UpdateShape.

(** * Changing planes between updates *)

Lemma linked_member (w : World) (k : nat) (plane : PlaneRef) :
  linked w -> _planes (collection w) !! k = Some plane ->
  instanceofClippingPlane (heap w plane) = true ->
  exists n d, heap w plane = ClippingPlane n d (Z.of_nat k) (Some SetIndexDirtyCallback).
Proof.
  intros (_ & Hmembers & _) Hk Htracked.
  destruct (Hmembers k plane Hk Htracked) as [Hindex Hcallback].
  destruct (heap w plane) as [n d i cb|]; [|discriminate].
  cbn in Hindex, Hcallback. injection Hindex as ->. subst cb. eauto.
Qed.

Section ChangedPlanes.
Context `{Collaborators}.

(** X18: on a float host, changing one tracked member of a linked
    collection whose texture fits, whether or not that same plane was
    already pending, makes the next [update] upload exactly one texel: the
    one at the plane's row and column, which then holds the plane's new
    normal and distance, while every other texel keeps its value; the
    tracker is clean afterwards. *)
Theorem setPlane_then_update_float (limits : ContextLimits) (frameState : FrameState)
    (w : World) (texture : Texture) (view : TypedArray) (tw th : Z)
    (k : nat) (plane : PlaneRef) (n : Cartesian3.t) (d : Number) :
  floatingPointTexture (context frameState) = true ->
  linked w ->
  _planes (collection w) !! k = Some plane ->
  instanceofClippingPlane (heap w plane) = true ->
  _containsUntrackablePlanes (collection w) = false ->
  dirtyState (collection w) = Clean \/ dirtyState (collection w) = Single (Z.of_nat k) ->
  _clippingPlanesTexture (collection w) = Some texture ->
  width texture = Number.ofZ tw -> height texture = Number.ofZ th -> 0 < tw ->
  length_ (collection w) <= tw * th <= 4 * length_ (collection w) ->
  _float32View (collection w) = Some view -> (4 <= length view)%nat ->
  let w' := setPlane w plane n d in
  let o := update limits frameState (heap w') (collection w') in
  completion o = Normal
  /\ gpuCalls o
     = [TextureCopyFrom (Number.ofZ 1) (Number.ofZ 1)
          (Some (Number.ofZ (Z.of_nat k mod tw), Number.ofZ (Z.of_nat k / tw)))]
  /\ _clippingPlanesTexture (state o)
     = Some (mkTexture (width texture) (height texture) (pixelDatatype texture)
               (<[k := floatTexel (Plane n d)]> (texels texture)))
  /\ dirtyState (state o) = Clean.
Proof.
  intros Hfloat Hlinked Hk Htracked Hflag Hdirty Htexture Hwidth Hheight Htw Hfits Hview
    Hlength w' o.
  destruct (linked_member w k plane Hlinked Hk Htracked) as (n0 & d0 & Hobject).
  assert (Hw' : w' = mkWorld (<[plane := ClippingPlane n d (Z.of_nat k)
                                           (Some SetIndexDirtyCallback)]> (heap w))
                             (setIndexDirty (collection w) (Z.of_nat k))).
  { unfold w', setPlane. by rewrite Hobject. }
  assert (Hsingle : dirtyState (setIndexDirty (collection w) (Z.of_nat k))
                    = Single (Z.of_nat k)).
  { unfold dirtyState, setIndexDirty in *. cbn.
    destruct (_multipleDirtyPlanes (collection w)); [by destruct Hdirty|].
    destruct (Z.eqb_spec (_dirtyIndex (collection w)) (-1)) as [->|Hpending].
    - cbn. destruct (Z.eqb_spec (Z.of_nat k) (-1)); [lia|reflexivity].
    - destruct Hdirty as [?|Hsame]; [discriminate|]. injection Hsame as ->.
      rewrite Z.eqb_refl. cbn. destruct (Z.eqb_spec (Z.of_nat k) (-1)); [lia|reflexivity]. }
  subst o. rewrite Hw'. cbn [heap collection].
  destruct (partial_update_float limits frameState
              (<[plane := ClippingPlane n d (Z.of_nat k) (Some SetIndexDirtyCallback)]> (heap w))
              (setIndexDirty (collection w) (Z.of_nat k)) texture view tw th k plane
              Hfloat Htexture Hwidth Hheight Htw Hfits Hview Hlength Hflag Hsingle Hk)
    as (Hnormal & Hcalls & _ & Hresult & Hclean).
  rewrite fn_lookup_insert in Hresult. by repeat split.
Qed.


End ChangedPlanes.

Lemma sample_uploaded_linked : linked sample_uploaded.
Proof.
  assert (Hrun : sample_uploaded
                 = run (ClippingPlaneCollection_new sample_heap sample_tracked_options)
                       [OpUpdate sample_limits floatFrame]) by (vm_compute; reflexivity).
  rewrite Hrun. apply linked_run.
  - cbn. auto.
  - apply linked_new.
    + apply (bool_decide_unpack _). vm_compute. reflexivity.
    + intros [|[|[|r]]]; reflexivity.
Defined.

Lemma setPlane_then_update_float_witness :
  let w' := setPlane sample_uploaded 1%nat UNIT_X (Number.ofZ 3) in
  floatingPointTexture (context floatFrame) = true
  /\ linked sample_uploaded
  /\ _planes (collection sample_uploaded) !! 1%nat = Some 1%nat
  /\ instanceofClippingPlane (heap sample_uploaded 1%nat) = true
  /\ _containsUntrackablePlanes (collection sample_uploaded) = false
  /\ (dirtyState (collection sample_uploaded) = Clean
      \/ dirtyState (collection sample_uploaded) = Single 1)
  /\ _clippingPlanesTexture (collection sample_uploaded) = Some sample_uploaded_texture
  /\ width sample_uploaded_texture = Number.ofZ 4
  /\ height sample_uploaded_texture = Number.ofZ 1
  /\ 0 < 4
  /\ length_ (collection sample_uploaded) <= 4 * 1 <= 4 * length_ (collection sample_uploaded)
  /\ _float32View (collection sample_uploaded) = Some sample_uploaded_view
  /\ (4 <= length sample_uploaded_view)%nat
  /\ gpuCalls (update sample_limits floatFrame (heap w') (collection w'))
     = [TextureCopyFrom (Number.ofZ 1) (Number.ofZ 1)
          (Some (Number.ofZ (1 mod 4), Number.ofZ (1 / 4)))].
Proof.
  intros w'.
  assert (H1 : floatingPointTexture (context floatFrame) = true) by reflexivity.
  assert (H2 := sample_uploaded_linked).
  assert (H3 : _planes (collection sample_uploaded) !! 1%nat = Some 1%nat)
    by (vm_compute; reflexivity).
  assert (H4 : instanceofClippingPlane (heap sample_uploaded 1%nat) = true)
    by (vm_compute; reflexivity).
  assert (H5 : _containsUntrackablePlanes (collection sample_uploaded) = false)
    by (vm_compute; reflexivity).
  assert (H6 : dirtyState (collection sample_uploaded) = Clean
               \/ dirtyState (collection sample_uploaded) = Single (Z.of_nat 1))
    by (left; vm_compute; reflexivity).
  assert (H7 : _clippingPlanesTexture (collection sample_uploaded)
               = Some sample_uploaded_texture) by (vm_compute; reflexivity).
  assert (H8 : width sample_uploaded_texture = Number.ofZ 4) by (vm_compute; reflexivity).
  assert (H9 : height sample_uploaded_texture = Number.ofZ 1) by (vm_compute; reflexivity).
  assert (H10 : 0 < 4) by lia.
  assert (H11 : length_ (collection sample_uploaded) <= 4 * 1
                <= 4 * length_ (collection sample_uploaded))
    by (vm_compute; split; discriminate).
  assert (H12 : _float32View (collection sample_uploaded) = Some sample_uploaded_view)
    by (vm_compute; reflexivity).
  assert (H13 : (4 <= length sample_uploaded_view)%nat) by (vm_compute; repeat constructor).
  repeat (split; [assumption|]).
  exact (proj1 (proj2 (setPlane_then_update_float sample_limits floatFrame sample_uploaded
                         sample_uploaded_texture sample_uploaded_view 4 1 1 1%nat UNIT_X
                         (Number.ofZ 3) H1 H2 H3 H4 H5 H6 H7 H8 H9 H10 H11 H12 H13))).
Defined.


(** * Ownership *)

Section OwnershipProperties.
Context {Key : Type} `{EqDecision Key}.

Lemma exclusive_destroyPrevious (s : Ownership (Key:=Key)) (owner : OwnerRef) (key : Key) :
  exclusive s ->
  exclusive (destroyPrevious s owner key)
  /\ property (destroyPrevious s owner key) (owner, key) = None.
Proof.
  intros (Hnames & Honce & Hgone & Hnodup). unfold destroyPrevious.
  destruct (property s (owner, key)) as [previous|] eqn:Eslot.
  - split; [|cbn; by rewrite fn_lookup_insert].
    unfold exclusive. cbn [_owner property destroyed].
    split; [|split; [|split]].
    + intros o k held. destruct (decide ((owner, key) = (o, k))) as [<-|Hne].
      * by rewrite fn_lookup_insert.
      * rewrite fn_lookup_insert_ne by exact Hne. apply Hnames.
    + intros slot slot' held.
      destruct (decide ((owner, key) = slot)) as [<-|Hne];
        [by rewrite fn_lookup_insert|rewrite fn_lookup_insert_ne by exact Hne].
      destruct (decide ((owner, key) = slot')) as [<-|Hne'];
        [by rewrite fn_lookup_insert|rewrite fn_lookup_insert_ne by exact Hne'].
      apply Honce.
    + intros gone Hin. apply elem_of_app in Hin as [Hin|Hin].
      * destruct (Hgone gone Hin) as [Howned Hfree]. split; [exact Howned|].
        intros slot. destruct (decide ((owner, key) = slot)) as [<-|Hne];
          [by rewrite fn_lookup_insert|rewrite fn_lookup_insert_ne by exact Hne].
        apply Hfree.
      * apply list_elem_of_singleton in Hin as ->.
        split; [rewrite (Hnames owner key previous Eslot); eauto|].
        intros slot. destruct (decide ((owner, key) = slot)) as [<-|Hne];
          [by rewrite fn_lookup_insert|rewrite fn_lookup_insert_ne by exact Hne].
        intros Hslot. apply Hne. by apply (Honce _ _ previous).
    + apply list.NoDup_app. split; [exact Hnodup|]. split; [|apply NoDup_singleton].
      intros gone Hin Hin'. apply list_elem_of_singleton in Hin' as ->.
      destruct (Hgone previous Hin) as [_ Hfree]. by apply (Hfree (owner, key)).
  - split; [|exact Eslot]. exact (conj Hnames (conj Honce (conj Hgone Hnodup))).
Qed.

Lemma exclusive_setOwner (s : Ownership (Key:=Key))
    (clippingPlaneCollection : option CollectionRef) (owner : OwnerRef) (key : Key) :
  exclusive s -> exclusive (fst (setOwner s clippingPlaneCollection owner key)).
Proof.
  intros Hs. unfold setOwner.
  destruct (decide (clippingPlaneCollection = property s (owner, key))); [exact Hs|].
  destruct (exclusive_destroyPrevious s owner key Hs) as [Hcleared Hempty].
  set (s1 := destroyPrevious s owner key) in *.
  destruct clippingPlaneCollection as [collection|]; [|exact Hcleared].
  destruct (_owner s1 collection) as [other|] eqn:Eowner; [exact Hcleared|].
  destruct Hcleared as (Hnames & Honce & Hgone & Hnodup).
  assert (Hfree : forall slot, property s1 slot <> Some collection).
  { intros [o k] Hslot. rewrite (Hnames o k collection Hslot) in Eowner. discriminate. }
  unfold exclusive. cbn [fst _owner property destroyed].
  split; [|split; [|split]].
  - intros o k held. destruct (decide ((owner, key) = (o, k))) as [Heq|Hne].
    + rewrite <- Heq, fn_lookup_insert. intros [= <-]. rewrite fn_lookup_insert.
      by injection Heq as -> _.
    + rewrite fn_lookup_insert_ne by exact Hne. intros Hslot.
      destruct (decide (collection = held)) as [<-|Hother];
        [by apply Hfree in Hslot|].
      rewrite fn_lookup_insert_ne by exact Hother. by apply (Hnames o k).
  - intros slot slot' held.
    destruct (decide ((owner, key) = slot)) as [<-|Hne];
      destruct (decide ((owner, key) = slot')) as [<-|Hne'];
      rewrite ?fn_lookup_insert, ?fn_lookup_insert_ne by assumption.
    + reflexivity.
    + intros [= <-] Hslot. by apply Hfree in Hslot.
    + intros Hslot [= <-]. by apply Hfree in Hslot.
    + apply Honce.
  - intros gone Hin. destruct (Hgone gone Hin) as [Howned Hnowhere].
    assert (collection <> gone).
    { intros <-. rewrite Eowner in Howned. by destruct Howned. }
    split; [by rewrite fn_lookup_insert_ne|].
    intros slot. destruct (decide ((owner, key) = slot)) as [<-|Hne];
      [rewrite fn_lookup_insert; congruence|rewrite fn_lookup_insert_ne by exact Hne].
    apply Hnowhere.
  - exact Hnodup.
Qed.

Lemma exclusive_setOwners (calls : list (option CollectionRef * OwnerRef * Key)) :
  forall s : Ownership (Key:=Key), exclusive s -> exclusive (setOwners s calls).
Proof.
  induction calls as [|[[c o] k] calls IH]; intros s Hs; [exact Hs|].
  cbn [setOwners foldl]. apply IH. by apply exclusive_setOwner.
Qed.

Lemma owner_setOwner (s : Ownership (Key:=Key))
    (clippingPlaneCollection : option CollectionRef) (owner : OwnerRef) (key : Key)
    (collection : CollectionRef) (o : OwnerRef) :
  _owner s collection = Some o ->
  _owner (fst (setOwner s clippingPlaneCollection owner key)) collection = Some o.
Proof.
  intros Howned. unfold setOwner.
  destruct (decide (clippingPlaneCollection = property s (owner, key))); [exact Howned|].
  assert (Hsame : _owner (destroyPrevious s owner key) = _owner s)
    by (unfold destroyPrevious; by destruct (property s (owner, key))).
  cbv zeta. destruct clippingPlaneCollection as [c|]; [|cbn [fst]; by rewrite Hsame].
  destruct (_owner (destroyPrevious s owner key) c) eqn:Ec; cbn [fst]; [by rewrite Hsame|].
  cbn [_owner]. rewrite fn_lookup_insert_ne; [by rewrite Hsame|].
  intros ->. rewrite Hsame in Ec. congruence.
Qed.

Lemma owner_setOwners (calls : list (option CollectionRef * OwnerRef * Key)) :
  forall (s : Ownership (Key:=Key)) (collection : CollectionRef) (o : OwnerRef),
    _owner s collection = Some o -> _owner (setOwners s calls) collection = Some o.
Proof.
  induction calls as [|[[c o'] k] calls IH]; intros s collection o Howned; [exact Howned|].
  cbn [setOwners foldl]. apply IH. by apply owner_setOwner.
Qed.

Lemma destroyed_setOwners (calls : list (option CollectionRef * OwnerRef * Key)) :
  forall (s : Ownership (Key:=Key)) (gone : CollectionRef),
    gone ∈ destroyed s -> gone ∈ destroyed (setOwners s calls).
Proof.
  induction calls as [|[[c o] k] calls IH]; intros s gone Hin; [exact Hin|].
  cbn [setOwners foldl]. apply IH. unfold setOwner.
  destruct (decide (c = property s (o, k))); [exact Hin|].
  assert (Hkept : gone ∈ destroyed (destroyPrevious s o k)).
  { unfold destroyPrevious. destruct (property s (o, k)); [|exact Hin].
    cbn. apply elem_of_app. by left. }
  destruct c as [c|]; [|exact Hkept].
  by destruct (_owner (destroyPrevious s o k) c).
Qed.

Lemma exclusive_noOwnership : exclusive (noOwnership (Key:=Key)).
Proof.
  unfold exclusive, noOwnership. cbn.
  split; [discriminate|]. split; [discriminate|]. split; [|apply NoDup_nil_2].
  intros gone Hin. by apply elem_of_nil in Hin.
Qed.

(** X20: however [setOwner] is called on objects that start without owners,
    and whether the calls return or throw, ownership stays exclusive: the
    collection an owner holds names that owner in [_owner], no collection is
    held under two properties, and a destroyed collection is held by nobody
    and was destroyed exactly once. *)
Theorem setOwner_keeps_ownership_exclusive
    (calls : list (option CollectionRef * OwnerRef * Key)) :
  exclusive (setOwners (noOwnership (Key:=Key)) calls).
Proof.
  apply exclusive_setOwners, exclusive_noOwnership.
Qed.

(** X21: assigning a collection that already has an owner to a property
    that does not hold it throws a DeveloperError, but only after the
    collection that the property held has been destroyed and the property
    has been cleared; no [_owner] and no other property changes. *)
Theorem setOwner_rejected (s : Ownership (Key:=Key)) (collection : CollectionRef)
    (current owner : OwnerRef) (key : Key) :
  _owner s collection = Some current ->
  property s (owner, key) <> Some collection ->
  let result := setOwner s (Some collection) owner key in
  snd result = Abrupt DeveloperError
  /\ property (fst result) (owner, key) = None
  /\ destroyed (fst result)
     = destroyed s ++ match property s (owner, key) with
                      | Some previous => [previous]
                      | None => []
                      end
  /\ _owner (fst result) = _owner s
  /\ (forall slot, slot <> (owner, key) -> property (fst result) slot = property s slot).
Proof.
  intros Howned Hheld. cbv zeta. unfold setOwner.
  destruct (decide (Some collection = property s (owner, key))) as [Heq|_];
    [by rewrite <- Heq in Hheld|].
  unfold destroyPrevious.
  destruct (property s (owner, key)) as [previous|] eqn:Eslot;
    cbn [_owner property destroyed]; rewrite Howned; cbn [fst snd _owner property destroyed].
  - split; [reflexivity|]. split; [by rewrite fn_lookup_insert|].
    split; [reflexivity|]. split; [reflexivity|].
    intros slot Hne. by rewrite fn_lookup_insert_ne.
  - split; [reflexivity|]. split; [exact Eslot|]. rewrite app_nil_r. by repeat split.
Qed.

(** X22: a collection that an owner gives up can never be attached again,
    to that owner or to another: it has been destroyed, it keeps naming its
    old owner, and every later assignment of it throws a DeveloperError. *)
Theorem setOwner_after_release (s : Ownership (Key:=Key)) (collection : CollectionRef)
    (owner : OwnerRef) (key : Key)
    (calls : list (option CollectionRef * OwnerRef * Key))
    (owner' : OwnerRef) (key' : Key) :
  exclusive s ->
  property s (owner, key) = Some collection ->
  let later := setOwners (fst (setOwner s None owner key)) calls in
  collection ∈ destroyed later
  /\ _owner later collection = Some owner
  /\ snd (setOwner later (Some collection) owner' key') = Abrupt DeveloperError.
Proof.
  intros Hs Hheld later.
  assert (Hreleased : fst (setOwner s None owner key) = destroyPrevious s owner key).
  { unfold setOwner. destruct (decide (None = property s (owner, key))) as [Heq|_];
      [rewrite Hheld in Heq; discriminate|reflexivity]. }
  assert (Hgone : collection ∈ destroyed (destroyPrevious s owner key)).
  { unfold destroyPrevious. rewrite Hheld. cbn. apply elem_of_app. right.
    apply list_elem_of_here. }
  assert (Hnames : _owner (destroyPrevious s owner key) collection = Some owner).
  { destruct Hs as (Hnames & _). unfold destroyPrevious. rewrite Hheld. cbn.
    by apply (Hnames owner key). }
  assert (Hlater : exclusive later).
  { unfold later. rewrite Hreleased. apply exclusive_setOwners.
    by apply exclusive_destroyPrevious. }
  assert (Hin : collection ∈ destroyed later).
  { unfold later. rewrite Hreleased. by apply destroyed_setOwners. }
  assert (Howner : _owner later collection = Some owner).
  { unfold later. rewrite Hreleased. by apply owner_setOwners. }
  split; [exact Hin|]. split; [exact Howner|].
  destruct Hlater as (_ & _ & Hfree & _). destruct (Hfree collection Hin) as [_ Hnowhere].
  unfold setOwner.
  destruct (decide (Some collection = property later (owner', key'))) as [Heq|_];
    [symmetry in Heq; by apply Hnowhere in Heq|].
  assert (Hsame : _owner (destroyPrevious later owner' key') = _owner later)
    by (unfold destroyPrevious; by destruct (property later (owner', key'))).
  rewrite Hsame, Howner. reflexivity.
Qed.

End OwnershipProperties.

Lemma setOwner_rejected_witness :
  let s := setOwners (noOwnership (Key:=nat))
             [(Some 0%nat, 0%nat, 0%nat); (Some 1%nat, 1%nat, 0%nat)] in
  let result := setOwner s (Some 0%nat) 1%nat 0%nat in
  _owner s 0%nat = Some 0%nat
  /\ property s (1%nat, 0%nat) <> Some 0%nat
  /\ snd result = Abrupt DeveloperError
  /\ property (fst result) (1%nat, 0%nat) = None
  /\ destroyed (fst result) = [1%nat].
Proof.
  intros s result.
  assert (Howned : _owner s 0%nat = Some 0%nat) by (vm_compute; reflexivity).
  assert (Hheld : property s (1%nat, 0%nat) <> Some 0%nat) by (vm_compute; discriminate).
  split; [exact Howned|]. split; [exact Hheld|].
  destruct (setOwner_rejected s 0%nat 0%nat 1%nat 0%nat Howned Hheld)
    as (Hthrown & Hcleared & Hdestroyed & _).
  split; [exact Hthrown|]. split; [exact Hcleared|].
  vm_compute. reflexivity.
Defined.

Lemma setOwner_after_release_witness :
  let s := setOwners (noOwnership (Key:=nat)) [(Some 0%nat, 0%nat, 0%nat)] in
  let later := setOwners (fst (setOwner s None 0%nat 0%nat)) [(Some 1%nat, 0%nat, 0%nat)] in
  exclusive s
  /\ property s (0%nat, 0%nat) = Some 0%nat
  /\ snd (setOwner later (Some 0%nat) 1%nat 5%nat) = Abrupt DeveloperError.
Proof.
  intros s later.
  assert (Hs : exclusive s) by apply exclusive_setOwners, exclusive_noOwnership.
  assert (Hheld : property s (0%nat, 0%nat) = Some 0%nat) by (vm_compute; reflexivity).
  split; [exact Hs|]. split; [exact Hheld|].
  exact (proj2 (proj2 (setOwner_after_release s 0%nat 0%nat 0%nat
                         [(Some 1%nat, 0%nat, 0%nat)] 1%nat 5%nat Hs Hheld))).
Defined.

(** * The texture after the first update *)

Lemma foldl_insert_seq {A : Type} (g : nat -> A) (base count : nat) :
  forall (start : nat) (tx : list A),
    let tx' := foldl (fun tx col => <[(base + col)%nat := g col]> tx) tx (seq start count) in
    length tx' = length tx
    /\ (forall p, (base + start <= p < base + start + count)%nat -> (p < length tx)%nat ->
          tx' !! p = Some (g (p - base)%nat))
    /\ (forall p, ~ (base + start <= p < base + start + count)%nat -> tx' !! p = tx !! p).
Proof.
  induction count as [|count IH]; intros start tx; cbn [seq foldl].
  - split; [reflexivity|]. split; [lia|reflexivity].
  - destruct (IH (S start) (<[(base + start)%nat := g start]> tx)) as (Hlen & Hin & Hout).
    cbv zeta in *. rewrite length_insert in Hlen, Hin.
    split; [exact Hlen|]. split.
    + intros p Hp Hlt. destruct (decide (p = base + start)%nat) as [->|Hne].
      * rewrite Hout by lia. rewrite list_lookup_insert_eq by exact Hlt.
        f_equal. f_equal. lia.
      * apply Hin; lia.
    + intros p Hp. rewrite Hout by lia. apply list_lookup_insert_ne. lia.
Qed.

Lemma blit_rows (texWidth : nat) (view : TypedArray) (count : nat) :
  forall (start : nat) (tx : list Cartesian4.t),
    let tx' :=
      foldl (fun tx row =>
               foldl (fun tx col =>
                        <[((0 + row) * texWidth + 0 + col)%nat
                          := pixelAt view (row * texWidth + col)]> tx)
                     tx (seq 0 texWidth))
            tx (seq start count) in
    length tx' = length tx
    /\ (forall p, (start * texWidth <= p < (start + count) * texWidth)%nat ->
          (p < length tx)%nat -> tx' !! p = Some (pixelAt view p))
    /\ (forall p, ~ (start * texWidth <= p < (start + count) * texWidth)%nat ->
          tx' !! p = tx !! p).
Proof.
  induction count as [|count IH]; intros start tx; cbn [seq foldl].
  - split; [reflexivity|]. split; [lia|reflexivity].
  - destruct (foldl_insert_seq (fun col => pixelAt view (start * texWidth + col))
                ((0 + start) * texWidth + 0) texWidth 0 tx) as (Hlen1 & Hin1 & Hout1).
    cbv zeta in Hlen1, Hin1, Hout1.
    set (tx1 := foldl _ tx (seq 0 texWidth)) in *.
    destruct (IH (S start) tx1) as (Hlen & Hin & Hout). cbv zeta in Hlen, Hin, Hout.
    split; [by rewrite Hlen|]. split.
    + intros p Hp Hlt.
      destruct (decide (p < S start * texWidth)%nat) as [Hrow|Hlater].
      * rewrite Hout by lia. rewrite Hin1 by lia. f_equal. f_equal. lia.
      * apply Hin; [lia|by rewrite Hlen1].
    + intros p Hp. rewrite Hout by lia. apply Hout1. lia.
Qed.

Lemma blit_full (texWidth texHeight : nat) (texels : list Cartesian4.t)
    (view : TypedArray) (p : nat) :
  length texels = (texWidth * texHeight)%nat -> (p < texWidth * texHeight)%nat ->
  blit texWidth texels texWidth texHeight 0 0 view !! p = Some (pixelAt view p).
Proof.
  intros Hlength Hp. unfold blit.
  destruct (blit_rows texWidth view texHeight 0 texels) as (_ & Hin & _).
  apply Hin; lia.
Qed.

Section FirstUpload.
Context `{Collaborators}.

(** X23: after the first [update] of a collection, on a host whose maximum
    width is at least 1, the texture holds every plane where the layout
    puts it: plane [i] is texel [i] in the float layout, and texels [2 i]
    (its encoded normal) and [2 i + 1] (its packed distance) in the
    quantized layout. *)
Theorem first_update_uploads_planes (limits : ContextLimits) (frameState : FrameState)
    (heap : Heap) (this : ClippingPlaneCollection) (i : nat) (plane : PlaneRef) :
  let useFloat := floatingPointTexture (context frameState) in
  _clippingPlanesTexture this = None ->
  1 <= maximumTextureSize limits ->
  _planes this !! i = Some plane ->
  let o := update limits frameState heap this in
  exists texture,
    _clippingPlanesTexture (state o) = Some texture
    /\ (fun texel => texels texture !! texel) <$> planeTexels useFloat i
       = if useFloat then [Some (floatTexel (heap plane))]
         else [Some (normalTexel (heap plane)); Some (distanceTexel (heap plane))].
Proof.
  intros useFloat Htexture Hmax Hplane o.
  pose proof (lookup_lt_Some _ _ _ Hplane) as Hi.
  set (pixelsNeeded := pixelsNeededFor useFloat this).
  assert (Hneeded : 1 <= pixelsNeeded).
  { unfold pixelsNeeded, pixelsNeededFor, length_. destruct useFloat; lia. }
  destruct (planned_dims limits pixelsNeeded Hneeded Hmax)
    as (Hwidth & Hheight & Hcolumns & Hrows & Hfit).
  cbv zeta in Hwidth, Hheight, Hcolumns, Hrows, Hfit.
  set (columns := Z.min pixelsNeeded (maximumTextureSize limits)) in *.
  set (rows := - (- pixelsNeeded / columns)) in *.
  assert (Hkeep : update_keep this (Number.ofZ pixelsNeeded) = (None, [])).
  { by rewrite update_keep_unfold, Htexture. }
  subst o. rewrite (update_allocation limits frameState heap this [] Hkeep).
  fold useFloat. fold pixelsNeeded. rewrite Hwidth, Hheight.
  set (fresh := Texture_new (Number.ofZ (2 * columns)) (Number.ofZ rows)
                  (datatypeFor useFloat)).
  cbn [width height fresh Texture_new app]. rewrite !mul_ofZ.
  rewrite TypedArray_new_ofZ by nia.
  set (view := replicate _ _). fold fresh.
  assert (Hview_length : length view = Z.to_nat (2 * columns * rows * 4))
    by (unfold view; apply length_replicate).
  destruct (allocated_fields useFloat this view fresh) as (Hp & Hv & Ht & Hm & Hu).
  rewrite update_refresh_full by (by rewrite Hm).
  destruct (encode_all_ok useFloat heap (_planes this) view) as (view' & Hencode & Hlength).
  unfold length_. rewrite Hp, Hv, Hencode. cbn [state].
  destruct (refreshed_fields useFloat (allocated useFloat this view fresh) (Some view')
              (copyFrom fresh (width fresh) (height fresh) (Some view') None))
    as (_ & _ & Hresult & _).
  eexists. split; [exact Hresult|].
  assert (Htexels : forall p, (p < Z.to_nat (2 * columns) * Z.to_nat rows)%nat ->
            texels (copyFrom fresh (width fresh) (height fresh) (Some view') None) !! p
            = Some (pixelAt view' p)).
  { intros p Hp'. unfold copyFrom. cbn [from_option id]. unfold Texture_copyFrom.
    cbn [width height fresh Texture_new]. rewrite !to_index_ofZ.
    destruct (Z.leb_spec 0 (2 * columns)); [|lia]. destruct (Z.leb_spec 0 rows); [|lia].
    destruct (Z.leb_spec 0 0); [|lia]. change (Z.to_nat 0) with 0%nat.
    assert (Hbounds :
      (0 + Z.to_nat (2 * columns) <=? Z.to_nat (2 * columns))%nat
      && (0 + Z.to_nat rows <=? Z.to_nat rows)%nat
      && (4 * Z.to_nat (2 * columns) * Z.to_nat rows <=? length view')%nat = true).
    { rewrite !andb_true_iff. repeat split; apply Nat.leb_le; [lia|lia|].
      rewrite Hlength, Hview_length. nia. }
    rewrite Hbounds. unfold fresh, Texture_new. cbn [texels pixelDatatype].
    apply blit_full; [|exact Hp'].
    rewrite length_replicate. unfold texel_count. rewrite !to_index_ofZ.
    destruct (Z.leb_spec 0 (2 * columns)); [|lia]. by destruct (Z.leb_spec 0 rows); [|lia]. }
  assert (Hcapacity : (Z.to_nat (2 * pixelsNeeded)
                       <= Z.to_nat (2 * columns) * Z.to_nat rows)%nat) by nia.
  destruct (full_encode_layout heap (_planes this) view view' i plane Hplane)
    as [Hfloats Hbytes].
  unfold pixelsNeeded, pixelsNeededFor, length_ in Hcapacity.
  destruct useFloat; cbn [planeTexels fmap list_fmap] in *.
  - rewrite Htexels by lia. f_equal. f_equal.
    specialize (Hfloats Hencode ltac:(rewrite Hview_length; nia)).
    congruence.
  - rewrite !Htexels by lia.
    specialize (Hbytes Hencode ltac:(rewrite Hview_length; nia)).
    congruence.
Qed.

End FirstUpload.

Lemma first_update_uploads_planes_witness :
  let w := ClippingPlaneCollection_new sample_heap sample_options in
  let o := update sample_limits byteFrame (heap w) (collection w) in
  _clippingPlanesTexture (collection w) = None
  /\ 1 <= maximumTextureSize sample_limits
  /\ _planes (collection w) !! 2%nat = Some 2%nat
  /\ exists texture,
       _clippingPlanesTexture (state o) = Some texture
       /\ (fun texel => texels texture !! texel) <$> planeTexels false 2
          = [Some (normalTexel (heap w 2%nat)); Some (distanceTexel (heap w 2%nat))].
Proof.
  intros w o.
  assert (Htexture : _clippingPlanesTexture (collection w) = None) by (vm_compute; reflexivity).
  assert (Hmax : 1 <= maximumTextureSize sample_limits) by (vm_compute; discriminate).
  assert (Hplane : _planes (collection w) !! 2%nat = Some 2%nat) by (vm_compute; reflexivity).
  repeat (split; [assumption|]).
  exact (first_update_uploads_planes sample_limits byteFrame (heap w) (collection w) 2 2%nat
           Htexture Hmax Hplane).
Defined.

(** * An update without the typed array of the layout *)

Section MissingView.
Context `{Collaborators}.

Lemma encode_without_view (useFloat : bool) (heap : Heap) (planes : list PlaneRef)
    (startIndex endIndex : Z) :
  startIndex < endIndex ->
  encode useFloat heap planes startIndex endIndex None = inl TypeError.
Proof.
  intros Hrange. unfold encode.
  destruct useFloat;
    [apply packPlanesAsFloats_loop_throws|apply packPlanesAsUint8_loop_throws];
    first [lia|by left].
Qed.

(** X24: a collection that keeps its texture but has no typed array for the
    layout of the host, as after an upload on a host of the other kind,
    cannot refresh: when something is pending, [update] throws a TypeError
    before any call to the texture and leaves the collection as it is. *)
Theorem update_without_view_throws (limits : ContextLimits) (frameState : FrameState)
    (heap : Heap) (this : ClippingPlaneCollection) (texture : Texture) :
  let useFloat := floatingPointTexture (context frameState) in
  _clippingPlanesTexture this = Some texture ->
  reallocationNeeded texture (Number.ofZ (pixelsNeededFor useFloat this)) = false ->
  viewOf useFloat this = None ->
  1 <= length_ this ->
  dirtyState this <> Clean \/ _containsUntrackablePlanes this = true ->
  update limits frameState heap this = mkOutcome this [] (Abrupt TypeError).
Proof.
  intros useFloat Htexture Hfits Hview Hlength Hpending.
  assert (Hkeep : update_keep this (Number.ofZ (pixelsNeededFor useFloat this))
                  = (Some texture, [])).
  { by rewrite update_keep_unfold, Htexture, Hfits. }
  rewrite (update_keeps limits frameState heap this texture [] Hkeep). fold useFloat.
  destruct (_multipleDirtyPlanes this || _containsUntrackablePlanes this) eqn:Efull.
  - rewrite update_refresh_full by exact Efull.
    by rewrite Hview, encode_without_view by lia.
  - apply orb_false_iff in Efull as [Hm Hu].
    destruct Hpending as [Hdirty|Hflag]; [|congruence].
    assert (Hindex : _dirtyIndex this <> -1).
    { intros Hclean. apply Hdirty. unfold dirtyState. by rewrite Hm, Hclean. }
    rewrite update_refresh_partial by assumption.
    by rewrite Hview, encode_without_view by lia.
Qed.

End MissingView.

Lemma update_without_view_throws_witness :
  let w := setPlane sample_uploaded 1%nat UNIT_X (Number.ofZ 3) in
  _clippingPlanesTexture (collection w) = Some sample_uploaded_texture
  /\ reallocationNeeded sample_uploaded_texture
       (Number.ofZ (pixelsNeededFor (floatingPointTexture (context byteFrame)) (collection w)))
     = false
  /\ viewOf (floatingPointTexture (context byteFrame)) (collection w) = None
  /\ 1 <= length_ (collection w)
  /\ (dirtyState (collection w) <> Clean \/ _containsUntrackablePlanes (collection w) = true)
  /\ update sample_limits byteFrame (heap w) (collection w)
     = mkOutcome (collection w) [] (Abrupt TypeError).
Proof.
  intros w.
  assert (H1 : _clippingPlanesTexture (collection w) = Some sample_uploaded_texture)
    by (vm_compute; reflexivity).
  assert (H2 : reallocationNeeded sample_uploaded_texture
                 (Number.ofZ (pixelsNeededFor (floatingPointTexture (context byteFrame))
                                (collection w))) = false) by (vm_compute; reflexivity).
  assert (H3 : viewOf (floatingPointTexture (context byteFrame)) (collection w) = None)
    by (vm_compute; reflexivity).
  assert (H4 : 1 <= length_ (collection w)) by (vm_compute; discriminate).
  assert (H5 : dirtyState (collection w) <> Clean
               \/ _containsUntrackablePlanes (collection w) = true)
    by (left; vm_compute; discriminate).
  repeat (split; [assumption|]).
  exact (update_without_view_throws sample_limits byteFrame (heap w) (collection w)
           sample_uploaded_texture H1 H2 H3 H4 H5).
Defined.

(** * What each operation leaves alone *)

Section Frame.
Context `{Collaborators}.

Lemma update_untouched (limits : ContextLimits) (frameState : FrameState) (heap : Heap)
    (this : ClippingPlaneCollection) :
  untouched this (state (update limits frameState heap this)).
Proof.
  set (useFloat := floatingPointTexture (context frameState)).
  assert (Hrefresh : forall that texture calls,
            untouched that (state (update_refresh useFloat heap that texture calls))).
  { intros that texture calls.
    destruct (update_refresh_outcome useFloat heap that texture calls)
      as [[-> _]|(view & texture' & cw & ch & off & -> & _)].
    - by repeat split.
    - apply untouched_refreshed. }
  destruct (update_keep_cases this (Number.ofZ (pixelsNeededFor useFloat this)))
    as [(texture & Htex & Hkeep)|(calls & Hkeep & _)].
  - rewrite (update_keeps limits frameState heap this texture [] Hkeep). apply Hrefresh.
  - rewrite (update_allocation limits frameState heap this calls Hkeep).
    destruct (TypedArray_new _) as [e|view]; [by repeat split|].
    eapply untouched_trans; [apply untouched_allocated|apply Hrefresh].
Qed.

(** X25: what each of the operations [add], [remove], [removeAll],
    [update], a change of a plane and the three setters leaves alone
    ([clone] and [destroy] are not among them).  Of these, only the
    [unionClippingRegions] setter writes the clipping mode and its
    early-exit function, only the [enabled] setter the enabled flag and only
    an assignment the model matrix; only [update] writes the texture and the
    typed arrays; only [add], [remove] and [removeAll] write the plane
    sequence; only [add] writes the untracked-plane flag; and only [add],
    [remove], [removeAll] and a change of the plane itself write plane
    objects. *)
Theorem operations_frame (w : World) (op : Op) :
  let this := collection w in
  let this' := collection (step w op) in
  match op with
  | OpSetUnionClippingRegions _ => True
  | _ => _unionClippingRegions this' = _unionClippingRegions this
         /\ _testIntersection this' = _testIntersection this
  end
  /\ match op with
     | OpSetEnabled _ => True
     | _ => _enabled this' = _enabled this
     end
  /\ match op with
     | OpSetModelMatrix _ => True
     | _ => modelMatrix this' = modelMatrix this
     end
  /\ match op with
     | OpUpdate _ _ => True
     | _ => _clippingPlanesTexture this' = _clippingPlanesTexture this
            /\ _float32View this' = _float32View this
            /\ _uint8View this' = _uint8View this
     end
  /\ match op with
     | OpAdd _ | OpRemove _ | OpRemoveAll => True
     | _ => _planes this' = _planes this
     end
  /\ match op with
     | OpAdd _ => True
     | _ => _containsUntrackablePlanes this' = _containsUntrackablePlanes this
     end
  /\ match op with
     | OpAdd _ | OpRemove _ | OpRemoveAll | OpSetPlane _ _ _ => True
     | _ => heap (step w op) = heap w
     end.
Proof.
  cbv zeta.
  destruct op as [plane|clippingPlane| |limits frameState|plane n d|value|value|value];
    cbn [step collection heap].
  - unfold add. destruct (instanceofClippingPlane _); cbn; by repeat split.
  - unfold remove. destruct (_ =? -1); [by repeat split|].
    destruct (remove_shift _ _ _ _). cbn. by repeat split.
  - unfold removeAll. cbn. by repeat split.
  - destruct (update_untouched limits frameState (heap w) (collection w))
      as (Hplanes & Hflag & Henabled & Hmatrix & Hunion & Htest).
    by repeat split.
  - unfold setPlane. destruct (heap w plane) as [? ? ? [[]|]|]; cbn; by repeat split.
  - unfold set_unionClippingRegions. destruct (Bool.eqb _ _); cbn; by repeat split.
  - unfold set_enabled. destruct (Bool.eqb _ _); cbn; by repeat split.
  - cbn. by repeat split.
Qed.

End Frame.

(** * The dirty tracker and [update] *)

Section TrackerReset.
Context `{Collaborators}.




End TrackerReset.


